(** * Azure FinOps Optimizer: the retrieval-and-analytics core

    A shallow embedding of the Python modules

    - [utils/pricing.py]            (module [Pricing]),
    - [utils/error_handling.py]     (module [ErrorHandling]),
    - [tools/anomaly_detector.py]   (module [AnomalyDetector]),
    - [tools/governance_advisor.py] (module [GovernanceAdvisor]),
    - [tools/compliance_overlay.py] (module [ComplianceOverlay]),
    - [tools/budget_validator.py]   (module [BudgetValidator]),

    together with the properties the specification states about them.

    Conventions of the embedding.
    - A Python [float] is an exact rational ([Q]); equality of amounts is
      [Qeq] ([==]).  [round(x, 2)] is rounding to the nearest hundredth with
      ties to the even neighbour.
    - A Python [int] is a [Z]; a [str] is a [string]; [None]-able values are
      [option]s.
    - A dictionary with string keys is a [gmap]; where the iteration order of
      a dictionary is observable it is an association list.
    - A call that may raise returns a [result]: [Ok v] or [Raise e].
    - Where the code takes what it is given without looking at its type,
      the embedding does too: a float that comes out of a header is a
      [float_value] (a rational, [nan] or an infinity), and an entry of a
      dictionary that comes from a template or a caller is a [value]
      ([None], a number, a string, a list or a dictionary). *)

From Stdlib Require Import QArith Qround Qminmax Lqa Ascii.
From stdpp Require Import gmap strings list sorting pretty.

Open Scope Q_scope.

(** ** Python values shared by all modules *)

Module Py.

(** The exception classes the core distinguishes.  In the SDK
    [ClientAuthenticationError] and [ResourceNotFoundError] are subclasses of
    [HttpResponseError]; an [except HttpResponseError] clause catches all
    three, so the subclass is a field of the error.  The error also carries
    its status code, its message and the text of the [Retry-After] header of
    its response, if it has a response with that header. *)
Inductive http_class : Type :=
  | PlainHttpError
  | ClientAuthentication
  | ResourceNotFound.

Record http_error : Type := {
  http_cls : http_class;
  status_code : Z;
  message : option string;
  retry_after_header : option string
}.

Inductive exn : Type :=
  | HttpResponseError (e : http_error)
  | ServiceRequestError
  | ConnectionError
  | ValueError
  | TypeError
  | AttributeError
  | RuntimeError
  | RateLimitExceeded
  | AuthenticationExpired
  | OtherException (name : string).

(** [ClientAuthenticationError(...)] with a status code. *)
Definition ClientAuthenticationError (status : Z) : exn :=
  HttpResponseError
    {| http_cls := ClientAuthentication; status_code := status;
       message := None; retry_after_header := None |}.

Inductive result (A : Type) : Type :=
  | Ok (v : A)
  | Raise (e : exn).
Arguments Ok {A} v.
Arguments Raise {A} e.

Definition bind {A B} (r : result A) (k : A -> result B) : result B :=
  match r with
  | Ok v => k v
  | Raise e => Raise e
  end.

#[global] Instance result_ret : MRet result := fun _ v => Ok v.
#[global] Instance result_bind : MBind result := fun _ _ k r => bind r k.
#[global] Instance result_fmap : FMap result :=
  fun _ _ f r => bind r (fun v => Ok (f v)).

(** [x or d] on an optional string: [None] and the empty string are falsy. *)
Definition str_or (x : option string) (d : string) : string :=
  match x with
  | Some s => if decide (s = EmptyString) then d else s
  | None => d
  end.

(** [str.lower()] on the ASCII letters. *)
Definition lower_ascii (c : Ascii.ascii) : Ascii.ascii :=
  let n := Ascii.nat_of_ascii c in
  if ((65 <=? n)%nat && (n <=? 90)%nat)%bool then Ascii.ascii_of_nat (n + 32) else c.

Fixpoint lower (s : string) : string :=
  match s with
  | EmptyString => EmptyString
  | String c t => String (lower_ascii c) (lower t)
  end.

(** [needle in hay] on strings. *)
Fixpoint contains (needle hay : string) : bool :=
  String.prefix needle hay ||
  match hay with
  | EmptyString => false
  | String _ t => contains needle t
  end.

(** [any(keyword in text for keyword in keywords)]. *)
Definition any_in (keywords : list string) (text : string) : bool :=
  existsb (fun keyword => contains keyword text) keywords.

(** [int(s)] on a string of decimal digits; anything else is a
    [ValueError]. *)
Definition digit_of (c : Ascii.ascii) : option Z :=
  let n := Ascii.nat_of_ascii c in
  if ((48 <=? n)%nat && (n <=? 57)%nat)%bool then Some (Z.of_nat (n - 48)) else None.

Fixpoint int_digits (acc : Z) (s : string) : option Z :=
  match s with
  | EmptyString => Some acc
  | String c t =>
      match digit_of c with
      | Some d => int_digits (10 * acc + d) t
      | None => None
      end
  end.

Definition int_of_str (s : string) : result Z :=
  match s with
  | EmptyString => Raise ValueError
  | _ => match int_digits 0 s with
         | Some n => Ok n
         | None => Raise ValueError
         end
  end.

(** [[int(s) for s in keys]]: the first key that does not parse raises. *)
Fixpoint ints_of_strs (keys : list string) : result (list Z) :=
  match keys with
  | [] => Ok []
  | s :: rest =>
      n ← int_of_str s;
      ns ← ints_of_strs rest;
      Ok (n :: ns)
  end.

(** [round(x, 2)]: nearest hundredth, ties to even. *)
Definition round_half_even (x : Q) : Z :=
  let f := Qfloor x in
  let r := x - inject_Z f in
  match Qcompare r (1 # 2) with
  | Lt => f
  | Gt => (f + 1)%Z
  | Eq => if Z.even f then f else (f + 1)%Z
  end.

Definition round2 (x : Q) : Q := inject_Z (round_half_even (x * 100)) / 100.

(** [sum(xs)] and [statistics.mean(xs)] (on a non-empty list). *)
Definition sum (xs : list Q) : Q := fold_left Qplus xs 0.

Definition mean (xs : list Q) : Q := sum xs / inject_Z (Z.of_nat (length xs)).

(** A reading of [float(s)] for plain decimal numerals ([12], [12.5]);
    [None] stands for the [ValueError].  The modules take the conversion as
    a parameter; this one serves to run them on examples. *)
Fixpoint split_dot (s : string) : string * option string :=
  match s with
  | EmptyString => (EmptyString, None)
  | String c t =>
      if decide (c = "."%char) then (EmptyString, Some t)
      else let '(a, b) := split_dot t in (String c a, b)
  end.

Definition float_of_decimal (s : string) : option Q :=
  let '(whole, frac) := split_dot s in
  match whole, frac with
  | EmptyString, _ => None
  | _, None => inject_Z <$> int_digits 0 whole
  | _, Some f =>
      w ← int_digits 0 whole;
      d ← int_digits 0 f;
      Some (inject_Z w + inject_Z d / inject_Z (10 ^ Z.of_nat (String.length f)))
  end.

(** A Python float is a number, here a rational, or one of the three
    values that are not: [nan], [inf] and [-inf]. *)
Inductive float_value : Type :=
  | Number (q : Q)
  | NaN
  | Infinity
  | MinusInfinity.

(** [s.strip()], on the white space of ASCII. *)
Definition is_space (c : Ascii.ascii) : bool :=
  let n := Ascii.nat_of_ascii c in
  ((n =? 32)%nat || ((9 <=? n)%nat && (n <=? 13)%nat))%bool.

Fixpoint lstrip (s : string) : string :=
  match s with
  | String c t => if is_space c then lstrip t else s
  | EmptyString => EmptyString
  end.

Definition strip (s : string) : string :=
  String.rev (lstrip (String.rev (lstrip s))).

(** The texts that [float] reads as a value that is not a number: [nan],
    [inf] and [infinity], in any case, with a sign or without, white space
    around them ignored. *)
Definition nonfinite_float (s : string) : option float_value :=
  let text := lower (strip s) in
  let '(negative, body) :=
    match text with
    | String "-" body => (true, body)
    | String "+" body => (false, body)
    | _ => (false, text)
    end in
  if decide (body = "nan"%string) then Some NaN
  else if decide (body = "inf"%string \/ body = "infinity"%string)
       then Some (if negative then MinusInfinity else Infinity)
       else None.

(** [bool(x)] on a float: every value but zero is true. *)
Definition float_truthy (x : float_value) : bool :=
  match x with
  | Number q => negb (Qeq_bool q 0)
  | _ => true
  end.

(** [min(x, bound)], which is [x] unless [bound < x]; no comparison with
    [nan] holds. *)
Definition float_min (x : float_value) (bound : Q) : float_value :=
  match x with
  | Number q => Number (Qmin q bound)
  | NaN => NaN
  | Infinity => Number bound
  | MinusInfinity => MinusInfinity
  end.

Definition OverflowError : exn := OtherException "OverflowError".

(** [time.sleep(secs)] keeps the time in nanoseconds, in a signed 64-bit
    integer.  It raises [ValueError] on [nan] and on a negative length,
    [OverflowError] on a length that does not fit; otherwise it returns,
    having slept [secs]. *)
Definition sleep_limit : Q := inject_Z (2 ^ 63) / inject_Z (10 ^ 9).

Definition time_sleep (secs : float_value) : result Q :=
  match secs with
  | NaN => Raise ValueError
  | Infinity | MinusInfinity => Raise OverflowError
  | Number q =>
      if (Qle_bool sleep_limit q || Qle_bool q (- sleep_limit))%bool
      then Raise OverflowError
      else if Qle_bool 0 q then Ok q else Raise ValueError
  end.

(** A value of a dictionary, as [json.load] gives it: [None], a number (an
    int or a finite float; a bool is the number 0 or 1, as it is in Python),
    a string, a list or a dictionary with string keys.  The entries of a
    dictionary have distinct keys. *)
#[warnings="-register-all"] Inductive value : Type :=
  | VNone
  | VNumber (q : Q)
  | VStr (s : string)
  | VList (items : list value)
  | VDict (entries : list (string * value)).

(** [bool(v)]. *)
Definition value_truthy (v : value) : bool :=
  match v with
  | VNone => false
  | VNumber q => negb (Qeq_bool q 0)
  | VStr s => if decide (s = EmptyString) then false else true
  | VList items => if items is [] then false else true
  | VDict entries => if entries is [] then false else true
  end.

Fixpoint entry_of (entries : list (string * value)) (key : string) : option value :=
  match entries with
  | [] => None
  | (k, v) :: rest => if decide (k = key) then Some v else entry_of rest key
  end.

(** [d.get(key, dflt)]: only a dictionary has the method. *)
Definition value_get (d : value) (key : string) (dflt : value) : result value :=
  match d with
  | VDict entries => Ok (default dflt (entry_of entries key))
  | _ => Raise AttributeError
  end.

(** [for x in v]: the items of a list, the keys of a dictionary, the
    characters of a string; [None] and a number cannot be iterated. *)
Definition value_iter (v : value) : result (list value) :=
  match v with
  | VList items => Ok items
  | VDict entries => Ok (map (fun kv => VStr kv.1) entries)
  | VStr s => Ok (map (fun c => VStr (String c EmptyString)) (String.list_ascii_of_string s))
  | VNone | VNumber _ => Raise TypeError
  end.

(** [needle in v], for a string [needle]: a substring of a string, an item
    of a list, a key of a dictionary; [None] and a number are not
    containers. *)
Definition str_in_value (needle : string) (v : value) : result bool :=
  match v with
  | VStr s => Ok (contains needle s)
  | VList items =>
      Ok (existsb (fun x => if x is VStr s then bool_decide (s = needle) else false)
                  items)
  | VDict entries => Ok (existsb (fun kv => bool_decide (kv.1 = needle)) entries)
  | VNone | VNumber _ => Raise TypeError
  end.

(** [table.get(key)] on a table with string keys, for a key of any type: a
    list or a dictionary cannot be hashed, and any other key that is not a
    string is not in the table. *)
Definition get_by_value {V : Type} (table : gmap string V) (key : value)
  : result (option V) :=
  match key with
  | VStr s => Ok (table !! s)
  | VList _ | VDict _ => Raise TypeError
  | VNone | VNumber _ => Ok None
  end.

(** A stable sort into descending order of a rational key, as
    [list.sort(key=..., reverse=True)]: records with equal keys keep their
    original order. *)
Fixpoint insert_desc {A} (key : A -> Q) (x : A) (l : list A) : list A :=
  match l with
  | [] => [x]
  | y :: rest =>
      if Qle_bool (key y) (key x) then x :: y :: rest
      else y :: insert_desc key x rest
  end.

Definition sort_desc {A} (key : A -> Q) (l : list A) : list A :=
  foldr (insert_desc key) [] l.

End Py.

Import Py.

(** ** [utils/pricing.py] *)

Module Pricing.

Definition vm_prices : gmap string Q :=
  list_to_map
    [ ("Standard_B1s"%string, 7.59); ("Standard_B2s"%string, 30.37);
      ("Standard_D2s_v3"%string, 96.36); ("Standard_D4s_v3"%string, 192.72);
      ("Standard_D8s_v3"%string, 385.44); ("Standard_E2s_v3"%string, 109.50);
      ("Standard_E4s_v3"%string, 219.00) ].

Definition disk_prices : gmap string (gmap string Q) :=
  list_to_map
    [ ("Standard_LRS"%string,
        list_to_map
          [ ("32"%string, 1.54); ("64"%string, 3.07); ("128"%string, 6.14);
            ("256"%string, 12.29); ("512"%string, 24.58);
            ("1024"%string, 49.15) ]);
      ("Premium_LRS"%string,
        list_to_map
          [ ("32"%string, 4.81); ("64"%string, 9.62); ("128"%string, 19.71);
            ("256"%string, 39.42); ("512"%string, 78.85);
            ("1024"%string, 157.70) ]) ].

Definition public_ip_prices : gmap string Q :=
  list_to_map [ ("Basic"%string, 3.65); ("Standard"%string, 3.65) ].

Definition storage_prices : gmap string Q :=
  list_to_map
    [ ("Standard_LRS"%string, 0.0184); ("Standard_GRS"%string, 0.0368);
      ("Premium_LRS"%string, 0.15) ].

(** [PRICING_DATABASE]: the value stored under a resource type is either a
    flat table of prices or, for disks, a table of size tiers per SKU. *)
Inductive pricing_table : Type :=
  | Flat (prices : gmap string Q)
  | Tiered (tiers : gmap string (gmap string Q)).

Definition PRICING_DATABASE : gmap string pricing_table :=
  list_to_map
    [ ("Microsoft.Compute/virtualMachines"%string, Flat vm_prices);
      ("Microsoft.Compute/disks"%string, Tiered disk_prices);
      ("Microsoft.Network/publicIPAddresses"%string, Flat public_ip_prices);
      ("Microsoft.Storage/storageAccounts"%string, Flat storage_prices) ].

(** [PRICING_DATABASE.get(resource_type, {})] read as a flat table. *)
Definition flat_table (resource_type : string) : gmap string Q :=
  match PRICING_DATABASE !! resource_type with
  | Some (Flat prices) => prices
  | _ => ∅
  end.

Definition tiered_table (resource_type : string) : gmap string (gmap string Q) :=
  match PRICING_DATABASE !! resource_type with
  | Some (Tiered tiers) => tiers
  | _ => ∅
  end.

Definition get_vm_monthly_cost (sku : string) (region : string) : option Q :=
  flat_table "Microsoft.Compute/virtualMachines" !! sku.

(** The loop [for size in available_sizes: if size >= size_gb: ...; break]. *)
Fixpoint first_size_at_least (size_gb : Q) (available_sizes : list Z) : option Z :=
  match available_sizes with
  | [] => None
  | size :: rest =>
      if Qle_bool size_gb (inject_Z size) then Some size
      else first_size_at_least size_gb rest
  end.

Definition get_disk_monthly_cost (sku : string) (size_gb : Q) : result (option Q) :=
  let disk_pricing :=
    default ∅ (tiered_table "Microsoft.Compute/disks" !! sku) in
  if decide (disk_pricing = ∅) then Ok None
  else
    parsed ← ints_of_strs (map fst (map_to_list disk_pricing));
    let available_sizes := merge_sort Z.le parsed in
    let selected_size :=
      match first_size_at_least size_gb available_sizes with
      | Some size => size
      | None => List.last available_sizes 0%Z
      end in
    Ok (disk_pricing !! pretty selected_size).

Definition get_public_ip_monthly_cost (sku : string) : Q :=
  default 3.65 (flat_table "Microsoft.Network/publicIPAddresses" !! sku).

Definition get_storage_account_monthly_cost (sku : string) (size_gb : Q) : option Q :=
  match flat_table "Microsoft.Storage/storageAccounts" !! sku with
  | Some price_per_gb =>
      if Qeq_bool price_per_gb 0 then None else Some (price_per_gb * size_gb)
  | None => None
  end.

(** The keyword arguments [estimate_resource_cost] reads. *)
Record kwargs : Type := {
  kw_size_gb : option Q;
  kw_region : option string
}.

Definition estimate_resource_cost (resource_type sku : string) (kw : kwargs)
  : result (option Q) :=
  if decide (resource_type = "Microsoft.Compute/virtualMachines") then
    Ok (get_vm_monthly_cost sku (default "eastus"%string (kw_region kw)))
  else if decide (resource_type = "Microsoft.Compute/disks") then
    get_disk_monthly_cost sku (default 128 (kw_size_gb kw))
  else if decide (resource_type = "Microsoft.Network/publicIPAddresses") then
    Ok (Some (get_public_ip_monthly_cost sku))
  else if decide (resource_type = "Microsoft.Storage/storageAccounts") then
    Ok (get_storage_account_monthly_cost sku (default 100 (kw_size_gb kw)))
  else Ok None.

(** A SKU is priced when the table of its resource type has an entry for
    it. *)
Definition priced (resource_type sku : string) : Prop :=
  match PRICING_DATABASE !! resource_type with
  | Some (Flat prices) => is_Some (prices !! sku)
  | Some (Tiered tiers) => is_Some (tiers !! sku)
  | None => False
  end.

(** The price of one size tier of a disk SKU, read off the table. *)
Definition disk_tier_price (sku : string) (tier : Z) : option Q :=
  tiered_table "Microsoft.Compute/disks" !! sku ≫= (.!! pretty tier).

(** The size tiers the table offers for a disk SKU. *)
Definition is_disk_tier (sku : string) (tier : Z) : Prop :=
  is_Some (disk_tier_price sku tier).

Definition known_disk_sku (sku : string) : Prop :=
  is_Some (tiered_table "Microsoft.Compute/disks" !! sku).

(** The functions above take arguments of the types they are annotated
    with.  [calculate_savings_potential] and the budget validator pass them
    what they read from dictionaries, of any type; the functions below are
    the same functions on such arguments, with the exceptions that the
    comparisons, the products and the look-ups of the bodies then raise. *)
Definition get_vm_monthly_cost_any (sku : value) : result (option Q) :=
  get_by_value (flat_table "Microsoft.Compute/virtualMachines") sku.

(** [size >= size_gb] raises [TypeError] unless [size_gb] is a number; the
    sizes are not empty when the table of the SKU is not. *)
Definition get_disk_monthly_cost_any (sku size_gb : value) : result (option Q) :=
  disk_pricing ← get_by_value (tiered_table "Microsoft.Compute/disks") sku;
  let disk_pricing := default ∅ disk_pricing in
  if decide (disk_pricing = ∅) then Ok None
  else
    parsed ← ints_of_strs (map fst (map_to_list disk_pricing));
    let available_sizes := merge_sort Z.le parsed in
    match size_gb with
    | VNumber size_gb =>
        let selected_size :=
          match first_size_at_least size_gb available_sizes with
          | Some size => size
          | None => List.last available_sizes 0%Z
          end in
        Ok (disk_pricing !! pretty selected_size)
    | _ => Raise TypeError
    end.

Definition get_public_ip_monthly_cost_any (sku : value) : result Q :=
  price ← get_by_value (flat_table "Microsoft.Network/publicIPAddresses") sku;
  Ok (default 3.65 price).

(** [price_per_gb * size_gb], for a float price, raises [TypeError] unless
    [size_gb] is a number. *)
Definition get_storage_account_monthly_cost_any (sku size_gb : value)
  : result (option Q) :=
  price ← get_by_value (flat_table "Microsoft.Storage/storageAccounts") sku;
  match price with
  | Some price_per_gb =>
      if Qeq_bool price_per_gb 0 then Ok None
      else match size_gb with
           | VNumber size_gb => Ok (Some (price_per_gb * size_gb))
           | _ => Raise TypeError
           end
  | None => Ok None
  end.

(** [estimate_resource_cost(resource_type, sku, size_gb=size_gb, region=...)];
    a resource type that is not a string equals none of the four. *)
Definition estimate_resource_cost_any (resource_type sku size_gb : value)
  : result (option Q) :=
  match resource_type with
  | VStr resource_type =>
      if decide (resource_type = "Microsoft.Compute/virtualMachines") then
        get_vm_monthly_cost_any sku
      else if decide (resource_type = "Microsoft.Compute/disks") then
        get_disk_monthly_cost_any sku size_gb
      else if decide (resource_type = "Microsoft.Network/publicIPAddresses") then
        Some <$> get_public_ip_monthly_cost_any sku
      else if decide (resource_type = "Microsoft.Storage/storageAccounts") then
        get_storage_account_monthly_cost_any sku size_gb
      else Ok None
  | _ => Ok None
  end.

(** An entry of the list [calculate_savings_potential] goes through: the
    keys it reads, each of which may be absent, and may hold a value of any
    type. *)
Record wasteful_resource : Type := {
  res_type : option value;
  res_sku : option value;
  res_size_gb : option value;
  res_region : option value
}.

Record savings : Type := {
  monthly_savings : Q;
  annual_savings : Q
}.

(** The body of [for resource in resources], on [monthly_savings]. *)
Definition add_resource_cost (monthly_savings : result Q) (resource : wasteful_resource)
  : result Q :=
  monthly_savings ← monthly_savings;
  cost ← estimate_resource_cost_any
           (default (VStr EmptyString) (res_type resource))
           (default (VStr EmptyString) (res_sku resource))
           (default (VNumber 128) (res_size_gb resource));
  match cost with
  | Some c => if Qeq_bool c 0 then Ok monthly_savings else Ok (monthly_savings + c)
  | None => Ok monthly_savings
  end.

Definition calculate_savings_potential (resources : list wasteful_resource)
  : result savings :=
  monthly_savings ← fold_left add_resource_cost resources (Ok 0);
  Ok {| monthly_savings := round2 monthly_savings;
        annual_savings := round2 (monthly_savings * 12) |}.

End Pricing.

(** ** [utils/error_handling.py] *)

Module ErrorHandling.

Record policy : Type := {
  max_retries : Z;
  initial_delay : Q;
  backoff_factor : Q;
  max_delay : Q
}.

(** The defaults of [retry_with_backoff]. *)
Definition default_policy : policy :=
  {| max_retries := 3; initial_delay := 1; backoff_factor := 2;
     max_delay := 60 |}.

(** What one call of the wrapper did: its outcome, how many times it invoked
    the wrapped function, the waits it slept through (in order) and the
    state the wrapped function left behind. *)
Record run (T W : Type) : Type := {
  outcome : result T;
  calls : nat;
  sleeps : list Q;
  world : W
}.
Arguments outcome {T W} r.
Arguments calls {T W} r.
Arguments sleeps {T W} r.
Arguments world {T W} r.

(** The structured failure object of [handle_azure_error].  Its [details]
    entry, the text of the exception, is not modelled. *)
Record error_info : Type := {
  error : string;
  error_message : string;
  remediation : list string
}.

Section Retry.

(** [float(text)] on the texts that read as a number; [None] is its
    [ValueError]. *)
Context (py_float : string -> option Q).

(** [float(text)] on every text: the ones that do not read as a number
    first. *)
Definition float_of_text (text : string) : option float_value :=
  match nonfinite_float text with
  | Some x => Some x
  | None => Number <$> py_float text
  end.

Definition _get_retry_after (e : http_error) : option float_value :=
  match retry_after_header e with
  | Some retry_after =>
      if decide (retry_after = EmptyString) then None
      else match float_of_text retry_after with
           | Some seconds => Some seconds
           | None => Some (Number 60)
           end
  | None => None
  end.

Context {T W : Type}.

(** The wrapped function: each invocation may change the state it runs
    in, so that successive attempts need not behave alike. *)
Context (func : W -> result T * W).
Context (p : policy).

(** The body of [for attempt in range(max_retries + 1)], on the attempts
    that remain. *)
Fixpoint attempts (range : list Z) (delay : Q) (last_exception : option exn)
    (w : W) (n : nat) (slept : list Q) : run T W :=
  match range with
  | [] =>
      {| outcome := Raise (default RuntimeError last_exception);
         calls := n; sleeps := slept; world := w |}
  | attempt :: rest =>
      let '(r, w') := func w in
      let stop (o : result T) :=
        {| outcome := o; calls := S n; sleeps := slept; world := w' |} in
      (* [time.sleep(wait_time); delay *= backoff_factor; continue]: what
         the sleep raises is raised inside the handler, and leaves the
         wrapper. *)
      let retry (e : exn) (wait_time : float_value) :=
        match time_sleep wait_time with
        | Ok secs =>
            attempts rest (delay * backoff_factor p) (Some e) w' (S n)
                     (slept ++ [secs])
        | Raise sleep_error => stop (Raise sleep_error)
        end in
      let backoff := Number (Qmin delay (max_delay p)) in
      match r with
      | Ok v => stop (Ok v)
      | Raise (HttpResponseError e) =>
          match http_cls e with
          | ClientAuthentication => stop (Raise AuthenticationExpired)
          | _ =>
              if decide (status_code e = 429%Z) then
                let wait_time :=
                  match _get_retry_after e with
                  | Some retry_after =>
                      if float_truthy retry_after
                      then float_min retry_after (max_delay p)
                      else backoff
                  | None => backoff
                  end in
                if decide (attempt < max_retries p)%Z
                then retry (HttpResponseError e) wait_time
                else stop (Raise RateLimitExceeded)
              else if decide (500 <= status_code e < 600)%Z then
                if decide (attempt < max_retries p)%Z
                then retry (HttpResponseError e) backoff
                else stop (Raise (HttpResponseError e))
              else stop (Raise (HttpResponseError e))
          end
      | Raise ServiceRequestError =>
          if decide (attempt < max_retries p)%Z
          then retry ServiceRequestError backoff
          else stop (Raise ServiceRequestError)
      | Raise ConnectionError =>
          if decide (attempt < max_retries p)%Z
          then retry ConnectionError backoff
          else stop (Raise ConnectionError)
      | Raise e => stop (Raise e)
      end
  end.

(** [retry_with_backoff(...)(func)] called in state [w]. *)
Definition retry_with_backoff (w : W) : run T W :=
  attempts (seqZ 0 (max_retries p + 1)) (initial_delay p) None w 0%nat [].

End Retry.

Definition handle_azure_error (e : exn) : error_info :=
  match e with
  | HttpResponseError h =>
      match http_cls h with
      | ClientAuthentication =>
          {| error := "Authentication Failed";
             error_message := "Azure authentication failed. Please check your credentials and RBAC permissions.";
             remediation :=
               [ "Verify AZURE_TENANT_ID, AZURE_CLIENT_ID are correct"%string;
                 "Ensure certificate is valid and not expired"%string;
                 "Check Service Principal has required RBAC roles: Cost Management Reader, Reader, Advisor Reader"%string ] |}
      | ResourceNotFound =>
          {| error := "Resource Not Found";
             error_message := "The requested Azure resource was not found.";
             remediation :=
               [ "Verify subscription ID is correct"%string;
                 "Check resource group and resource names"%string;
                 "Ensure Service Principal has access to the subscription"%string ] |}
      | PlainHttpError =>
          {| error := "Azure API Error (" +:+ pretty (status_code h) +:+ ")";
             error_message :=
               str_or (message h) "An error occurred while calling Azure API";
             remediation :=
               [ "Check Azure service health status"%string;
                 "Verify API permissions and RBAC roles"%string;
                 "Review Azure SDK documentation for this error code"%string ] |}
      end
  | RateLimitExceeded =>
      {| error := "Rate Limit Exceeded";
         error_message := "Azure API rate limit exceeded. Please reduce request frequency.";
         remediation :=
           [ "Reduce the number of concurrent requests"%string;
             "Implement caching for frequently accessed data"%string;
             "Consider batching requests"%string;
             "Wait before retrying (recommended: 60 seconds)"%string ] |}
  | _ =>
      {| error := "Unexpected Error";
         error_message := "An unexpected error occurred";
         remediation :=
           [ "Check application logs for details"%string;
             "Verify network connectivity to Azure"%string;
             "Contact support if the issue persists"%string ] |}
  end.

(** What a tool hands back: its payload, or [{"error": ...}]. *)
Inductive tool_result (A : Type) : Type :=
  | Payload (a : A)
  | ErrorResult (info : error_info).
Arguments Payload {A} a.
Arguments ErrorResult {A} info.

End ErrorHandling.

Import ErrorHandling.

(** ** [tools/anomaly_detector.py] *)

Module AnomalyDetector.

(** A row of the cost query: [[cost, resource_group, service_name, date]];
    any of the first three may be empty, and the date column may be
    missing. *)
Record row : Type := {
  row_cost : option Q;
  row_resource_group : option string;
  row_service_name : option string;
  row_date : option string
}.

(** The collaborators of the detector: the client factory (with the
    subscription ids it was configured with), the cost query for a
    subscription and a window of [days] days ending [offset_days] days ago
    ([None] for a result without rows), and the first day of that window as
    text. *)
Record env : Type := {
  client_factory : result (list string);
  query_usage : string -> Z -> Z -> result (option (list row));
  window_start : Z -> Z -> string
}.

Record cost_entry : Type := {
  cost : Q;
  resource_group : string;
  service_name : string;
  date : string;
  subscription_name : option string
}.

Record anomaly : Type := {
  a_subscription_id : string;
  a_subscription_name : string;
  a_resource_group : string;
  a_service_name : string;
  actual_cost : Q;
  average_cost : Q;
  variance_percent : Q;
  a_date : string
}.

Record report : Type := {
  anomalies : list anomaly;
  total_anomalies : nat;
  total_excess_spend : Q;
  threshold : Q
}.

Definition parse_row (start_date : string) (r : row) : cost_entry :=
  {| cost := default 0 (row_cost r);
     resource_group := str_or (row_resource_group r) "Unassigned";
     service_name := str_or (row_service_name r) "Unknown";
     date := default start_date (row_date r);
     subscription_name := None |}.

Definition _get_actual_costs (E : env) (subscription_id : string)
    (days offset_days : Z) : result (list cost_entry) :=
  _ ← client_factory E;
  rows ← query_usage E subscription_id days offset_days;
  Ok (map (parse_row (window_start E days offset_days)) (default [] rows)).

Definition entry_key (e : cost_entry) : string * string :=
  (resource_group e, service_name e).

(** The first loop of [_calculate_averages]: one more entry filed under its
    key. *)
Definition group_entry (grouped_costs : gmap (string * string) (list Q))
    (entry : cost_entry) : gmap (string * string) (list Q) :=
  let key := entry_key entry in
  let grouped_costs :=
    match grouped_costs !! key with
    | None => <[key := []]> grouped_costs
    | Some _ => grouped_costs
    end in
  <[key := default [] (grouped_costs !! key) ++ [cost entry]]> grouped_costs.

Definition _calculate_averages (cost_entries : list cost_entry)
  : gmap (string * string) Q :=
  let grouped_costs := fold_left group_entry cost_entries ∅ in
  (fun costs => match costs with [] => 0 | _ => mean costs end) <$> grouped_costs.

(** The body of [for cost_entry in actual_costs]. *)
Definition compare_entry (subscription_id : string) (threshold : Q)
    (historical_averages : gmap (string * string) Q)
    (anomalies : list anomaly) (cost_entry : cost_entry) : list anomaly :=
  let key := entry_key cost_entry in
  let avg_cost := default 0 (historical_averages !! key) in
  if (negb (Qle_bool avg_cost 0) &&
      negb (Qle_bool (cost cost_entry) (avg_cost * threshold)))%bool
  then
    let variance_percent := ((cost cost_entry - avg_cost) / avg_cost) * 100 in
    anomalies ++
      [ {| a_subscription_id := subscription_id;
           a_subscription_name :=
             default "Unknown"%string (subscription_name cost_entry);
           a_resource_group := resource_group cost_entry;
           a_service_name := service_name cost_entry;
           actual_cost := round2 (cost cost_entry);
           average_cost := round2 avg_cost;
           variance_percent := round2 variance_percent;
           a_date := date cost_entry |} ]
  else anomalies.

(** Both fetches precede the comparison loop, and the loop itself cannot
    raise on entries built by [_get_actual_costs]; so whenever the handler
    runs, [anomalies] is still the empty list it was initialised to. *)
Definition _detect_subscription_anomalies (E : env) (subscription_id : string)
    (threshold : Q) : list anomaly :=
  let anomalies := [] in
  let attempt :=
    actual_costs ← _get_actual_costs E subscription_id 1 0;
    historical_costs ← _get_actual_costs E subscription_id 7 1;
    let historical_averages := _calculate_averages historical_costs in
    Ok (fold_left (compare_entry subscription_id threshold historical_averages)
                  actual_costs anomalies) in
  match attempt with
  | Ok found => found
  | Raise _ => anomalies
  end.

(** The body of [for sub_id in subscription_ids], on the pair
    [(all_anomalies, total_excess_spend)]. *)
Definition analyse_subscription (E : env) (threshold : Q)
    (acc : list anomaly * Q) (sub_id : string) : list anomaly * Q :=
  let '(all_anomalies, total_excess_spend) := acc in
  let anomalies := _detect_subscription_anomalies E sub_id threshold in
  (all_anomalies ++ anomalies,
   fold_left (fun total a => total + (actual_cost a - average_cost a))
             anomalies total_excess_spend).

(** The [try] block of [get_enterprise_anomalies]. *)
Definition detect_all (E : env) (subscription_ids : option (list string))
    (threshold : Q) : result report :=
  configured ← client_factory E;
  let subscription_ids := default configured subscription_ids in
  match subscription_ids with
  | [] => Raise ValueError
  | _ =>
      let '(all_anomalies, total_excess_spend) :=
        fold_left (analyse_subscription E threshold) subscription_ids ([], 0) in
      let all_anomalies := sort_desc variance_percent all_anomalies in
      Ok {| anomalies := all_anomalies;
            total_anomalies := length all_anomalies;
            total_excess_spend := round2 total_excess_spend;
            threshold := threshold |}
  end.

(** The undecorated function: whatever the [try] block raises becomes an
    error result. *)
Definition get_enterprise_anomalies_body (E : env)
    (subscription_ids : option (list string)) (threshold : Q)
  : tool_result report :=
  match detect_all E subscription_ids threshold with
  | Ok r => Payload r
  | Raise e => ErrorResult (handle_azure_error e)
  end.

(** [get_enterprise_anomalies], under [@retry_with_backoff(max_retries=3)].
    The collaborators are a fixed snapshot, so the state threaded through
    the attempts is trivial. *)
Definition get_enterprise_anomalies (py_float : string -> option Q) (E : env)
    (subscription_ids : option (list string)) (threshold : Q)
  : run (tool_result report) unit :=
  retry_with_backoff py_float
    (fun w => (Ok (get_enterprise_anomalies_body E subscription_ids threshold), w))
    default_policy tt.

End AnomalyDetector.

(** ** [tools/governance_advisor.py] *)

Module GovernanceAdvisor.

Definition ISO_27001_CONTROLS : gmap string (list string) :=
  list_to_map
    [ ("encryption"%string, ["A.8.2.3"%string; "A.10.1.1"%string]);
      ("access_control"%string, ["A.9.1.1"%string; "A.9.2.1"%string]);
      ("backup"%string, ["A.12.3.1"%string]);
      ("monitoring"%string, ["A.12.4.1"%string]);
      ("vulnerability"%string, ["A.12.6.1"%string]);
      ("network_security"%string, ["A.13.1.1"%string]);
      ("compliance"%string, ["A.18.1.1"%string]) ].

Definition NIA_QATAR_REQUIREMENTS : gmap string string :=
  list_to_map
    [ ("data_sovereignty"%string,
        "Data must be stored in Qatar or approved regions"%string);
      ("encryption_at_rest"%string, "All data must be encrypted at rest"%string);
      ("encryption_in_transit"%string,
        "All data must be encrypted in transit"%string);
      ("access_logging"%string, "All access must be logged and monitored"%string);
      ("multi_factor_auth"%string,
        "MFA required for all administrative access"%string) ].

Record short_description_t : Type := {
  problem : option string;
  solution : option string
}.

(** A recommendation as the advisor service returns it. *)
Record recommendation : Type := {
  id : string;
  category : string;
  impact : option string;
  short_description : option short_description_t;
  extended_properties : option (gmap string string);
  impacted_value : option string
}.

Record risk_factors_t : Type := {
  iso_27001_controls : list string;
  nia_qatar_requirements : list string;
  cost_impact : string;
  security_impact : string
}.

Record scored : Type := {
  s_id : string;
  s_subscription_id : string;
  s_category : string;
  s_title : option string;
  s_description : option string;
  risk_score : Z;
  risk_factors : risk_factors_t;
  remediation_steps : list string;
  estimated_cost : Q;
  estimated_effort_hours : Q;
  impacted_resource : string
}.

Record summary_t : Type := {
  total_recommendations : nat;
  high_risk_count : nat;
  medium_risk_count : nat;
  low_risk_count : nat;
  potential_monthly_savings : Q;
  potential_annual_savings : Q
}.

Record advice : Type := {
  recommendations : list scored;
  summary : summary_t;
  min_risk_score : Z
}.

(** The collaborators of the advisor: the client factory, and for each
    subscription the recommendation listing.  Creating the advisor client may
    raise; otherwise the listing is iterated, yields some recommendations and
    then either ends or raises (a page that fails to load). *)
Record env : Type := {
  client_factory : result (list string);
  advisor_list : string -> result (list recommendation * option exn)
}.

Definition with_security_impact (f : risk_factors_t) (v : string) : risk_factors_t :=
  {| iso_27001_controls := iso_27001_controls f;
     nia_qatar_requirements := nia_qatar_requirements f;
     cost_impact := cost_impact f; security_impact := v |}.

Definition with_cost_impact (f : risk_factors_t) (v : string) : risk_factors_t :=
  {| iso_27001_controls := iso_27001_controls f;
     nia_qatar_requirements := nia_qatar_requirements f;
     cost_impact := v; security_impact := security_impact f |}.

(** [iso_27001_controls.extend(controls)] and
    [nia_qatar_requirements.append(requirement)]. *)
Definition attach (f : risk_factors_t) (controls : list string)
    (requirement : string) : risk_factors_t :=
  {| iso_27001_controls := iso_27001_controls f ++ controls;
     nia_qatar_requirements := nia_qatar_requirements f ++ [requirement];
     cost_impact := cost_impact f; security_impact := security_impact f |}.

Section Scoring.

(** [float(text)]; [None] is its [ValueError]. *)
Context (py_float : string -> option Q).

Definition _extract_cost_impact (r : recommendation) : Q :=
  match extended_properties r with
  | Some props =>
      if decide (props = ∅) then 0
      else default 0 (py_float (default "0"%string (props !! "savingsAmount")))
  | None => 0
  end.

(** The additive score before the cap, with the risk factors. *)
Definition raw_risk_score (r : recommendation) : result (Z * risk_factors_t) :=
  let score := 0%Z in
  let risk_factors :=
    {| iso_27001_controls := []; nia_qatar_requirements := [];
       cost_impact := "Unknown"; security_impact := "Unknown" |} in
  let category := category r in
  let impact := str_or (impact r) "Medium" in
  problem ←
    match short_description r with
    | Some d =>
        match problem d with
        | Some text => Ok (lower text)
        | None => Raise AttributeError
        end
    | None => Ok EmptyString
    end;
  let '(score, risk_factors) :=
    if decide (category = "Security") then
      let '(score, risk_factors) :=
        if decide (impact = "High")
        then ((score + 4)%Z, with_security_impact risk_factors "Critical")
        else if decide (impact = "Medium")
        then ((score + 3)%Z, with_security_impact risk_factors "High")
        else ((score + 2)%Z, with_security_impact risk_factors "Medium") in
      let '(score, risk_factors) :=
        if contains "encrypt" problem
        then ((score + 2)%Z,
              attach risk_factors (ISO_27001_CONTROLS !!! "encryption")
                     (NIA_QATAR_REQUIREMENTS !!! "encryption_at_rest"))
        else (score, risk_factors) in
      if (contains "access" problem || contains "authentication" problem)%bool
      then ((score + 2)%Z,
            attach risk_factors (ISO_27001_CONTROLS !!! "access_control")
                   (NIA_QATAR_REQUIREMENTS !!! "multi_factor_auth"))
      else (score, risk_factors)
    else if decide (category = "Cost") then
      let potential_savings := _extract_cost_impact r in
      if negb (Qle_bool potential_savings 1000)
      then ((score + 3)%Z, with_cost_impact risk_factors "High")
      else if negb (Qle_bool potential_savings 100)
      then ((score + 2)%Z, with_cost_impact risk_factors "Medium")
      else ((score + 1)%Z, with_cost_impact risk_factors "Low")
    else if decide (category = "Performance" \/ category = "HighAvailability") then
      if decide (impact = "High") then ((score + 3)%Z, risk_factors)
      else if decide (impact = "Medium") then ((score + 2)%Z, risk_factors)
      else ((score + 1)%Z, risk_factors)
    else if decide (category = "OperationalExcellence")
    then ((score + 1)%Z, risk_factors)
    else (score, risk_factors) in
  let score :=
    if (contains "prod" problem || contains "production" problem)%bool
    then (score + 2)%Z else score in
  Ok (score, risk_factors).

Definition _calculate_risk_score (r : recommendation)
  : result (Z * risk_factors_t) :=
  '(score, risk_factors) ← raw_risk_score r;
  Ok (Z.min score 10, risk_factors).

Definition effort_map : gmap string (gmap string Q) :=
  list_to_map
    [ ("Security"%string,
        list_to_map [("High"%string, 4); ("Medium"%string, 2); ("Low"%string, 1)]);
      ("Cost"%string,
        list_to_map [("High"%string, 2); ("Medium"%string, 1); ("Low"%string, 0.5)]);
      ("Performance"%string,
        list_to_map [("High"%string, 3); ("Medium"%string, 2); ("Low"%string, 1)]);
      ("HighAvailability"%string,
        list_to_map [("High"%string, 4); ("Medium"%string, 3); ("Low"%string, 2)]);
      ("OperationalExcellence"%string,
        list_to_map [("High"%string, 2); ("Medium"%string, 1); ("Low"%string, 0.5)]) ].

Definition _estimate_effort (r : recommendation) : Q :=
  let category := category r in
  let impact := str_or (impact r) "Medium" in
  default 2 (default ∅ (effort_map !! category) !! impact).

Definition _extract_remediation_steps (r : recommendation) : list string :=
  let steps :=
    match short_description r with
    | Some d =>
        match solution d with
        | Some text => if decide (text = EmptyString) then [] else [text]
        | None => []
        end
    | None => []
    end in
  match steps with
  | [] => ["Review Azure Advisor recommendation details in Azure Portal"%string]
  | _ => steps
  end.

(** One turn of [for rec in advisor_client.recommendations.list()]: the
    dictionary appended for [rec], unless scoring it raises. *)
Definition score_recommendation (subscription_id : string) (r : recommendation)
  : result scored :=
  '(risk_score, risk_factors) ← _calculate_risk_score r;
  let remediation_steps := _extract_remediation_steps r in
  Ok {| s_id := id r;
        s_subscription_id := subscription_id;
        s_category := category r;
        s_title :=
          match short_description r with
          | Some d => problem d
          | None => Some "Unknown"%string
          end;
        s_description :=
          match short_description r with
          | Some d => solution d
          | None => Some "No description"%string
          end;
        risk_score := risk_score;
        risk_factors := risk_factors;
        remediation_steps := remediation_steps;
        estimated_cost := _extract_cost_impact r;
        estimated_effort_hours := _estimate_effort r;
        impacted_resource := str_or (impacted_value r) "Unknown" |}.

(** The loop over the listing.  [recommendations] is appended to in place,
    so what was appended before an exception is still there when the
    handler runs: the loop returns the list together with the exception
    that ended it, if one did. *)
Fixpoint score_listing (subscription_id : string) (listing : list recommendation)
    (ending : option exn) (recommendations : list scored)
  : list scored * option exn :=
  match listing with
  | [] => (recommendations, ending)
  | r :: rest =>
      match score_recommendation subscription_id r with
      | Ok entry =>
          score_listing subscription_id rest ending (recommendations ++ [entry])
      | Raise e => (recommendations, Some e)
      end
  end.

Definition _get_advisor_recommendations (E : env) (subscription_id : string)
  : list scored :=
  let recommendations := [] in
  match (_ ← client_factory E; advisor_list E subscription_id) with
  | Ok (listing, ending) =>
      fst (score_listing subscription_id listing ending recommendations)
  | Raise _ => recommendations
  end.

Definition _calculate_summary (recommendations : list scored) : summary_t :=
  let total := length recommendations in
  let high_risk :=
    length (filter (fun r => 7 <= risk_score r)%Z recommendations) in
  let medium_risk :=
    length (filter (fun r => 4 <= risk_score r < 7)%Z recommendations) in
  let low_risk :=
    length (filter (fun r => risk_score r < 4)%Z recommendations) in
  let total_savings := sum (map estimated_cost recommendations) in
  {| total_recommendations := total;
     high_risk_count := high_risk;
     medium_risk_count := medium_risk;
     low_risk_count := low_risk;
     potential_monthly_savings := round2 total_savings;
     potential_annual_savings := round2 (total_savings * 12) |}.

(** The [try] block of [governance_remediation_advisor]. *)
Definition advise_all (E : env) (subscription_ids : option (list string))
    (min_risk_score : Z) : result advice :=
  configured ← client_factory E;
  let subscription_ids := default configured subscription_ids in
  match subscription_ids with
  | [] => Raise ValueError
  | _ =>
      let all_recommendations :=
        fold_left (fun all sub_id => all ++ _get_advisor_recommendations E sub_id)
                  subscription_ids [] in
      let filtered_recommendations :=
        filter (fun r => min_risk_score <= risk_score r)%Z all_recommendations in
      let filtered_recommendations :=
        sort_desc (fun r => inject_Z (risk_score r)) filtered_recommendations in
      Ok {| recommendations := filtered_recommendations;
            summary := _calculate_summary filtered_recommendations;
            min_risk_score := min_risk_score |}
  end.

Definition governance_remediation_advisor_body (E : env)
    (subscription_ids : option (list string)) (min_risk_score : Z)
  : tool_result advice :=
  match advise_all E subscription_ids min_risk_score with
  | Ok a => Payload a
  | Raise e => ErrorResult (handle_azure_error e)
  end.

(** [governance_remediation_advisor], under
    [@retry_with_backoff(max_retries=3)]. *)
Definition governance_remediation_advisor (E : env)
    (subscription_ids : option (list string)) (min_risk_score : Z)
  : run (tool_result advice) unit :=
  retry_with_backoff py_float
    (fun w =>
       (Ok (governance_remediation_advisor_body E subscription_ids min_risk_score), w))
    default_policy tt.

End Scoring.

End GovernanceAdvisor.

(** ** [tools/compliance_overlay.py] *)

Module ComplianceOverlay.

Record iso_control : Type := {
  controls : list string;
  description : string;
  iso_cost_impact : string
}.

Record nia_requirement : Type := {
  requirement : string;
  nia_cost_impact : string
}.

Definition ISO_27001_COST_CONTROLS : gmap string iso_control :=
  list_to_map
    [ ("encryption"%string,
        {| controls := ["A.8.2.3"%string; "A.10.1.1"%string; "A.10.1.2"%string];
           description := "Encryption of information";
           iso_cost_impact := "Premium storage SKUs required for encryption" |});
      ("backup"%string,
        {| controls := ["A.12.3.1"%string];
           description := "Information backup";
           iso_cost_impact := "Backup storage and retention costs" |});
      ("monitoring"%string,
        {| controls := ["A.12.4.1"%string; "A.12.4.2"%string];
           description := "Event logging and monitoring";
           iso_cost_impact := "Log Analytics and monitoring costs" |});
      ("availability"%string,
        {| controls := ["A.17.1.1"%string; "A.17.2.1"%string];
           description := "Availability of information processing facilities";
           iso_cost_impact := "Redundancy and high-availability configurations" |}) ].

Definition NIA_QATAR_COST_REQUIREMENTS : gmap string nia_requirement :=
  list_to_map
    [ ("data_sovereignty"%string,
        {| requirement := "Data must be stored in Qatar or approved regions";
           nia_cost_impact :=
             "Qatar region may have higher costs than other regions" |});
      ("encryption_at_rest"%string,
        {| requirement := "All data must be encrypted at rest";
           nia_cost_impact := "Premium storage SKUs required" |});
      ("high_availability"%string,
        {| requirement := "Critical systems must have 99.9% uptime";
           nia_cost_impact := "Zone-redundant and geo-redundant configurations" |});
      ("audit_logging"%string,
        {| requirement := "All access must be logged for 90+ days";
           nia_cost_impact := "Log retention and storage costs" |}) ].

#[local] Instance iso_control_inhabited : Inhabited iso_control :=
  populate {| controls := []; description := EmptyString; iso_cost_impact := EmptyString |}.
#[local] Instance nia_requirement_inhabited : Inhabited nia_requirement :=
  populate {| requirement := EmptyString; nia_cost_impact := EmptyString |}.

(** A cost-saving recommendation: the entries of the dictionary the overlay
    reads, each of which may be absent. *)
Record recommendation : Type := {
  rec_id : option string;
  title : option string;
  rec_description : option string;
  resource_type : option string
}.

(** A compliance flag.  An ISO 27001 flag has [controls] and [impact], a
    NIA Qatar flag has [requirement]. *)
Record flag : Type := {
  framework : string;
  flag_controls : option (list string);
  flag_impact : option string;
  flag_requirement : option string;
  warning : string;
  severity : option string
}.

Record flagged : Type := {
  flagged_rec : recommendation;
  compliance_flags : list flag;
  flagged_requires_compliance_review : bool
}.

Record safe : Type := {
  safe_rec : recommendation;
  safe_requires_compliance_review : bool
}.

Record compliance_warning : Type := {
  recommendation_id : string;
  recommendation_title : string;
  warning_severity : string;
  frameworks_impacted : list string;
  flags : list flag;
  action_required : string
}.

Record overlay_summary : Type := {
  total_recommendations : nat;
  flagged_count : nat;
  safe_count : nat
}.

Record overlay : Type := {
  flagged_recommendations : list flagged;
  safe_recommendations : list safe;
  compliance_warnings : list compliance_warning;
  summary : overlay_summary
}.

Definition iso_flag (bucket : string) (sev : string) : flag :=
  let c := ISO_27001_COST_CONTROLS !!! bucket in
  {| framework := "ISO 27001";
     flag_controls := Some (controls c);
     flag_impact := Some (description c);
     flag_requirement := None;
     warning := iso_cost_impact c;
     severity := Some sev |}.

Definition nia_flag (bucket : string) (sev : string) : flag :=
  let r := NIA_QATAR_COST_REQUIREMENTS !!! bucket in
  {| framework := "NIA Qatar";
     flag_controls := None;
     flag_impact := None;
     flag_requirement := Some (requirement r);
     warning := nia_cost_impact r;
     severity := Some sev |}.

(** [if any(keyword in rec_text for keyword in keywords): flags.append(f)]. *)
Definition append_if (keywords : list string) (rec_text : string) (f : flag)
    (flags : list flag) : list flag :=
  if any_in keywords rec_text then flags ++ [f] else flags.

Definition _check_compliance_impact (r : recommendation)
    (check_iso27001 check_nia_qatar : bool) : list flag :=
  let flags := [] in
  let rec_text :=
    lower (default EmptyString (title r) +:+ " " +:+
           default EmptyString (rec_description r) +:+ " " +:+
           default EmptyString (resource_type r)) in
  let flags :=
    if check_iso27001 then
      let flags :=
        append_if ["encrypt"; "storage"; "disk"; "premium"]%string rec_text
                  (iso_flag "encryption" "high") flags in
      let flags :=
        append_if ["backup"; "snapshot"; "retention"]%string rec_text
                  (iso_flag "backup" "high") flags in
      let flags :=
        append_if ["monitor"; "log"; "analytics"; "diagnostic"]%string rec_text
                  (iso_flag "monitoring" "medium") flags in
      append_if ["redundan"; "availability"; "zone"; "geo"]%string rec_text
                (iso_flag "availability" "high") flags
    else flags in
  if check_nia_qatar then
    let flags :=
      append_if ["region"; "location"; "geo"]%string rec_text
                (nia_flag "data_sovereignty" "critical") flags in
    let flags :=
      append_if ["encrypt"; "storage"; "disk"]%string rec_text
                (nia_flag "encryption_at_rest" "critical") flags in
    let flags :=
      append_if ["availability"; "redundan"; "uptime"]%string rec_text
                (nia_flag "high_availability" "high") flags in
    append_if ["log"; "audit"; "retention"]%string rec_text
              (nia_flag "audit_logging" "medium") flags
  else flags.

(** [severity_order], in the order its keys were inserted. *)
Definition severity_order : list (string * Z) :=
  [ ("critical"%string, 4%Z); ("high"%string, 3%Z); ("medium"%string, 2%Z);
    ("low"%string, 1%Z) ].

(** [d.get(k, dflt)] on a dictionary kept as an association list. *)
Fixpoint assoc_get {V} (d : list (string * V)) (k : string) (dflt : V) : V :=
  match d with
  | [] => dflt
  | (k', v) :: rest => if decide (k' = k) then v else assoc_get rest k dflt
  end.

(** [severity_order.get(f.get('severity', 'low'), 1)]. *)
Definition severity_rank (f : flag) : Z :=
  assoc_get severity_order (default "low"%string (severity f)) 1%Z.

(** [max(xs)]; the empty list is a [ValueError]. *)
Definition py_max (xs : list Z) : result Z :=
  match xs with
  | [] => Raise ValueError
  | x :: rest => Ok (fold_left Z.max rest x)
  end.

(** [list(set(xs))], up to the order of the set: the first occurrences. *)
Fixpoint distinct (xs : list string) : list string :=
  match xs with
  | [] => []
  | x :: rest => x :: filter (fun y => y <> x) (distinct rest)
  end.

Definition ACTIONS : list (string * string) :=
  [ ("critical"%string,
      "STOP: Do not implement without compliance officer approval. May violate regulatory requirements."%string);
    ("high"%string,
      "REVIEW: Requires security/compliance team review before implementation. May impact critical controls."%string);
    ("medium"%string,
      "ASSESS: Review impact on compliance controls. Document justification if proceeding."%string);
    ("low"%string,
      "MONITOR: Minimal compliance impact. Proceed with standard change management."%string) ].

Definition _get_action_required (severity : string) : string :=
  assoc_get ACTIONS severity (assoc_get ACTIONS "medium" EmptyString).

Definition _generate_compliance_warning (r : recommendation) (fs : list flag)
  : result compliance_warning :=
  max_severity ← py_max (map severity_rank fs);
  match map fst (filter (fun kv => snd kv = max_severity) severity_order) with
  | [] => Raise (OtherException "IndexError")
  | severity :: _ =>
      Ok {| recommendation_id := default "unknown"%string (rec_id r);
            recommendation_title := default "Unknown"%string (title r);
            warning_severity := severity;
            frameworks_impacted := distinct (map framework fs);
            flags := fs;
            action_required := _get_action_required severity |}
  end.

(** The body of [for rec in cost_recommendations], on the three lists. *)
Definition overlay_step (check_iso27001 check_nia_qatar : bool)
    (acc : result (list flagged * list compliance_warning * list safe))
    (r : recommendation)
  : result (list flagged * list compliance_warning * list safe) :=
  '(flagged_recommendations, compliance_warnings, safe_recommendations) ← acc;
  let fs := _check_compliance_impact r check_iso27001 check_nia_qatar in
  match fs with
  | _ :: _ =>
      let rec_with_flags :=
        {| flagged_rec := r; compliance_flags := fs;
           flagged_requires_compliance_review := true |} in
      w ← _generate_compliance_warning r fs;
      Ok (flagged_recommendations ++ [rec_with_flags],
          compliance_warnings ++ [w], safe_recommendations)
  | [] =>
      let rec_safe :=
        {| safe_rec := r; safe_requires_compliance_review := false |} in
      Ok (flagged_recommendations, compliance_warnings,
          safe_recommendations ++ [rec_safe])
  end.

Definition apply_compliance_overlay (cost_recommendations : list recommendation)
    (check_iso27001 check_nia_qatar : bool) : result overlay :=
  '(flagged_recommendations, compliance_warnings, safe_recommendations) ←
    fold_left (overlay_step check_iso27001 check_nia_qatar)
              cost_recommendations (Ok ([], [], []));
  Ok {| flagged_recommendations := flagged_recommendations;
        safe_recommendations := safe_recommendations;
        compliance_warnings := compliance_warnings;
        summary :=
          {| total_recommendations := length cost_recommendations;
             flagged_count := length flagged_recommendations;
             safe_count := length safe_recommendations |} |}.

End ComplianceOverlay.

(** ** [tools/budget_validator.py] *)

Module BudgetValidator.

(** What [_extract_sku_info] returns: [{"sku": ...}], with or without
    ["size_gb"]. *)
Record sku_info : Type := {
  sku : value;
  size_gb : option value
}.

Record breakdown_entry : Type := {
  b_resource_type : value;
  b_resource_name : value;
  b_sku : value;
  monthly_cost : Q
}.

(** The two warnings of the validator, with the values their texts are
    formatted from. *)
Inductive budget_warning : Type :=
  | PremiumSku (resource_name : value) (estimated_cost : Q)
  | BudgetExceeded (total_monthly_cost : Q) (budget_limit : Q).

Record validation : Type := {
  estimated_monthly_cost : Q;
  estimated_annual_cost : Q;
  budget_limit : option Q;
  within_budget : bool;
  cost_breakdown : list breakdown_entry;
  warnings : list budget_warning;
  region : string;
  resources_analyzed : nat;
  resources_priced : nat
}.

(** The answer for a template without resources: it has the key ["error"],
    like the answer for an exception, and two costs. *)
Record no_resources : Type := {
  nr_error : string;
  nr_estimated_monthly_cost : Q;
  nr_estimated_annual_cost : Q
}.

(** What the validator hands back: the answer for a template without
    resources, a validation, or [{"error": handle_azure_error(e)}].  The
    first and the last have the key ["error"]. *)
Inductive budget_result : Type :=
  | NoResources (answer : no_resources)
  | Validated (v : validation)
  | Failed (info : error_info).

(** [_extract_sku_info(resource)], for a resource that is any value of the
    template. *)
Definition _extract_sku_info (resource : value) : result (option sku_info) :=
  resource_type ← value_get resource "type" (VStr EmptyString);
  properties ← value_get resource "properties" (VDict []);
  sku ← value_get resource "sku" (VDict []);
  match resource_type with
  | VStr resource_type =>
      if decide (resource_type = "Microsoft.Compute/virtualMachines") then
        hardware_profile ← value_get properties "hardwareProfile" (VDict []);
        vm_size ← value_get hardware_profile "vmSize" VNone;
        if value_truthy vm_size
        then Ok (Some {| sku := vm_size; size_gb := None |})
        else Ok None
      else if decide (resource_type = "Microsoft.Compute/disks") then
        disk_sku ← value_get sku "name" VNone;
        disk_size ← value_get properties "diskSizeGB" (VNumber 128);
        if value_truthy disk_sku
        then Ok (Some {| sku := disk_sku; size_gb := Some disk_size |})
        else Ok None
      else if decide (resource_type = "Microsoft.Network/publicIPAddresses") then
        ip_sku ← value_get sku "name" (VStr "Standard");
        Ok (Some {| sku := ip_sku; size_gb := None |})
      else if decide (resource_type = "Microsoft.Storage/storageAccounts") then
        storage_sku ← value_get sku "name" VNone;
        if value_truthy storage_sku
        then Ok (Some {| sku := storage_sku; size_gb := Some (VNumber 100) |})
        else Ok None
      else Ok None
  | _ => Ok None
  end.

(** The body of [for resource in resources], on
    [(cost_breakdown, total_monthly_cost, warnings)]. *)
Definition price_resource (region : string)
    (acc : result (list breakdown_entry * Q * list budget_warning))
    (resource : value)
  : result (list breakdown_entry * Q * list budget_warning) :=
  '(cost_breakdown, total_monthly_cost, warnings) ← acc;
  resource_type ← value_get resource "type" (VStr EmptyString);
  resource_name ← value_get resource "name" (VStr "Unknown");
  sku_info ← _extract_sku_info resource;
  match sku_info with
  | Some info =>
      estimated_cost ←
        Pricing.estimate_resource_cost_any resource_type (sku info)
          (default (VNumber 128) (size_gb info));
      match estimated_cost with
      | Some c =>
          if Qeq_bool c 0 then Ok (cost_breakdown, total_monthly_cost, warnings)
          else
            let cost_breakdown :=
              cost_breakdown ++
                [ {| b_resource_type := resource_type;
                     b_resource_name := resource_name;
                     b_sku := sku info;
                     monthly_cost := round2 c |} ] in
            let total_monthly_cost := total_monthly_cost + c in
            premium ← str_in_value "Premium" (sku info);
            let warnings :=
              if (premium && negb (Qle_bool c 50))%bool
              then warnings ++ [PremiumSku resource_name c]
              else warnings in
            Ok (cost_breakdown, total_monthly_cost, warnings)
      | None => Ok (cost_breakdown, total_monthly_cost, warnings)
      end
  | None => Ok (cost_breakdown, total_monthly_cost, warnings)
  end.

(** The [try] block of [validate_deployment_budget]. *)
Definition validate (template : value) (budget_limit : option Q) (region : string)
  : result budget_result :=
  resources ← value_get template "resources" (VList []);
  if negb (value_truthy resources) then
    Ok (NoResources {| nr_error := "No resources found in template";
                       nr_estimated_monthly_cost := 0;
                       nr_estimated_annual_cost := 0 |})
  else
    items ← value_iter resources;
    '(cost_breakdown, total_monthly_cost, warnings) ←
      fold_left (price_resource region) items (Ok ([], 0, []));
    let total_annual_cost := total_monthly_cost * 12 in
    let '(within_budget, warnings) :=
      match budget_limit with
      | Some limit =>
          let within_budget := Qle_bool total_monthly_cost limit in
          if within_budget then (within_budget, warnings)
          else (within_budget,
                BudgetExceeded total_monthly_cost limit :: warnings)
      | None => (true, warnings)
      end in
    Ok (Validated
          {| estimated_monthly_cost := round2 total_monthly_cost;
             estimated_annual_cost := round2 total_annual_cost;
             budget_limit := budget_limit;
             within_budget := within_budget;
             cost_breakdown := cost_breakdown;
             warnings := warnings;
             region := region;
             resources_analyzed := length items;
             resources_priced := length cost_breakdown |}).

(** The undecorated function: whatever the [try] block raises becomes an
    answer. *)
Definition validate_deployment_budget_body (template : value)
    (budget_limit : option Q) (region : string) : budget_result :=
  match validate template budget_limit region with
  | Ok r => r
  | Raise e => Failed (handle_azure_error e)
  end.

(** [validate_deployment_budget], under
    [@retry_with_backoff(max_retries=3)]. *)
Definition validate_deployment_budget (py_float : string -> option Q)
    (template : value) (budget_limit : option Q) (region : string)
  : run budget_result unit :=
  retry_with_backoff py_float
    (fun w => (Ok (validate_deployment_budget_body template budget_limit region), w))
    default_policy tt.

End BudgetValidator.

(** * Vocabulary of the properties

    The notions the statements below are phrased in, and the concrete inputs
    they are tried on. *)

Import Pricing AnomalyDetector.

(** ** Pricing *)

(** The size tiers of both disk SKUs. *)
Definition tier_sizes : list Z := [32; 64; 128; 256; 512; 1024]%Z.

Definition no_kwargs : kwargs := {| kw_size_gb := None; kw_region := None |}.

(** ** The retry wrapper *)

(** A rate-limit response: an HTTP error, not an authentication failure,
    with status 429. *)
Definition rate_limited (e : exn) : Prop :=
  match e with
  | HttpResponseError h =>
      http_cls h <> ClientAuthentication /\ status_code h = 429%Z
  | _ => False
  end.

(** A transient server error: an HTTP error, not an authentication
    failure, with a 5xx status. *)
Definition server_error (e : exn) : Prop :=
  match e with
  | HttpResponseError h =>
      http_cls h <> ClientAuthentication /\ (500 <= status_code h < 600)%Z
  | _ => False
  end.

Definition network_error (e : exn) : Prop :=
  e = ServiceRequestError \/ e = ConnectionError.

Definition retryable (e : exn) : Prop :=
  rate_limited e \/ server_error e \/ network_error e.

Definition authentication_failure (e : exn) : Prop :=
  match e with
  | HttpResponseError h => http_cls h = ClientAuthentication
  | _ => False
  end.

Section RetryVocabulary.

Context {T W : Type}.
Context (func : W -> result T * W).

(** Started in state [w], the function fails with a retryable error
    exactly [N] times in a row and then returns [v]. *)
Fixpoint fails_then_succeeds (N : nat) (w : W) (v : T) : Prop :=
  match N with
  | O => (func w).1 = Ok v
  | S N' =>
      exists e, (func w).1 = Raise e /\ retryable e /\
                fails_then_succeeds N' (func w).2 v
  end.

(** In whatever state it is called, the function fails with a rate-limit
    response. *)
Definition always_rate_limited : Prop :=
  forall w, exists e, (func w).1 = Raise e /\ rate_limited e.

End RetryVocabulary.

(** A delay policy whose waits can be slept: no number in it is negative,
    and its cap is a length that [time.sleep] takes. *)
Definition sleepable_policy (p : policy) : Prop :=
  0 <= initial_delay p /\ 0 <= backoff_factor p /\
  0 <= max_delay p /\ max_delay p < sleep_limit.

(** The error asks for no wait that cannot be slept: it is not a rate-limit
    response whose [Retry-After] header reads as a negative number, as
    [nan] or as [-inf]. *)
Definition sleepable_retry_after (py_float : string -> option Q) (e : exn) : Prop :=
  match e with
  | HttpResponseError h =>
      status_code h = 429%Z ->
      match _get_retry_after py_float h with
      | Some (Number seconds) => 0 <= seconds
      | Some NaN | Some MinusInfinity => False
      | Some Infinity | None => True
      end
  | _ => True
  end.

(** No error the function can raise asks for a wait that cannot be slept. *)
Definition sleepable_waits {T W : Type} (py_float : string -> option Q)
    (func : W -> result T * W) : Prop :=
  forall w e, (func w).1 = Raise e -> sleepable_retry_after py_float e.

(** A reading of [float(s)] for decimal numerals with an optional sign. *)
Definition float_of_signed_decimal (s : string) : option Q :=
  match s with
  | String "-" digits => Qopp <$> float_of_decimal digits
  | String "+" digits => float_of_decimal digits
  | _ => float_of_decimal s
  end.

(** A rate-limit response whose [Retry-After] header is a negative number,
    and a function that gets it on its first call and then returns 42. *)
Definition throttled_negative : exn :=
  HttpResponseError {| http_cls := PlainHttpError; status_code := 429;
                       message := None; retry_after_header := Some "-5"%string |}.

Definition flaky_negative (w : nat) : result Z * nat :=
  if (w <? 1)%nat then (Raise throttled_negative, S w) else (Ok 42%Z, S w).

(** A rate-limit response without a [Retry-After] header. *)
Definition too_many_requests : exn :=
  HttpResponseError {| http_cls := PlainHttpError; status_code := 429;
                       message := None; retry_after_header := None |}.

(** A function that is rate limited on its first two calls and then returns
    42; its state counts the calls made so far. *)
Definition flaky_twice (w : nat) : result Z * nat :=
  if (w <? 2)%nat then (Raise too_many_requests, S w) else (Ok 42%Z, S w).

Definition always_throttled (w : nat) : result Z * nat :=
  (Raise too_many_requests, S w).

(** A function that is refused for lack of valid credentials. *)
Definition unauthenticated (w : nat) : result Z * nat :=
  (Raise (ClientAuthenticationError 401), S w).

(** ** Cost anomalies *)

(** The baseline of a key: the costs of the historical entries filed under
    it, in the order they were fetched, and their arithmetic mean (0 for a
    key without history). *)
Definition baseline_costs (historical_costs : list cost_entry)
    (key : string * string) : list Q :=
  map cost (filter (fun e => entry_key e = key) historical_costs).

Definition baseline_average (historical_costs : list cost_entry)
    (key : string * string) : Q :=
  match baseline_costs historical_costs key with
  | [] => 0
  | costs => mean costs
  end.

(** The flagging rule of the specification. *)
Definition flagged (threshold : Q) (historical_costs : list cost_entry)
    (e : cost_entry) : Prop :=
  0 < baseline_average historical_costs (entry_key e) /\
  baseline_average historical_costs (entry_key e) * threshold < cost e.

(** The relative overage of a cost above its baseline, as a percentage. *)
Definition variance_of (actual average : Q) : Q :=
  ((actual - average) / average) * 100.

(** The record the detector appends for a flagged entry. *)
Definition anomaly_record (subscription_id : string)
    (historical_costs : list cost_entry) (e : cost_entry) : anomaly :=
  let average := baseline_average historical_costs (entry_key e) in
  {| a_subscription_id := subscription_id;
     a_subscription_name := default "Unknown"%string (subscription_name e);
     a_resource_group := resource_group e;
     a_service_name := service_name e;
     actual_cost := round2 (cost e);
     average_cost := round2 average;
     variance_percent := round2 (variance_of (cost e) average);
     a_date := date e |}.

(** [emission sub thr hist entries records]: going through [entries] in
    order, [records] holds one record for each flagged entry and nothing for
    the others. *)
Inductive emission (subscription_id : string) (threshold : Q)
    (historical_costs : list cost_entry)
  : list cost_entry -> list anomaly -> Prop :=
  | emission_done : emission subscription_id threshold historical_costs [] []
  | emission_flag e entries records :
      flagged threshold historical_costs e ->
      emission subscription_id threshold historical_costs entries records ->
      emission subscription_id threshold historical_costs (e :: entries)
               (anomaly_record subscription_id historical_costs e :: records)
  | emission_skip e entries records :
      ~ flagged threshold historical_costs e ->
      emission subscription_id threshold historical_costs entries records ->
      emission subscription_id threshold historical_costs (e :: entries) records.

(** The excess of one reported record, from the fields it carries. *)
Definition excess (a : anomaly) : Q := actual_cost a - average_cost a.

(** The report built from the anomalies found, in the order the
    subscriptions were analysed. *)
Definition report_of (threshold : Q) (found : list anomaly) : report :=
  {| anomalies := sort_desc variance_percent found;
     total_anomalies := length (sort_desc variance_percent found);
     total_excess_spend := round2 (fold_left (fun total a => total + excess a) found 0);
     threshold := threshold |}.

(** Analysing the costs of a subscription fails when one of its two cost
    queries raises. *)
Definition cost_analysis_fails (E : env) (subscription_id : string) : Prop :=
  (exists e, _get_actual_costs E subscription_id 1 0 = Raise e) \/
  (exists e, _get_actual_costs E subscription_id 7 1 = Raise e).

Definition plain_row (c : Q) (rg svc : string) : row :=
  {| row_cost := Some c; row_resource_group := Some rg;
     row_service_name := Some svc; row_date := Some "2024-01-08"%string |}.

(** One subscription with one service: the given cost today, and the given
    costs on the days of the baseline window. *)
Definition one_service_env (today : Q) (history : list Q) : env :=
  {| AnomalyDetector.client_factory := Ok ["sub-1"%string];
     query_usage := fun _ days _ =>
       if decide (days = 1%Z) then Ok (Some [plain_row today "RG1" "Svc1"])
       else Ok (Some (map (fun c => plain_row c "RG1" "Svc1") history));
     window_start := fun _ _ => "2024-01-01"%string |}.

(** Two subscriptions; every cost query about the first is refused for
    lack of valid credentials, the second has no costs. *)
Definition expired_env : env :=
  {| AnomalyDetector.client_factory := Ok ["sub-a"%string; "sub-b"%string];
     query_usage := fun sub _ _ =>
       if decide (sub = "sub-a"%string) then Raise (ClientAuthenticationError 401)
       else Ok None;
     window_start := fun _ _ => "2024-01-01"%string |}.

(** The top-level call hands its caller a failure. *)
Definition reports_failure {A} (r : run (tool_result A) unit) : Prop :=
  match outcome r with
  | Ok (Payload _) => False
  | _ => True
  end.

(** The flagging rule as a test, and the excess spend of a run computed at
    full precision: the sum of [cost - average] over the flagged entries. *)
Definition is_flagged (threshold : Q) (historical_costs : list cost_entry)
    (e : cost_entry) : bool :=
  let average := baseline_average historical_costs (entry_key e) in
  negb (Qle_bool average 0) && negb (Qle_bool (cost e) (average * threshold)).

Definition full_precision_excess (threshold : Q)
    (historical_costs actual_costs : list cost_entry) : Q :=
  sum (map (fun e => cost e - baseline_average historical_costs (entry_key e))
           (List.filter (is_flagged threshold historical_costs) actual_costs)).

(** ** Governance recommendations *)

Section GovernanceVocabulary.

Import GovernanceAdvisor.

Definition with_impact (r : recommendation) (v : option string) : recommendation :=
  {| id := id r; category := category r; impact := v;
     short_description := short_description r;
     extended_properties := extended_properties r;
     impacted_value := impacted_value r |}.

(** The lowered problem text the scoring reads, when it can be read. *)
Definition problem_text (r : recommendation) : option string :=
  match short_description r with
  | Some d => lower <$> problem d
  | None => Some EmptyString
  end.

Definition bonus (applies : bool) : Z := if applies then 2%Z else 0%Z.

(** The three keyword tests of the scoring. *)
Definition mentions_encryption (text : string) : bool := contains "encrypt" text.
Definition mentions_access (text : string) : bool :=
  contains "access" text || contains "authentication" text.
Definition mentions_production (text : string) : bool :=
  contains "prod" text || contains "production" text.

(** A recommendation of the given category and impact about the given
    problem. *)
Definition advisory (cat : string) (imp : option string) (text : string)
  : recommendation :=
  {| id := "rec-1"; category := cat; impact := imp;
     short_description :=
       Some {| problem := Some text; solution := Some "Apply the fix"%string |};
     extended_properties := None;
     impacted_value := Some "vm-1"%string |}.

(** A recommendation whose description lacks the problem text. *)
Definition broken_advisory : recommendation :=
  {| id := "rec-2"; category := "Security"; impact := Some "High"%string;
     short_description :=
       Some {| problem := None; solution := Some "Apply the fix"%string |};
     extended_properties := None;
     impacted_value := None |}.

(** The advice built from the recommendations gathered over all
    subscriptions. *)
Definition advice_of (min_risk_score : Z) (gathered : list scored) : advice :=
  let kept :=
    sort_desc (fun r => inject_Z (risk_score r))
      (filter (fun r => min_risk_score <= risk_score r)%Z gathered) in
  {| recommendations := kept;
     summary := _calculate_summary kept;
     min_risk_score := min_risk_score |}.

Section ListingVocabulary.

Context (py_float : string -> option Q).
Context (G : GovernanceAdvisor.env).

(** Analysing the recommendations of a subscription fails, leaving [kept]
    in the list: either the listing cannot be obtained, or going through
    it ends with an exception. *)
Definition listing_fails (subscription_id : string) (kept : list scored) : Prop :=
  (exists e, advisor_list G subscription_id = Raise e /\ kept = []) \/
  (exists listing ending e,
      advisor_list G subscription_id = Ok (listing, ending) /\
      score_listing py_float subscription_id listing ending [] = (kept, Some e)).

(** [kept] holds the scored form of the first recommendations of the
    listing, in order. *)
Definition scored_prefix (subscription_id : string) (kept : list scored) : Prop :=
  match advisor_list G subscription_id with
  | Ok (listing, _) =>
      exists n,
        Forall2 (fun r x => score_recommendation py_float subscription_id r = Ok x)
                (take n listing) kept
  | Raise _ => kept = []
  end.

End ListingVocabulary.

(** One subscription whose listing yields a sound recommendation followed by
    one without problem text. *)
Definition half_broken_env : GovernanceAdvisor.env :=
  {| GovernanceAdvisor.client_factory := Ok ["sub-a"%string];
     advisor_list := fun _ =>
       Ok ([advisory "Security" (Some "High"%string) "Enable disk encryption";
            broken_advisory], None) |}.

End GovernanceVocabulary.

(** ** Compliance overlay *)

Section OverlayVocabulary.

Import ComplianceOverlay.

(** The rank of a severity name in [severity_order]. *)
Definition rank_of_severity (s : string) : Z := assoc_get severity_order s 1%Z.

(** The severities the classifier assigns to its flags. *)
Definition bucket_severity (f : flag) : Prop :=
  severity f = Some "critical"%string \/ severity f = Some "high"%string \/
  severity f = Some "medium"%string.

(** A recommendation is flagged when it matches at least one keyword
    bucket of a framework that is checked. *)
Definition matches_a_bucket (check_iso27001 check_nia_qatar : bool)
    (r : recommendation) : Prop :=
  _check_compliance_impact r check_iso27001 check_nia_qatar <> [].

(** [w] is the warning of [r]: it carries the flags of [r], and its severity
    is the severity of one of these flags and ranks at least as high as
    every one of them. *)
Definition warning_of (check_iso27001 check_nia_qatar : bool)
    (r : recommendation) (w : compliance_warning) : Prop :=
  let fs := _check_compliance_impact r check_iso27001 check_nia_qatar in
  flags w = fs /\
  recommendation_title w = default "Unknown"%string (title r) /\
  (exists f, f ∈ fs /\ severity f = Some (warning_severity w)) /\
  (forall f, f ∈ fs -> (severity_rank f <= rank_of_severity (warning_severity w))%Z).

(** The lowercase text the classifier searches. *)
Definition overlay_text (r : recommendation) : string :=
  lower (default EmptyString (title r) +:+ " " +:+
         default EmptyString (rec_description r) +:+ " " +:+
         default EmptyString (resource_type r)).

(** [keyword] occurs in [text]. *)
Definition occurs_in (keyword text : string) : Prop :=
  exists before after, text = before +:+ keyword +:+ after.

(** A keyword bucket of a control catalogue: the framework it belongs to,
    the keywords that select it and the severity of the flag it raises. *)
Record bucket : Type := {
  of_framework : string;
  keywords : list string;
  raises : string
}.

(** The four buckets of ISO 27001 and the four of NIA Qatar, with the
    keywords of the source, in the order they are tested. *)
Definition iso_encryption : bucket :=
  {| of_framework := "ISO 27001";
     keywords := ["encrypt"; "storage"; "disk"; "premium"]%string;
     raises := "high" |}.

Definition iso_backup : bucket :=
  {| of_framework := "ISO 27001";
     keywords := ["backup"; "snapshot"; "retention"]%string;
     raises := "high" |}.

Definition iso_monitoring : bucket :=
  {| of_framework := "ISO 27001";
     keywords := ["monitor"; "log"; "analytics"; "diagnostic"]%string;
     raises := "medium" |}.

Definition iso_availability : bucket :=
  {| of_framework := "ISO 27001";
     keywords := ["redundan"; "availability"; "zone"; "geo"]%string;
     raises := "high" |}.

Definition nia_data_sovereignty : bucket :=
  {| of_framework := "NIA Qatar";
     keywords := ["region"; "location"; "geo"]%string;
     raises := "critical" |}.

Definition nia_encryption_at_rest : bucket :=
  {| of_framework := "NIA Qatar";
     keywords := ["encrypt"; "storage"; "disk"]%string;
     raises := "critical" |}.

Definition nia_high_availability : bucket :=
  {| of_framework := "NIA Qatar";
     keywords := ["availability"; "redundan"; "uptime"]%string;
     raises := "high" |}.

Definition nia_audit_logging : bucket :=
  {| of_framework := "NIA Qatar";
     keywords := ["log"; "audit"; "retention"]%string;
     raises := "medium" |}.

Definition iso_27001_buckets : list bucket :=
  [iso_encryption; iso_backup; iso_monitoring; iso_availability].

Definition nia_qatar_buckets : list bucket :=
  [nia_data_sovereignty; nia_encryption_at_rest; nia_high_availability;
   nia_audit_logging].

(** The buckets of the frameworks that are checked. *)
Definition checked_buckets (check_iso27001 check_nia_qatar : bool) : list bucket :=
  (if check_iso27001 then iso_27001_buckets else []) ++
  (if check_nia_qatar then nia_qatar_buckets else []).

(** A text matches a bucket when one of the keywords of the bucket occurs in
    it. *)
Definition bucket_matches (text : string) (b : bucket) : Prop :=
  exists keyword, keyword ∈ keywords b /\ occurs_in keyword text.

(** A recommendation matches at least one keyword bucket. *)
Definition matches_some_bucket (check_iso27001 check_nia_qatar : bool)
    (r : recommendation) : Prop :=
  exists b, b ∈ checked_buckets check_iso27001 check_nia_qatar /\
            bucket_matches (overlay_text r) b.

(** The flag a bucket raises carries its framework and its severity. *)
Definition raised_by (b : bucket) (f : flag) : Prop :=
  framework f = of_framework b /\ severity f = Some (raises b).

(** [selection P R xs ys]: going through [xs] in order, [ys] holds one
    element for each [x] that satisfies [P], related to it by [R], and
    nothing for the others. *)
Inductive selection {A B : Type} (P : A -> Prop) (R : A -> B -> Prop)
  : list A -> list B -> Prop :=
  | selection_done : selection P R [] []
  | selection_take x xs y ys :
      P x -> R x y -> selection P R xs ys -> selection P R (x :: xs) (y :: ys)
  | selection_skip x xs ys :
      ~ P x -> selection P R xs ys -> selection P R (x :: xs) ys.

(** The order of the severities: critical > high > medium > low. *)
Definition severity_level (s : string) : nat :=
  if decide (s = "critical"%string) then 4
  else if decide (s = "high"%string) then 3
  else if decide (s = "medium"%string) then 2
  else 1.

(** [s] is the maximum severity among the flags [fs]: the severity of one
    of them, and no flag has a higher one. *)
Definition highest_severity (s : string) (fs : list flag) : Prop :=
  (exists f, f ∈ fs /\ severity f = Some s) /\
  (forall f s', f ∈ fs -> severity f = Some s' ->
                (severity_level s' <= severity_level s)%nat).

(** [w] is the warning of [r]: its flags are the flags of the buckets that
    [r] matches, one for each, and its severity is the maximum among
    them. *)
Definition summarises (check_iso27001 check_nia_qatar : bool)
    (r : recommendation) (w : compliance_warning) : Prop :=
  selection (bucket_matches (overlay_text r)) raised_by
            (checked_buckets check_iso27001 check_nia_qatar) (flags w) /\
  highest_severity (warning_severity w) (flags w).

(** A recommendation that matches a medium bucket (log) and a critical one
    (region). *)
Definition log_region_rec : recommendation :=
  {| rec_id := Some "rec-7"%string;
     title := Some "Reduce log volume"%string;
     rec_description := Some "Move the workspace to a cheaper region"%string;
     resource_type := None |}.

End OverlayVocabulary.

(** * Further vocabulary *)

(** ** The retry wrapper *)

(** An error the wrapper does not retry: not an authentication failure, not
    a rate-limit response, not a 5xx response and not a network error. *)
Definition fatal_error (e : exn) : Prop :=
  match e with
  | HttpResponseError h =>
      http_cls h <> ClientAuthentication /\ status_code h <> 429%Z /\
      ~ (500 <= status_code h < 600)%Z
  | ServiceRequestError | ConnectionError => False
  | _ => True
  end.

(** In whatever state it is called, the function raises [e]. *)
Definition always_raises {T W : Type} (func : W -> result T * W) (e : exn) : Prop :=
  forall w, (func w).1 = Raise e.

(** The delay after [k] retries: the initial delay multiplied [k] times by
    the backoff factor. *)
Definition delay_after (p : policy) (k : nat) : Q :=
  Nat.iter k (fun delay => delay * backoff_factor p) (initial_delay p).

(** What holds of a run that started after [n] calls and the waits
    [slept]: it slept [extra] on top of [slept], called once more than it
    slept, at most [k] times more, never longer than the cap. *)
Definition within_budget_after {T W : Type} (p : policy) (n : nat)
    (slept : list Q) (k : nat) (r : run T W) : Prop :=
  exists extra,
    sleeps r = slept ++ extra /\ calls r = (n + S (length extra))%nat /\
    (length extra <= k)%nat /\ Forall (fun s => s <= max_delay p) extra.

(** A 5xx response, and a rate-limit response that asks to wait. *)
Definition service_unavailable : exn :=
  HttpResponseError {| http_cls := PlainHttpError; status_code := 503;
                       message := None; retry_after_header := None |}.

Definition throttled_for (seconds : string) : exn :=
  HttpResponseError {| http_cls := PlainHttpError; status_code := 429;
                       message := None; retry_after_header := Some seconds |}.

Definition forbidden : exn :=
  HttpResponseError {| http_cls := PlainHttpError; status_code := 403;
                       message := Some "Forbidden"%string;
                       retry_after_header := None |}.

(** ** Cost anomalies *)

(** [b] does not come before [a] in descending order of variance. *)
Definition variance_desc (a b : anomaly) : Prop :=
  variance_percent b <= variance_percent a.

(** The records of a list whose variance is [v], in the order of the list. *)
Definition with_variance (v : Q) (l : list anomaly) : list anomaly :=
  List.filter (fun a => Qeq_bool (variance_percent a) v) l.

(** The anomalies of the given subscriptions, in the order they are
    analysed. *)
Definition anomalies_of (E : env) (threshold : Q) (subs : list string)
  : list anomaly :=
  flat_map (fun s => _detect_subscription_anomalies E s threshold) subs.

(** Two subscriptions with one service each; the second spikes harder. *)
Definition two_spikes_env : env :=
  {| AnomalyDetector.client_factory := Ok ["sub-1"%string; "sub-2"%string];
     query_usage := fun sub days _ =>
       if decide (days = 1%Z)
       then Ok (Some [plain_row (if decide (sub = "sub-1"%string) then 160 else 400)
                                "RG1" "Svc1"])
       else Ok (Some [plain_row 90 "RG1" "Svc1"; plain_row 110 "RG1" "Svc1"]);
     window_start := fun _ _ => "2024-01-01"%string |}.

(** A cost query that answers with the given rows. *)
Definition rows_env (rows : option (list row)) : env :=
  {| AnomalyDetector.client_factory := Ok ["sub-1"%string];
     query_usage := fun _ _ _ => Ok rows;
     window_start := fun _ _ => "2024-01-01"%string |}.

(** A row of which only the cost is known. *)
Definition bare_row (c : Q) : row :=
  {| row_cost := Some c; row_resource_group := None;
     row_service_name := Some EmptyString; row_date := None |}.

(** ** Governance recommendations *)

Section GovernanceVocabulary2.

Import GovernanceAdvisor.

(** [b] does not come before [a] in descending order of risk. *)
Definition risk_desc (a b : scored) : Prop := (risk_score b <= risk_score a)%Z.

(** The recommendations of the given subscriptions, in the order they are
    gathered. *)
Definition gathered (py_float : string -> option Q) (G : GovernanceAdvisor.env)
    (subs : list string) : list scored :=
  flat_map (_get_advisor_recommendations py_float G) subs.

(** One subscription with three recommendations of different risk. *)
Definition three_advisories_env : GovernanceAdvisor.env :=
  {| GovernanceAdvisor.client_factory := Ok ["sub-a"%string];
     advisor_list := fun _ =>
       Ok ([advisory "OperationalExcellence" None "Add tags";
            advisory "Security" (Some "High"%string)
                     "Production database lacks encryption and access control";
            advisory "Performance" (Some "High"%string) "Scale up the prod cache"],
           None) |}.

End GovernanceVocabulary2.

(** ** Compliance overlay *)

Section OverlayVocabulary2.

Import ComplianceOverlay.

(** The entry of a recommendation in the safe list. *)
Definition safe_entry (r : recommendation) : safe :=
  {| safe_rec := r; safe_requires_compliance_review := false |}.

(** The entry of a recommendation in the flagged list. *)
Definition flagged_entry (check_iso27001 check_nia_qatar : bool)
    (r : recommendation) : flagged :=
  {| flagged_rec := r;
     compliance_flags := _check_compliance_impact r check_iso27001 check_nia_qatar;
     flagged_requires_compliance_review := true |}.

Definition stop_action : string :=
  "STOP: Do not implement without compliance officer approval. May violate regulatory requirements.".

Definition review_action : string :=
  "REVIEW: Requires security/compliance team review before implementation. May impact critical controls.".

Definition assess_action : string :=
  "ASSESS: Review impact on compliance controls. Document justification if proceeding.".

(** A recommendation to move to a cheaper disk, and the same in capitals. *)
Definition disk_rec : recommendation :=
  {| rec_id := Some "rec-1"%string;
     title := Some "Use standard disk"%string;
     rec_description := Some "Replace the premium tier"%string;
     resource_type := Some "Microsoft.Compute/disks"%string |}.

Definition disk_rec_capitals : recommendation :=
  {| rec_id := Some "rec-1"%string;
     title := Some "USE STANDARD DISK"%string;
     rec_description := Some "REPLACE THE PREMIUM TIER"%string;
     resource_type := Some "microsoft.compute/DISKS"%string |}.

(** A recommendation that touches no control. *)
Definition resize_rec : recommendation :=
  {| rec_id := Some "rec-2"%string;
     title := Some "Resize the machine"%string;
     rec_description := None;
     resource_type := None |}.

End OverlayVocabulary2.

(** ** Pricing *)

(** A list or a dictionary, which cannot be a key of a table. *)
Definition unhashable (v : value) : bool :=
  match v with
  | VList _ | VDict _ => true
  | _ => false
  end.

Definition is_number (v : value) : bool :=
  match v with
  | VNumber _ => true
  | _ => false
  end.

Definition is_string (v : value) : bool :=
  match v with
  | VStr _ => true
  | _ => false
  end.

(** The resource types that have a table of prices. *)
Definition priced_types : list string :=
  [ "Microsoft.Compute/virtualMachines"%string;
    "Microsoft.Compute/disks"%string;
    "Microsoft.Network/publicIPAddresses"%string;
    "Microsoft.Storage/storageAccounts"%string ].

(** The SKU is a string for which the table has an entry. *)
Definition sku_in_table {V : Type} (table : gmap string V) (sku : value) : bool :=
  match sku with
  | VStr s => bool_decide (is_Some (table !! s))
  | _ => false
  end.

(** Pricing cannot go through for a type, a SKU and a size: the type has a
    table and the SKU cannot be hashed, or the resource is a disk or a
    storage account with a SKU of the table and a size that is not a
    number. *)
Definition cannot_be_estimated (resource_type sku size_gb : value) : bool :=
  match resource_type with
  | VStr resource_type =>
      (bool_decide (resource_type ∈ priced_types) && unhashable sku) ||
      (bool_decide (resource_type = "Microsoft.Compute/disks"%string) &&
       sku_in_table disk_prices sku && negb (is_number size_gb)) ||
      (bool_decide (resource_type = "Microsoft.Storage/storageAccounts"%string) &&
       sku_in_table storage_prices sku && negb (is_number size_gb))
  | _ => false
  end.

(** The same for an entry of the savings, with the defaults of its absent
    keys. *)
Definition cannot_be_priced (r : wasteful_resource) : bool :=
  cannot_be_estimated (default (VStr EmptyString) (res_type r))
                      (default (VStr EmptyString) (res_sku r))
                      (default (VNumber 128) (res_size_gb r)).

(** What a resource adds to the savings: its estimated cost, and nothing
    when it has no price. *)
Definition resource_cost (r : wasteful_resource) : Q :=
  match estimate_resource_cost_any
          (default (VStr EmptyString) (res_type r))
          (default (VStr EmptyString) (res_sku r))
          (default (VNumber 128) (res_size_gb r)) with
  | Ok (Some c) => c
  | _ => 0
  end.

(** An entry whose type and SKU are strings and whose size is a number. *)
Definition typed_entry (resource_type sku : string) (size_gb : Q) : wasteful_resource :=
  {| res_type := Some (VStr resource_type); res_sku := Some (VStr sku);
     res_size_gb := Some (VNumber size_gb); res_region := None |}.

Definition idle_disk (sku : string) (size : Q) : wasteful_resource :=
  typed_entry "Microsoft.Compute/disks" sku size.

Definition unknown_resource : wasteful_resource :=
  {| res_type := Some (VStr "Microsoft.Sql/servers"); res_sku := Some (VStr "S0");
     res_size_gb := None; res_region := None |}.

(** A disk whose size is present, and [None]. *)
Definition unsized_disk : wasteful_resource :=
  {| res_type := Some (VStr "Microsoft.Compute/disks");
     res_sku := Some (VStr "Premium_LRS");
     res_size_gb := Some VNone; res_region := None |}.

(** ** Budget validation *)

Section BudgetVocabulary.

Import BudgetValidator.

(** The entry of a dictionary under a key; a value that is not a dictionary
    has none. *)
Definition at_key (v : value) (key : string) : option value :=
  match v with
  | VDict entries => entry_of entries key
  | _ => None
  end.

Definition is_dict (v : value) : bool :=
  match v with
  | VDict _ => true
  | _ => false
  end.

(** An entry that is a dictionary when it is there. *)
Definition dict_if_present (v : option value) : bool :=
  match v with
  | Some v => is_dict v
  | None => true
  end.

(** A value that is absent or false. *)
Definition falsy (v : option value) : bool :=
  match v with
  | Some v => negb (value_truthy v)
  | None => true
  end.

(** [properties.hardwareProfile.vmSize], [properties.diskSizeGB] and
    [sku.name] of a resource. *)
Definition vm_size_of (r : value) : option value :=
  at_key r "properties" ≫= (fun properties =>
  at_key properties "hardwareProfile" ≫= (fun hardware_profile =>
  at_key hardware_profile "vmSize")).

Definition disk_size_of (r : value) : option value :=
  at_key r "properties" ≫= (fun properties => at_key properties "diskSizeGB").

Definition sku_name_of (r : value) : option value :=
  at_key r "sku" ≫= (fun sku => at_key sku "name").

Definition hardware_profile_of (r : value) : option value :=
  at_key r "properties" ≫= (fun properties => at_key properties "hardwareProfile").

(** What one turn of the pricing loop does with a resource: the cost it adds
    to the total (nothing when no SKU can be read from it or the SKU has no
    price), or the exception it raises. *)
Definition arm_outcome (r : value) : result Q :=
  resource_type ← value_get r "type" (VStr EmptyString);
  resource_name ← value_get r "name" (VStr "Unknown");
  sku_info ← _extract_sku_info r;
  match sku_info with
  | Some info =>
      estimated_cost ←
        estimate_resource_cost_any resource_type (sku info)
          (default (VNumber 128) (size_gb info));
      match estimated_cost with
      | Some c =>
          if Qeq_bool c 0 then Ok 0
          else premium ← str_in_value "Premium" (sku info); Ok c
      | None => Ok 0
      end
  | None => Ok 0
  end.

(** What a resource of a template adds to the monthly cost. *)
Definition arm_cost (region : string) (r : value) : Q :=
  match arm_outcome r with
  | Ok c => c
  | Raise _ => 0
  end.

(** The template has no resources: it is a dictionary whose [resources]
    are absent or false. *)
Definition without_resources (t : value) : Prop :=
  is_dict t = true /\ falsy (at_key t "resources") = true.

(** The resources the loop goes through. *)
Definition listed_resources (t : value) : list value :=
  match at_key t "resources" with
  | Some resources => if value_iter resources is Ok items then items else []
  | None => []
  end.

(** The monthly cost of a template, before rounding. *)
Definition template_cost (region : string) (t : value) : Q :=
  sum (map (arm_cost region) (listed_resources t)).

(** The template cannot be gone through: it is not a dictionary, or its
    [resources] are a number. *)
Definition template_error (t : value) : option exn :=
  match t with
  | VDict entries =>
      match entry_of entries "resources" with
      | Some (VNumber q) => if Qeq_bool q 0 then None else Some TypeError
      | _ => None
      end
  | _ => Some AttributeError
  end.

(** [e] is what the first resource that raises, raises. *)
Definition first_failure (items : list value) (e : exn) : Prop :=
  exists before r after,
    items = before ++ r :: after /\
    Forall (fun r => exists c, arm_outcome r = Ok c) before /\
    arm_outcome r = Raise e.

Definition is_premium_warning (w : budget_warning) : Prop :=
  match w with
  | PremiumSku _ _ => True
  | BudgetExceeded _ _ => False
  end.

Definition typed_resource (resource_type name : string)
    (entries : list (string * value)) : value :=
  VDict (("type"%string, VStr resource_type) :: ("name"%string, VStr name) :: entries).

Definition vm_resource (name size : string) : value :=
  typed_resource "Microsoft.Compute/virtualMachines" name
    [ ("properties"%string,
       VDict [("hardwareProfile"%string, VDict [("vmSize"%string, VStr size)])]) ].

Definition disk_resource (name sku_name : string) (size : value) : value :=
  typed_resource "Microsoft.Compute/disks" name
    [ ("sku"%string, VDict [("name"%string, VStr sku_name)]);
      ("properties"%string, VDict [("diskSizeGB"%string, size)]) ].

Definition public_ip_resource (name : string) : value :=
  typed_resource "Microsoft.Network/publicIPAddresses" name [].

(** A virtual machine, a premium disk and a machine of an unknown size. *)
Definition small_template : value :=
  VDict [ ("resources"%string,
           VList [vm_resource "web" "Standard_D2s_v3";
                  disk_resource "data" "Premium_LRS" (VNumber 512);
                  vm_resource "job" "Standard_Z99"]) ].

(** A template whose disk takes its size from a parameter. *)
Definition parameterised_template : value :=
  VDict [ ("resources"%string,
           VList [vm_resource "web" "Standard_D2s_v3";
                  disk_resource "data" "Premium_LRS" (VStr "[parameters('size')]")]) ].

End BudgetVocabulary.

(** * Properties *)

(** ** Pricing *)

Section PricingFacts.

Lemma Qle_bool_false (x y : Q) : Qle_bool x y = false -> y < x.
Proof.
  intros H. apply Qnot_le_lt. intros Hle.
  apply Qle_bool_iff in Hle. congruence.
Qed.

(** The search of the size loop on an ascending list: the first hit is the
    least size that is large enough, and a miss means every size is too
    small. *)
Lemma first_size_at_least_spec (size_gb : Q) (sizes : list Z) :
  StronglySorted Z.le sizes ->
  match first_size_at_least size_gb sizes with
  | Some s =>
      s ∈ sizes /\ size_gb <= inject_Z s /\
      forall t, t ∈ sizes -> size_gb <= inject_Z t -> (s <= t)%Z
  | None => forall t, t ∈ sizes -> inject_Z t < size_gb
  end.
Proof.
  induction 1 as [|s rest Hsorted IH Hall]; simpl.
  - intros t Ht. inversion Ht.
  - destruct (Qle_bool size_gb (inject_Z s)) eqn:Hs.
    + apply Qle_bool_iff in Hs. split; [left|split; [done|]].
      intros t Ht _. apply elem_of_cons in Ht as [->|Ht]; [lia|].
      rewrite Forall_forall in Hall. by apply Hall.
    + apply Qle_bool_false in Hs.
      destruct (first_size_at_least size_gb rest) as [s'|].
      * destruct IH as (Hin & Hle & Hleast). split; [by right|split; [done|]].
        intros t Ht Hge. apply elem_of_cons in Ht as [->|Ht]; [|by apply Hleast].
        exfalso. eapply Qlt_irrefl, Qlt_le_trans; eauto.
      * intros t Ht. apply elem_of_cons in Ht as [->|Ht]; [done|by apply IH].
Qed.

Lemma last_sorted_max (sizes : list Z) (d : Z) :
  StronglySorted Z.le sizes -> sizes <> [] ->
  List.last sizes d ∈ sizes /\ forall t, t ∈ sizes -> (t <= List.last sizes d)%Z.
Proof.
  induction 1 as [|s rest Hsorted IH Hall]; [done|]. intros _.
  destruct rest as [|s' rest'].
  - simpl. split; [left|]. intros t Ht. apply list_elem_of_singleton in Ht. lia.
  - change (List.last (s :: s' :: rest') d) with (List.last (s' :: rest') d).
    destruct IH as [Hin Hmax]; [done|]. split; [by right|].
    intros t Ht. apply elem_of_cons in Ht as [->|Ht]; [|by apply Hmax].
    rewrite Forall_forall in Hall. by apply Hall.
Qed.

Lemma tier_sizes_sorted : StronglySorted Z.le tier_sizes.
Proof. unfold tier_sizes. repeat constructor; lia. Qed.

Lemma known_disk_sku_cases (sku : string) :
  known_disk_sku sku -> sku = "Standard_LRS"%string \/ sku = "Premium_LRS"%string.
Proof.
  intros [tiers Htiers].
  change (tiered_table "Microsoft.Compute/disks") with disk_prices in Htiers.
  apply elem_of_list_to_map_2 in Htiers.
  repeat (apply elem_of_cons in Htiers as [Htiers|Htiers];
          [inversion Htiers; auto|]).
  inversion Htiers.
Qed.

(** Reads a key of the table back as the size it prints. *)
Ltac tier_of_key H t :=
  match type of H with
  | pretty t = ?k =>
      let n := eval vm_compute in (int_digits 0 k) in
      match n with
      | Some ?z => change k with (pretty z) in H; apply (inj pretty) in H; subst t
      end
  end.

Ltac tier_table_facts :=
  split; [by intros H%(f_equal (.!! "32"%string))|];
  split; [by vm_compute|];
  split;
  [ let t := fresh "t" in
    let Ht := fresh "Ht" in
    intros t Ht; unfold tier_sizes in Ht;
    repeat (apply elem_of_cons in Ht as [->|Ht]; [vm_compute; eauto|]);
    inversion Ht
  | let t := fresh "t" in
    let Ht := fresh "Ht" in
    intros t Ht; unfold tier_sizes;
    repeat (apply lookup_insert_is_Some in Ht as [Ht|[_ Ht]];
            [symmetry in Ht; tier_of_key Ht t; set_solver|]);
    by apply lookup_empty_is_Some in Ht ].

Lemma available_sizes_of_known (sku : string) (tiers : gmap string Q) :
  disk_prices !! sku = Some tiers ->
  tiers <> ∅ /\
  (sorted ← ints_of_strs (map fst (map_to_list tiers));
   Ok (merge_sort Z.le sorted)) = Ok tier_sizes /\
  (forall t, t ∈ tier_sizes -> is_Some (tiers !! pretty t)) /\
  (forall t, is_Some (tiers !! pretty t) -> t ∈ tier_sizes).
Proof.
  intros Htiers. apply elem_of_list_to_map_2 in Htiers.
  apply elem_of_cons in Htiers as [Htiers|Htiers].
  { injection Htiers as -> ->. tier_table_facts. }
  apply elem_of_cons in Htiers as [Htiers|Htiers].
  { injection Htiers as -> ->. tier_table_facts. }
  inversion Htiers.
Qed.

End PricingFacts.

(** C8.  For every disk SKU of the pricing table and every requested size,
    the estimate is the price of the smallest size tier that is at least the
    requested size; when the request exceeds every tier it is the price of
    the largest tier.  In both cases the call returns a price: it does not
    raise and does not answer "not found". *)
Theorem disk_cost_tiered (sku : string) (size_gb : Q) :
  known_disk_sku sku ->
  exists (tier : Z) (price : Q),
    get_disk_monthly_cost sku size_gb = Ok (Some price) /\
    disk_tier_price sku tier = Some price /\
    ((size_gb <= inject_Z tier /\
      forall t, is_disk_tier sku t -> size_gb <= inject_Z t -> (tier <= t)%Z) \/
     ((forall t, is_disk_tier sku t -> inject_Z t < size_gb) /\
      forall t, is_disk_tier sku t -> (t <= tier)%Z)).
Proof.
  intros [tiers Htiers].
  change (tiered_table "Microsoft.Compute/disks") with disk_prices in Htiers.
  destruct (available_sizes_of_known sku tiers Htiers)
    as (Hne & Hsizes & Hpriced & Htier).
  unfold get_disk_monthly_cost, is_disk_tier, disk_tier_price.
  change (tiered_table "Microsoft.Compute/disks") with disk_prices.
  rewrite Htiers. simpl. destruct (decide (tiers = ∅)) as [|_]; [done|].
  destruct (ints_of_strs (map fst (map_to_list tiers))) as [parsed|]; [|done].
  simpl in *. injection Hsizes as ->.
  pose proof (first_size_at_least_spec size_gb tier_sizes tier_sizes_sorted) as Hfirst.
  destruct (first_size_at_least size_gb tier_sizes) as [s|].
  - destruct Hfirst as (Hin & Hle & Hleast).
    destruct (Hpriced s Hin) as [price Hprice].
    exists s, price. split; [by rewrite Hprice|]. split; [done|]. left.
    split; [done|]. intros t Ht. by apply Hleast, Htier.
  - destruct (last_sorted_max tier_sizes 0%Z tier_sizes_sorted) as [Hin Hmax]; [done|].
    destruct (Hpriced _ Hin) as [price Hprice].
    exists (List.last tier_sizes 0%Z), price.
    split; [by rewrite Hprice|]. split; [done|]. right.
    split; intros t Ht; [by apply Hfirst, Htier | by apply Hmax, Htier].
Qed.

Lemma disk_cost_tiered_witness :
  known_disk_sku "Premium_LRS" /\
  exists (tier : Z) (price : Q),
    get_disk_monthly_cost "Premium_LRS" 200 = Ok (Some price) /\
    disk_tier_price "Premium_LRS" tier = Some price /\
    ((200 <= inject_Z tier /\
      forall t, is_disk_tier "Premium_LRS" t -> 200 <= inject_Z t -> (tier <= t)%Z) \/
     ((forall t, is_disk_tier "Premium_LRS" t -> inject_Z t < 200) /\
      forall t, is_disk_tier "Premium_LRS" t -> (t <= tier)%Z)).
Proof.
  assert (Hknown : known_disk_sku "Premium_LRS") by (vm_compute; eauto).
  split; [exact Hknown|]. exact (disk_cost_tiered "Premium_LRS" 200 Hknown).
Defined.

Example disk_200_is_256_tier :
  get_disk_monthly_cost "Premium_LRS" 200 = Ok (disk_tier_price "Premium_LRS" 256).
Proof. by vm_compute. Qed.

Example disk_2000_is_largest_tier :
  get_disk_monthly_cost "Standard_LRS" 2000 = Ok (disk_tier_price "Standard_LRS" 1024).
Proof. by vm_compute. Qed.

(** C9, as the specification states it, fails for public IP addresses: a
    SKU that the table does not list is given a price. *)
Lemma public_ip_unknown_sku_is_priced :
  ~ (forall (resource_type sku : string) (kw : kwargs),
        ~ priced resource_type sku ->
        estimate_resource_cost resource_type sku kw = Ok None).
Proof.
  intros H.
  specialize (H "Microsoft.Network/publicIPAddresses"%string "Premium"%string
                no_kwargs).
  assert (Hno : ~ priced "Microsoft.Network/publicIPAddresses" "Premium").
  { intros [x Hx]. by vm_compute in Hx. }
  specialize (H Hno). by vm_compute in H.
Qed.

(** C9, amended.  The estimator never raises on a resource type or SKU it
    has no price for: it answers "not found" when the resource type is
    unknown or the SKU of a virtual machine, disk or storage account is not
    in the table, and it answers the default price 3.65 for a public IP
    address whose SKU is not in the table. *)
Theorem unpriced_resource_estimate (resource_type sku : string) (kw : kwargs) :
  ~ priced resource_type sku ->
  estimate_resource_cost resource_type sku kw =
    Ok (if decide (resource_type = "Microsoft.Network/publicIPAddresses")
        then Some 3.65 else None).
Proof.
  intros Hno. unfold estimate_resource_cost.
  repeat case_decide; subst; try done.
  - unfold get_vm_monthly_cost. f_equal.
    destruct (flat_table _ !! sku) eqn:Hsku; [|done].
    exfalso. apply Hno. by exists q.
  - unfold get_disk_monthly_cost.
    destruct (tiered_table _ !! sku) eqn:Hsku.
    + exfalso. apply Hno. by eexists.
    + simpl. by case_decide.
  - unfold get_public_ip_monthly_cost. do 2 f_equal.
    destruct (flat_table _ !! sku) eqn:Hsku; [|done].
    exfalso. apply Hno. by eexists.
  - unfold get_storage_account_monthly_cost. f_equal.
    destruct (flat_table _ !! sku) eqn:Hsku; [|done].
    exfalso. apply Hno. by eexists.
Qed.

Lemma unpriced_resource_estimate_witness :
  ~ priced "Microsoft.Compute/virtualMachines" "Standard_Z99" /\
  estimate_resource_cost "Microsoft.Compute/virtualMachines" "Standard_Z99"
    no_kwargs = Ok None.
Proof.
  assert (Hno : ~ priced "Microsoft.Compute/virtualMachines" "Standard_Z99").
  { intros [x Hx]. by vm_compute in Hx. }
  split; [exact Hno|].
  exact (unpriced_resource_estimate "Microsoft.Compute/virtualMachines"
           "Standard_Z99" no_kwargs Hno).
Defined.

(** ** The retry wrapper *)

Section RetryFacts.

Context (py_float : string -> option Q).
Context {T W : Type}.
Context (func : W -> result T * W).

Variable p : policy.

Lemma seqZ_step (a len : Z) :
  (0 < len)%Z -> seqZ a len = a :: seqZ (a + 1) (len - 1).
Proof.
  intros Hlen. by rewrite seqZ_cons.
Qed.

(** [time.sleep] takes every length from zero to the cap of a policy, and
    so the smaller of two such numbers. *)
Lemma sleep_returns (q cap : Q) :
  0 <= q -> q <= cap -> cap < sleep_limit -> time_sleep (Number q) = Ok q.
Proof.
  intros Hq Hle Hcap. unfold time_sleep.
  assert (Hlimit : 0 < sleep_limit) by reflexivity.
  destruct (Qle_bool sleep_limit q) eqn:Hhigh.
  { apply Qle_bool_iff in Hhigh. lra. }
  destruct (Qle_bool q (- sleep_limit)) eqn:Hlow.
  { apply Qle_bool_iff in Hlow. lra. }
  simpl. destruct (Qle_bool 0 q) eqn:Hpos; [done|].
  apply Qle_bool_false in Hpos. lra.
Qed.

Lemma backoff_can_be_slept (delay cap : Q) :
  0 <= delay -> 0 <= cap -> cap < sleep_limit ->
  time_sleep (Number (Qmin delay cap)) = Ok (Qmin delay cap).
Proof.
  intros Hdelay Hcap Hlimit. apply (sleep_returns _ cap); [|apply Q.le_min_r|done].
  by apply Q.min_glb.
Qed.

(** One attempt that fails with a retryable error while attempts remain
    goes on to the next attempt, having slept once, provided the wait can be
    slept. *)
Lemma attempts_retry (a : Z) (rest : list Z) (delay : Q)
    (last : option exn) (w : W) (n : nat) (slept : list Q) (e : exn) :
  (func w).1 = Raise e -> retryable e -> (a < max_retries p)%Z ->
  0 <= delay -> 0 <= max_delay p -> max_delay p < sleep_limit ->
  sleepable_retry_after py_float e ->
  exists wait_time,
    attempts py_float func p (a :: rest) delay last w n slept =
    attempts py_float func p rest (delay * backoff_factor p) (Some e)
             (func w).2 (S n) (slept ++ [wait_time]).
Proof.
  intros Hcall Hretry Ha Hdelay Hcap Hlimit Hwait. cbn [attempts].
  destruct (func w) as [r w']. cbn [fst snd] in *. subst r.
  pose proof (backoff_can_be_slept delay (max_delay p) Hdelay Hcap Hlimit) as Hsleep.
  destruct Hretry as [Hrate|[Hserver|[->| ->]]].
  - destruct e as [h| | | | | | | | |]; try done. destruct Hrate as [Hcls Hstatus].
    simpl in Hwait. specialize (Hwait Hstatus).
    destruct (http_cls h); try done;
      (rewrite decide_True by done; rewrite decide_True by done;
       destruct (_get_retry_after py_float h) as [[s| | |]|]; try done;
       cbn [float_truthy float_min];
       [destruct (Qeq_bool s 0); cbn [negb];
        [|rewrite (backoff_can_be_slept s (max_delay p)) by done]
       |rewrite (sleep_returns (max_delay p) (max_delay p)) by (done || lra)|];
       rewrite ?Hsleep; eauto).
  - destruct e as [h| | | | | | | | |]; try done. destruct Hserver as [Hcls Hstatus].
    destruct (http_cls h); try done;
      (rewrite decide_False by lia; rewrite decide_True by done;
       rewrite decide_True by done; rewrite Hsleep; eauto).
  - rewrite decide_True by done. rewrite Hsleep. eauto.
  - rewrite decide_True by done. rewrite Hsleep. eauto.
Qed.

Hypothesis Hfactor : 0 <= backoff_factor p.
Hypothesis Hcap : 0 <= max_delay p.
Hypothesis Hlimit : max_delay p < sleep_limit.
Hypothesis Hwaits : sleepable_waits py_float func.

Lemma attempts_fails_then_succeeds (N : nat) :
  forall (a : Z) (delay : Q) (last : option exn) (w : W) (n : nat)
         (slept : list Q) (v : T),
    (a + Z.of_nat N <= max_retries p)%Z -> 0 <= delay ->
    fails_then_succeeds func N w v ->
    let r := attempts py_float func p (seqZ a (max_retries p + 1 - a))
                      delay last w n slept in
    calls r = (n + S N)%nat /\ outcome r = Ok v.
Proof.
  induction N as [|N IH]; intros a delay last w n slept v Ha Hdelay Hrun r; subst r.
  - rewrite seqZ_step by lia. simpl in *.
    destruct (func w) as [r w']. simpl in Hrun. subst r. simpl.
    split; [lia|done].
  - destruct Hrun as (e & Hcall & Hretry & Hrest).
    rewrite seqZ_step by lia.
    destruct (attempts_retry a (seqZ (a + 1) (max_retries p + 1 - a - 1))
                delay last w n slept e Hcall Hretry) as [wait_time ->];
      [lia|done|done|done|by apply (Hwaits w)|].
    replace (max_retries p + 1 - a - 1)%Z with (max_retries p + 1 - (a + 1))%Z by lia.
    destruct (IH (a + 1)%Z (delay * backoff_factor p) (Some e) (func w).2 (S n)
                 (slept ++ [wait_time]) v) as [Hcalls Hout];
      [lia|by apply Qmult_le_0_compat|done|].
    split; [rewrite Hcalls; lia|done].
Qed.

Lemma attempts_always_rate_limited (k : nat) :
  always_rate_limited func ->
  forall (a : Z) (delay : Q) (last : option exn) (w : W) (n : nat)
         (slept : list Q),
    (a + Z.of_nat k = max_retries p)%Z -> 0 <= delay ->
    let r := attempts py_float func p (seqZ a (max_retries p + 1 - a))
                      delay last w n slept in
    calls r = (n + S k)%nat /\ outcome r = Raise RateLimitExceeded.
Proof.
  intros Halways.
  induction k as [|k IH]; intros a delay last w n slept Ha Hdelay r; subst r.
  - rewrite seqZ_step by lia. simpl.
    destruct (Halways w) as (e & Hcall & Hrate).
    destruct (func w) as [r w']. simpl in Hcall. subst r.
    destruct e as [h| | | | | | | | |]; try done. destruct Hrate as [Hcls Hstatus].
    destruct (http_cls h); try done;
      (rewrite decide_True by done; rewrite decide_False by lia; simpl;
       split; [lia|done]).
  - destruct (Halways w) as (e & Hcall & Hrate).
    rewrite seqZ_step by lia.
    destruct (attempts_retry a (seqZ (a + 1) (max_retries p + 1 - a - 1))
                delay last w n slept e Hcall) as [wait_time ->];
      [by left|lia|done|done|done|by apply (Hwaits w)|].
    replace (max_retries p + 1 - a - 1)%Z with (max_retries p + 1 - (a + 1))%Z by lia.
    destruct (IH (a + 1)%Z (delay * backoff_factor p) (Some e) (func w).2 (S n)
                 (slept ++ [wait_time])) as [Hcalls Hout];
      [lia|by apply Qmult_le_0_compat|].
    split; [rewrite Hcalls; lia|done].
Qed.

End RetryFacts.

Section AuthenticationFacts.

Context (py_float : string -> option Q).
Context {T W : Type}.
Context (func : W -> result T * W).
Context (p : policy).

(** An authentication failure on the first attempt ends the wrapper at
    once. *)
Lemma attempts_authentication_failure (a : Z) (rest : list Z) (delay : Q)
    (last : option exn) (w : W) (n : nat) (slept : list Q) (e : exn) :
  (func w).1 = Raise e -> authentication_failure e ->
  attempts py_float func p (a :: rest) delay last w n slept =
  {| outcome := Raise AuthenticationExpired; calls := S n; sleeps := slept;
     world := (func w).2 |}.
Proof.
  intros Hcall Hauth. simpl. destruct (func w) as [r w']. simpl in *. subst r.
  destruct e as [h| | | | | | | | |]; try done. simpl in Hauth. by rewrite Hauth.
Qed.

End AuthenticationFacts.


(** What the wrapper does on that function: one call, no sleep, and the
    [ValueError] of [time.sleep]. *)
Example negative_retry_after_run :
  let r := retry_with_backoff float_of_signed_decimal flaky_negative default_policy 0%nat in
  calls r = 1%nat /\ sleeps r = [] /\ outcome r = Raise ValueError.
Proof.
  by vm_compute.
Qed.



(** The waits of the exhausted run double from the initial delay. *)
Example throttled_sleeps :
  sleeps (retry_with_backoff float_of_decimal always_throttled default_policy 0%nat)
  = [1; 1 * 2; 1 * 2 * 2].
Proof. reflexivity. Qed.

(** C3, as the specification states it, fails: an authentication failure
    met while a subscription is analysed is caught by the handler of that
    subscription, and the caller of the top-level operation receives a
    success payload without anomalies. *)
Lemma authentication_failure_is_swallowed :
  ~ (forall (E : env) (sub : string) (threshold : Q) (e : exn),
        _get_actual_costs E sub 1 0 = Raise e -> authentication_failure e ->
        reports_failure
          (get_enterprise_anomalies float_of_decimal E (Some [sub]) threshold)).
Proof.
  intros H.
  specialize (H expired_env "sub-a"%string 1.5 (ClientAuthenticationError 401)
                eq_refl eq_refl).
  exact H.
Qed.

(** C3, amended.  For every function whose first call fails with an
    authentication failure, the retry wrapper invokes it exactly once, does
    not sleep and raises [AuthenticationExpired].  An authentication failure
    of a cost query of one subscription is caught by the handler of that
    subscription, which then contributes no anomalies. *)
Theorem authentication_failure_handling (py_float : string -> option Q)
    {T W : Type} (func : W -> result T * W) (m : nat) (delay factor cap : Q)
    (w : W) (E : env) (sub : string) (threshold : Q) (e e' : exn) :
  let p := {| max_retries := Z.of_nat m; initial_delay := delay;
              backoff_factor := factor; max_delay := cap |} in
  ((func w).1 = Raise e -> authentication_failure e ->
   calls (retry_with_backoff py_float func p w) = 1%nat /\
   sleeps (retry_with_backoff py_float func p w) = [] /\
   outcome (retry_with_backoff py_float func p w) = Raise AuthenticationExpired) /\
  ((_get_actual_costs E sub 1 0 = Raise e' \/
    _get_actual_costs E sub 7 1 = Raise e') ->
   authentication_failure e' ->
   _detect_subscription_anomalies E sub threshold = []).
Proof.
  intros p. split.
  - intros Hcall Hauth. unfold retry_with_backoff.
    rewrite seqZ_step by (simpl; lia).
    by rewrite (attempts_authentication_failure py_float func p _ _ _ _ _ _ _ e).
  - intros [Hfail|Hfail] _; unfold _detect_subscription_anomalies.
    + by rewrite Hfail.
    + rewrite Hfail. by destruct (_get_actual_costs E sub 1 0).
Qed.

Lemma authentication_failure_handling_witness :
  (calls (retry_with_backoff float_of_decimal unauthenticated default_policy 0%nat) = 1%nat /\
   sleeps (retry_with_backoff float_of_decimal unauthenticated default_policy 0%nat) = [] /\
   outcome (retry_with_backoff float_of_decimal unauthenticated default_policy 0%nat)
     = Raise AuthenticationExpired) /\
  _detect_subscription_anomalies expired_env "sub-a" 1.5 = [].
Proof.
  pose proof (authentication_failure_handling float_of_decimal unauthenticated
                3 1 2 60 0%nat expired_env "sub-a" 1.5
                (ClientAuthenticationError 401) (ClientAuthenticationError 401)) as [H1 H2].
  split.
  - apply H1; reflexivity.
  - apply H2; [left|]; reflexivity.
Defined.

(** ** Cost anomalies *)

Section AnomalyFacts.

(** After the grouping loop, a key holds what it held before followed by
    the costs of the entries filed under it. *)
Lemma grouped_costs_lookup (entries : list cost_entry) :
  forall (grouped : gmap (string * string) (list Q)) (key : string * string),
    fold_left group_entry entries grouped !! key =
    match baseline_costs entries key with
    | [] => grouped !! key
    | costs => Some (default [] (grouped !! key) ++ costs)
    end.
Proof.
  unfold baseline_costs.
  induction entries as [|e entries IH]; intros grouped key; [done|].
  simpl fold_left. rewrite IH. rewrite filter_cons.
  assert (Hstep : group_entry grouped e !! key =
                  if decide (entry_key e = key)
                  then Some (default [] (grouped !! key) ++ [cost e])
                  else grouped !! key).
  { unfold group_entry. case_decide as Hkey.
    - subst key. rewrite lookup_insert_eq.
      destruct (grouped !! entry_key e) eqn:Hold; rewrite ?Hold; [done|].
      by rewrite lookup_insert_eq.
    - rewrite lookup_insert_ne by done.
      destruct (grouped !! entry_key e); [done|]. by rewrite lookup_insert_ne. }
  rewrite Hstep. case_decide as Hkey; simpl.
  - destruct (map cost (filter _ entries)) as [|c costs]; [done|].
    simpl. by rewrite <- app_assoc.
  - done.
Qed.

(** The average the detector reads for a key is the mean of the baseline of
    that key, and 0 for a key without history. *)
Lemma historical_average_lookup (historical_costs : list cost_entry)
    (key : string * string) :
  default 0 (_calculate_averages historical_costs !! key) =
  baseline_average historical_costs key.
Proof.
  unfold _calculate_averages, baseline_average.
  rewrite lookup_fmap, grouped_costs_lookup, lookup_empty.
  by destruct (baseline_costs historical_costs key).
Qed.

Lemma compare_entry_flagged (sub : string) (threshold : Q)
    (historical_costs : list cost_entry) (found : list anomaly) (e : cost_entry) :
  flagged threshold historical_costs e ->
  compare_entry sub threshold (_calculate_averages historical_costs) found e =
  found ++ [anomaly_record sub historical_costs e].
Proof.
  intros [Hpos Hover]. unfold compare_entry.
  rewrite historical_average_lookup.
  destruct (Qle_bool (baseline_average _ _) 0) eqn:Hle.
  { apply Qle_bool_iff in Hle. exfalso. exact (Qlt_irrefl _ (Qlt_le_trans _ _ _ Hpos Hle)). }
  destruct (Qle_bool (cost e) _) eqn:Hle'.
  { apply Qle_bool_iff in Hle'. exfalso. exact (Qlt_irrefl _ (Qlt_le_trans _ _ _ Hover Hle')). }
  done.
Qed.

Lemma compare_entry_not_flagged (sub : string) (threshold : Q)
    (historical_costs : list cost_entry) (found : list anomaly) (e : cost_entry) :
  ~ flagged threshold historical_costs e ->
  compare_entry sub threshold (_calculate_averages historical_costs) found e = found.
Proof.
  intros Hno. unfold compare_entry. rewrite historical_average_lookup.
  destruct (Qle_bool (baseline_average _ _) 0) eqn:Hle; [done|].
  destruct (Qle_bool (cost e) _) eqn:Hle'; [done|].
  exfalso. apply Hno. split; by apply Qle_bool_false.
Qed.

Lemma flagged_dec (threshold : Q) (historical_costs : list cost_entry)
    (e : cost_entry) :
  flagged threshold historical_costs e \/ ~ flagged threshold historical_costs e.
Proof.
  unfold flagged.
  destruct (Qlt_le_dec 0 (baseline_average historical_costs (entry_key e)))
    as [Hpos|Hle].
  - destruct (Qlt_le_dec (baseline_average historical_costs (entry_key e) * threshold)
                         (cost e)) as [Hover|Hle]; [by left|].
    right. intros [_ H]. exact (Qlt_irrefl _ (Qlt_le_trans _ _ _ H Hle)).
  - right. intros [H _]. exact (Qlt_irrefl _ (Qlt_le_trans _ _ _ H Hle)).
Qed.

(** The comparison loop appends exactly the records of the flagged
    entries. *)
Lemma comparison_loop_emission (sub : string) (threshold : Q)
    (historical_costs : list cost_entry) (entries : list cost_entry) :
  forall found : list anomaly,
  exists records,
    emission sub threshold historical_costs entries records /\
    fold_left (compare_entry sub threshold (_calculate_averages historical_costs))
              entries found = found ++ records.
Proof.
  induction entries as [|e entries IH]; intros found.
  - exists []. split; [constructor|]. by rewrite app_nil_r.
  - simpl. destruct (flagged_dec threshold historical_costs e) as [Hflag|Hno].
    + rewrite compare_entry_flagged by done.
      destruct (IH (found ++ [anomaly_record sub historical_costs e]))
        as (records & Hem & ->).
      exists (anomaly_record sub historical_costs e :: records).
      split; [by constructor|]. by rewrite <- app_assoc.
    + rewrite compare_entry_not_flagged by done.
      destruct (IH found) as (records & Hem & ->).
      exists records. split; [by apply emission_skip|done].
Qed.

(** A key without history has baseline average 0 and is never flagged. *)
Lemma no_history_not_flagged (threshold : Q) (historical_costs : list cost_entry)
    (e : cost_entry) :
  baseline_costs historical_costs (entry_key e) = [] ->
  ~ flagged threshold historical_costs e.
Proof.
  intros Hnone [Hpos _]. unfold baseline_average in Hpos.
  rewrite Hnone in Hpos. by apply Qlt_irrefl in Hpos.
Qed.

End AnomalyFacts.

(** C1, as the specification states it, fails: the [variance_percent] a
    record carries is rounded to two decimals, so it is not the exact
    quotient.  Here the cost is 100.004 against a baseline of 50.006. *)
Lemma variance_percent_is_rounded :
  ~ (forall (E : env) (sub : string) (thr : Q) (actual hist : list cost_entry)
            (e : cost_entry),
        _get_actual_costs E sub 1 0 = Ok actual ->
        _get_actual_costs E sub 7 1 = Ok hist ->
        e ∈ actual -> flagged thr hist e ->
        exists r, r ∈ _detect_subscription_anomalies E sub thr /\
                  variance_percent r ==
                  variance_of (cost e) (baseline_average hist (entry_key e))).
Proof.
  intros H.
  destruct (H (one_service_env 100.004 [50.006]) "sub-1"%string 1.5 _ _
              (parse_row "2024-01-01" (plain_row 100.004 "RG1" "Svc1"))
              eq_refl eq_refl) as (r & Hr & Hvar).
  - left.
  - split; by vm_compute.
  - vm_compute in Hr. apply list_elem_of_singleton in Hr. subst r.
    vm_compute in Hvar. discriminate Hvar.
Qed.

(** C1, amended.  For every cost record compared during one detection run,
    a record is emitted if and only if the baseline average of its key is
    positive and its cost exceeds that average times the threshold; a key
    without history is never flagged.  The emitted record carries the cost,
    the average and the variance [(cost - average) / average * 100], each
    rounded to two decimals. *)
Theorem anomaly_emission (E : env) (sub : string) (threshold : Q)
    (actual_costs historical_costs : list cost_entry) :
  _get_actual_costs E sub 1 0 = Ok actual_costs ->
  _get_actual_costs E sub 7 1 = Ok historical_costs ->
  emission sub threshold historical_costs actual_costs
           (_detect_subscription_anomalies E sub threshold) /\
  (forall e, baseline_costs historical_costs (entry_key e) = [] ->
             ~ flagged threshold historical_costs e) /\
  (forall e, variance_percent (anomaly_record sub historical_costs e) =
             round2 (variance_of (cost e)
                       (baseline_average historical_costs (entry_key e)))).
Proof.
  intros Hactual Hhist. split; [|split].
  - unfold _detect_subscription_anomalies. rewrite Hactual, Hhist. simpl.
    destruct (comparison_loop_emission sub threshold historical_costs
                actual_costs []) as (records & Hem & ->).
    done.
  - intros e. apply no_history_not_flagged.
  - done.
Qed.

Lemma anomaly_emission_witness :
  emission "sub-1" 1.5
    [parse_row "2024-01-01" (plain_row 90 "RG1" "Svc1")]
    [parse_row "2024-01-01" (plain_row 150 "RG1" "Svc1")]
    (_detect_subscription_anomalies (one_service_env 150 [90]) "sub-1" 1.5).
Proof.
  exact (proj1 (anomaly_emission (one_service_env 150 [90]) "sub-1" 1.5
                  _ _ eq_refl eq_refl)).
Defined.

(** The end-to-end example of the specification: 150 today against a
    baseline of 90 with threshold 1.5. *)
Example spike_report :
  detect_all (one_service_env 150 [90]) None 1.5 =
  Ok {| anomalies :=
          [ {| a_subscription_id := "sub-1"; a_subscription_name := "Unknown";
               a_resource_group := "RG1"; a_service_name := "Svc1";
               actual_cost := 150.00; average_cost := 90.00;
               variance_percent := 66.67; a_date := "2024-01-08" |} ];
        total_anomalies := 1;
        total_excess_spend := 60.00;
        threshold := 1.5 |}.
Proof. by vm_compute. Qed.

Section ReportFacts.

Lemma round_half_even_proper (x y : Q) :
  x == y -> round_half_even x = round_half_even y.
Proof.
  intros Hxy. unfold round_half_even.
  assert (Hfloor : Qfloor x = Qfloor y) by (by apply Qfloor_comp).
  rewrite <- Hfloor.
  assert (Hcmp : Qcompare (x - inject_Z (Qfloor x)) (1 # 2) =
                 Qcompare (y - inject_Z (Qfloor x)) (1 # 2)).
  { apply Qcompare_comp; [lra|reflexivity]. }
  by rewrite Hcmp.
Qed.

Lemma round2_proper (x y : Q) : x == y -> round2 x = round2 y.
Proof.
  intros Hxy. unfold round2.
  rewrite (round_half_even_proper (x * 100) (y * 100)); [done|lra].
Qed.

Lemma insert_desc_perm {A} (key : A -> Q) (x : A) (l : list A) :
  insert_desc key x l ≡ₚ x :: l.
Proof.
  induction l as [|y l IH]; [done|]. simpl.
  destruct (Qle_bool (key y) (key x)); [done|].
  rewrite IH. apply Permutation_swap.
Qed.

(** Sorting rearranges the records and loses none. *)
Lemma sort_desc_perm {A} (key : A -> Q) (l : list A) :
  sort_desc key l ≡ₚ l.
Proof.
  induction l as [|x l IH]; [done|]. unfold sort_desc in *. simpl.
  by rewrite insert_desc_perm, IH.
Qed.

Lemma fold_left_plus (xs : list Q) (a : Q) :
  fold_left Qplus xs a == a + foldr Qplus 0 xs.
Proof.
  revert a. induction xs as [|x xs IH]; intros a; simpl.
  - ring.
  - rewrite IH. ring.
Qed.

Lemma foldr_plus_perm (xs ys : list Q) :
  xs ≡ₚ ys -> foldr Qplus 0 xs == foldr Qplus 0 ys.
Proof.
  induction 1 as [|x xs ys _ IH|x y xs|xs ys zs _ IH1 _ IH2]; simpl.
  - done.
  - by rewrite IH.
  - ring.
  - by rewrite IH1.
Qed.

(** The sum of a list does not depend on the order of its elements. *)
Lemma sum_perm (xs ys : list Q) : xs ≡ₚ ys -> sum xs == sum ys.
Proof.
  intros Hperm. unfold sum. rewrite !fold_left_plus.
  by rewrite (foldr_plus_perm xs ys).
Qed.

Lemma fold_left_excess (found : list anomaly) (total : Q) :
  fold_left (fun total a => total + excess a) found total =
  fold_left Qplus (map excess found) total.
Proof.
  revert total. induction found as [|a found IH]; intros total; [done|].
  simpl. by rewrite IH.
Qed.

Context (E : env) (threshold : Q).

(** The loop over the subscriptions gathers the anomalies of each, in
    order, and adds up their excesses. *)
Lemma analyse_all (subs : list string) :
  forall (found : list anomaly) (total : Q),
    fold_left (analyse_subscription E threshold) subs (found, total) =
    (found ++ flat_map (fun s => _detect_subscription_anomalies E s threshold) subs,
     fold_left (fun total a => total + excess a)
               (flat_map (fun s => _detect_subscription_anomalies E s threshold) subs)
               total).
Proof.
  induction subs as [|s subs IH]; intros found total; simpl.
  - by rewrite app_nil_r.
  - rewrite IH. rewrite fold_left_app. by rewrite <- app_assoc.
Qed.

(** With a working client factory and at least one subscription, the
    detection returns the report of the anomalies of all subscriptions. *)
Lemma detect_all_report (configured subs : list string) :
  AnomalyDetector.client_factory E = Ok configured -> subs <> [] ->
  detect_all E (Some subs) threshold =
  Ok (report_of threshold
        (flat_map (fun s => _detect_subscription_anomalies E s threshold) subs)).
Proof.
  intros Hfactory Hsubs. unfold detect_all. rewrite Hfactory. simpl.
  destruct subs as [|s subs]; [done|].
  by rewrite analyse_all.
Qed.

(** Every record of a subscription is the record of a flagged entry of
    that subscription. *)
Lemma detected_records (sub : string) (r : anomaly) :
  r ∈ _detect_subscription_anomalies E sub threshold ->
  exists historical_costs e,
    flagged threshold historical_costs e /\
    r = anomaly_record sub historical_costs e.
Proof.
  unfold _detect_subscription_anomalies.
  destruct (_get_actual_costs E sub 1 0) as [actual|]; simpl; [|by inversion 1].
  destruct (_get_actual_costs E sub 7 1) as [hist|]; simpl; [|by inversion 1].
  destruct (comparison_loop_emission sub threshold hist actual [])
    as (records & Hem & ->). simpl.
  induction Hem as [|e entries records Hflag Hem IH|e entries records Hno Hem IH];
    intros Hr.
  - inversion Hr.
  - apply elem_of_cons in Hr as [->|Hr]; [by exists hist, e|by apply IH].
  - by apply IH.
Qed.

End ReportFacts.

(** C6, as the specification states it, fails: the excesses that enter the
    sum are differences of fields already rounded to two decimals.  With a
    cost of 100.004 against a baseline of 50.006 the reported excess is
    100.00 - 50.01 = 49.99, while the full-precision excess 49.998 rounds to
    50.00. *)
Lemma excess_spend_sums_rounded_fields :
  ~ (forall (E : env) (sub : string) (thr : Q) (actual hist : list cost_entry)
            (rep : report),
        _get_actual_costs E sub 1 0 = Ok actual ->
        _get_actual_costs E sub 7 1 = Ok hist ->
        detect_all E (Some [sub]) thr = Ok rep ->
        total_excess_spend rep == round2 (full_precision_excess thr hist actual)).
Proof.
  intros H.
  specialize (H (one_service_env 100.004 [50.006]) "sub-1"%string 1.5 _ _ _
                eq_refl eq_refl eq_refl).
  vm_compute in H. discriminate H.
Qed.

(** C6, amended.  For every detection run, [total_excess_spend] is the sum
    of [actual_cost - average_cost] over the reported records, rounded to
    two decimals; the two fields of each record are themselves the cost and
    the baseline average rounded to two decimals. *)
Theorem excess_spend_of_reported_records (E : env)
    (subscription_ids : option (list string)) (threshold : Q) (rep : report) :
  detect_all E subscription_ids threshold = Ok rep ->
  total_excess_spend rep = round2 (sum (map excess (anomalies rep))) /\
  forall a, a ∈ anomalies rep ->
    exists c v, actual_cost a = round2 c /\ average_cost a = round2 v /\
                excess a = round2 c - round2 v.
Proof.
  unfold detect_all.
  destruct (AnomalyDetector.client_factory E) as [configured|]; [|done]. simpl.
  destruct (default configured subscription_ids) as [|s subs] eqn:Hids; [done|].
  rewrite analyse_all. intros [= <-]. cbn [total_excess_spend anomalies app]. split.
  - apply round2_proper. rewrite fold_left_excess.
    apply (sum_perm (map excess _) (map excess _)).
    apply fmap_Permutation. symmetry. apply sort_desc_perm.
  - intros a Ha. rewrite sort_desc_perm in Ha.
    change (a ∈ flat_map (fun s => _detect_subscription_anomalies E s threshold)
                         (s :: subs)) in Ha.
    apply list_elem_of_In, in_flat_map in Ha as (sub & _ & Ha).
    apply list_elem_of_In, detected_records in Ha as (hist & e & _ & ->).
    by exists (cost e), (baseline_average hist (entry_key e)).
Qed.

Lemma excess_spend_of_reported_records_witness :
  total_excess_spend
    (report_of 1.5
       (_detect_subscription_anomalies (one_service_env 100.004 [50.006]) "sub-1" 1.5))
  = round2 (sum (map excess
      (anomalies
         (report_of 1.5
            (_detect_subscription_anomalies (one_service_env 100.004 [50.006])
               "sub-1" 1.5))))).
Proof.
  exact (proj1 (excess_spend_of_reported_records
                  (one_service_env 100.004 [50.006]) None 1.5 _ eq_refl)).
Defined.

(** ** Governance recommendations *)

Section ScoringFacts.

Import GovernanceAdvisor.

Context (py_float : string -> option Q).

Ltac split_tests :=
  repeat match goal with
         | |- context [decide ?P] => destruct (decide P); simpl
         | |- context [if ?b then _ else _] => destruct b eqn:?; simpl
         end.

(** The additive score is never negative and never more than 10. *)
Lemma raw_risk_score_range (r : recommendation) (raw : Z) (f : risk_factors_t) :
  raw_risk_score py_float r = Ok (raw, f) -> (0 <= raw <= 10)%Z.
Proof.
  unfold raw_risk_score.
  destruct (short_description r) as [d|]; [destruct (problem d)|]; simpl;
    try done; split_tests; intros [= <- _]; lia.
Qed.

Lemma raw_risk_score_total (r : recommendation) :
  is_Some (problem_text r) ->
  exists raw f, raw_risk_score py_float r = Ok (raw, f).
Proof.
  unfold problem_text, raw_risk_score.
  destruct (short_description r) as [d|]; [destruct (problem d)|]; simpl;
    intros [text Htext]; try done; split_tests; eauto.
Qed.

Lemma raw_risk_score_raises (r : recommendation) (e : exn) :
  raw_risk_score py_float r = Raise e ->
  exists d, short_description r = Some d /\ problem d = None.
Proof.
  intros Hraise.
  destruct (problem_text r) as [text|] eqn:Htext.
  - destruct (raw_risk_score_total r) as (raw & f & Hok); [by eexists|congruence].
  - unfold problem_text in Htext.
    destruct (short_description r) as [d|]; [|done].
    exists d. split; [done|]. by destruct (problem d).
Qed.

(** The additive score of a Security recommendation: the base of its
    impact, plus 2 for each of encryption, access control and
    production. *)
Lemma security_raw_score (r : recommendation) (text : string) :
  category r = "Security"%string -> problem_text r = Some text ->
  exists f,
    raw_risk_score py_float r =
    Ok ((if decide (str_or (impact r) "Medium" = "High"%string) then 4
         else if decide (str_or (impact r) "Medium" = "Medium"%string) then 3
         else 2) + bonus (mentions_encryption text)
                 + bonus (mentions_access text)
                 + bonus (mentions_production text), f)%Z.
Proof.
  unfold problem_text, raw_risk_score, mentions_encryption, mentions_access,
    mentions_production, bonus.
  intros Hcat Htext. rewrite Hcat.
  assert (Hproblem :
            match short_description r with
            | Some d => match problem d with
                        | Some text => Ok (lower text)
                        | None => Raise AttributeError
                        end
            | None => Ok EmptyString
            end = Ok text).
  { destruct (short_description r) as [d|]; [|congruence].
    destruct (problem d); simpl in Htext; congruence. }
  rewrite Hproblem. simpl.
  destruct (decide (str_or (impact r) "Medium" = "High"%string));
    [|destruct (decide (str_or (impact r) "Medium" = "Medium"%string))];
    simpl;
    destruct (contains "encrypt" text),
             (contains "access" text || contains "authentication" text)%bool,
             (contains "prod" text || contains "production" text)%bool;
    simpl; eauto.
Qed.

End ScoringFacts.

(** C4.  For every recommendation, whatever its category, impact, problem
    text and metadata, scoring either produces a risk score between 0 and
    10, the additive score capped at 10, or fails because the description
    has no problem text.  In particular a Security recommendation of High
    impact that mentions encryption, access and production, whose additive
    score is 4 + 2 + 2 + 2, is scored exactly 10. *)
Theorem risk_score_clamped (py_float : string -> option Q)
    (r : GovernanceAdvisor.recommendation) :
  match GovernanceAdvisor._calculate_risk_score py_float r with
  | Ok (score, f) =>
      (0 <= score <= 10)%Z /\
      exists raw, GovernanceAdvisor.raw_risk_score py_float r = Ok (raw, f) /\
                  score = Z.min raw 10
  | Raise _ =>
      exists d, GovernanceAdvisor.short_description r = Some d /\
                GovernanceAdvisor.problem d = None
  end /\
  (forall text,
      GovernanceAdvisor.category r = "Security"%string ->
      GovernanceAdvisor.impact r = Some "High"%string ->
      problem_text r = Some text ->
      mentions_encryption text = true -> mentions_access text = true ->
      mentions_production text = true ->
      exists f, GovernanceAdvisor._calculate_risk_score py_float r = Ok (10%Z, f)).
Proof.
  split.
  - unfold GovernanceAdvisor._calculate_risk_score.
    destruct (GovernanceAdvisor.raw_risk_score py_float r) as [[raw f]|e] eqn:Hraw; simpl.
    + apply raw_risk_score_range in Hraw as Hrange.
      split; [lia|]. by exists raw.
    + by apply (raw_risk_score_raises py_float r e).
  - intros text Hcat Himpact Htext Henc Hacc Hprod.
    destruct (security_raw_score py_float r text Hcat Htext) as [f Hraw].
    exists f. unfold GovernanceAdvisor._calculate_risk_score.
    rewrite Hraw, Himpact, Henc, Hacc, Hprod. reflexivity.
Qed.

Lemma risk_score_clamped_witness :
  exists f,
    GovernanceAdvisor._calculate_risk_score float_of_decimal
      (advisory "Security" (Some "High"%string)
         "Production database lacks encryption and access control") = Ok (10%Z, f).
Proof.
  exact (proj2 (risk_score_clamped float_of_decimal
                  (advisory "Security" (Some "High"%string)
                     "Production database lacks encryption and access control"))
               _ eq_refl eq_refl eq_refl eq_refl eq_refl eq_refl).
Defined.

(** C10.  For every recommendation whose impact is absent ([None] or the
    empty string), risk scoring and effort estimation give what they give
    for the same recommendation with impact Medium: the effort is read from
    the Medium column of the effort table, and a Security recommendation
    gets the Medium base score 3 on top of its keyword bonuses. *)
Theorem missing_impact_is_medium (py_float : string -> option Q)
    (r : GovernanceAdvisor.recommendation) :
  GovernanceAdvisor.impact r = None \/
  GovernanceAdvisor.impact r = Some EmptyString ->
  GovernanceAdvisor._calculate_risk_score py_float r =
    GovernanceAdvisor._calculate_risk_score py_float
      (with_impact r (Some "Medium"%string)) /\
  GovernanceAdvisor._estimate_effort r =
    GovernanceAdvisor._estimate_effort (with_impact r (Some "Medium"%string)) /\
  GovernanceAdvisor._estimate_effort r =
    default 2 (default ∅ (GovernanceAdvisor.effort_map
                            !! GovernanceAdvisor.category r)
               !! "Medium"%string) /\
  (forall text,
      GovernanceAdvisor.category r = "Security"%string ->
      problem_text r = Some text ->
      exists f,
        GovernanceAdvisor.raw_risk_score py_float r =
        Ok (3 + bonus (mentions_encryption text) + bonus (mentions_access text)
              + bonus (mentions_production text), f)%Z).
Proof.
  intros Habsent.
  assert (Hmedium : str_or (GovernanceAdvisor.impact r) "Medium" = "Medium"%string).
  { by destruct Habsent as [-> | ->]. }
  split; [|split; [|split]].
  - unfold GovernanceAdvisor._calculate_risk_score, GovernanceAdvisor.raw_risk_score,
      GovernanceAdvisor._extract_cost_impact. simpl. by rewrite Hmedium.
  - unfold GovernanceAdvisor._estimate_effort. simpl. by rewrite Hmedium.
  - unfold GovernanceAdvisor._estimate_effort. by rewrite Hmedium.
  - intros text Hcat Htext.
    destruct (security_raw_score py_float r text Hcat Htext) as [f Hraw].
    exists f. rewrite Hraw, Hmedium. reflexivity.
Qed.

Lemma missing_impact_is_medium_witness :
  GovernanceAdvisor._calculate_risk_score float_of_decimal
    (advisory "Security" None "Enable disk encryption") =
  GovernanceAdvisor._calculate_risk_score float_of_decimal
    (advisory "Security" (Some "Medium"%string) "Enable disk encryption").
Proof.
  exact (proj1 (missing_impact_is_medium float_of_decimal
                  (advisory "Security" None "Enable disk encryption")
                  (or_introl eq_refl))).
Defined.

Example security_without_impact_scores_five :
  fst <$> GovernanceAdvisor._calculate_risk_score float_of_decimal
            (advisory "Security" None "Enable disk encryption") = Ok 5%Z.
Proof. reflexivity. Qed.

Example cost_without_impact_effort :
  GovernanceAdvisor._estimate_effort (advisory "Cost" None "Resize the machine") = 1.
Proof. reflexivity. Qed.

Section ListingFacts.

Import GovernanceAdvisor.

Context (py_float : string -> option Q).
Context (G : GovernanceAdvisor.env).

(** What the loop over a listing leaves in the list: what was there,
    followed by the scored form of a prefix of the listing. *)
Lemma score_listing_keeps_prefix (sub : string) (listing : list recommendation)
    (ending : option exn) :
  forall (kept out : list scored) (stop : option exn),
    score_listing py_float sub listing ending kept = (out, stop) ->
    exists n news,
      out = kept ++ news /\
      Forall2 (fun r x => score_recommendation py_float sub r = Ok x)
              (take n listing) news.
Proof.
  induction listing as [|r listing IH]; intros kept out stop; simpl.
  - intros [= <- _]. exists 0%nat, []. by rewrite app_nil_r.
  - destruct (score_recommendation py_float sub r) as [entry|e] eqn:Hscore.
    + intros Hrest. apply IH in Hrest as (n & news & -> & Hnews).
      exists (S n), (entry :: news). split; [by rewrite <- app_assoc|].
      simpl. by constructor.
    + intros [= <- _]. exists 0%nat, []. by rewrite app_nil_r.
Qed.

Lemma gather_all (subs : list string) :
  forall gathered : list scored,
    fold_left (fun all sub_id => all ++ _get_advisor_recommendations py_float G sub_id)
              subs gathered =
    gathered ++ flat_map (_get_advisor_recommendations py_float G) subs.
Proof.
  induction subs as [|s subs IH]; intros gathered; simpl.
  - by rewrite app_nil_r.
  - rewrite IH. by rewrite <- app_assoc.
Qed.

(** With a working client factory and at least one subscription, the
    advisor returns the advice built from the recommendations of all
    subscriptions. *)
Lemma advise_all_advice (configured subs : list string) (min_risk_score : Z) :
  GovernanceAdvisor.client_factory G = Ok configured -> subs <> [] ->
  advise_all py_float G (Some subs) min_risk_score =
  Ok (advice_of min_risk_score
        (flat_map (_get_advisor_recommendations py_float G) subs)).
Proof.
  intros Hfactory Hsubs. unfold advise_all. rewrite Hfactory. simpl.
  destruct subs as [|s subs]; [done|].
  by rewrite gather_all.
Qed.

(** A subscription whose listing fails contributes what the loop had
    appended before the failure. *)
Lemma failed_listing_contribution (configured : list string) (sub : string)
    (kept : list scored) :
  GovernanceAdvisor.client_factory G = Ok configured ->
  listing_fails py_float G sub kept ->
  _get_advisor_recommendations py_float G sub = kept /\
  scored_prefix py_float G sub kept.
Proof.
  intros Hfactory Hfails. unfold _get_advisor_recommendations, scored_prefix.
  rewrite Hfactory. simpl.
  destruct Hfails as [(e & -> & ->)|(listing & ending & e & -> & Hloop)]; [done|].
  rewrite Hloop. split; [done|].
  apply score_listing_keeps_prefix in Hloop as (n & news & -> & Hnews).
  by exists n.
Qed.

End ListingFacts.

(** C5, as the specification states it, fails for the governance advisor: a
    listing that fails after a recommendation was scored leaves that
    recommendation in the result of its subscription. *)
Lemma failed_listing_keeps_recommendations :
  ~ (forall (G : GovernanceAdvisor.env) (sub : string)
            (kept : list GovernanceAdvisor.scored),
        listing_fails float_of_decimal G sub kept ->
        GovernanceAdvisor._get_advisor_recommendations float_of_decimal G sub = []).
Proof.
  intros H.
  assert (Hfails : exists kept,
             listing_fails float_of_decimal half_broken_env "sub-a" kept).
  { eexists. right. eexists. exists None, AttributeError. split; reflexivity. }
  destruct Hfails as [kept Hfails].
  specialize (H half_broken_env "sub-a"%string kept Hfails).
  discriminate H.
Qed.

(** C5, amended.  For every list of subscriptions, a failure while one
    subscription is analysed is caught and does not abort the run, and the
    other subscriptions contribute what they contribute without it.  A
    subscription whose cost analysis fails contributes no anomalies: the
    report is the report of the other subscriptions.  A subscription whose
    recommendation listing fails contributes the recommendations scored
    before the failure, none when the listing cannot be obtained at all. *)
Theorem subscription_failure_is_contained (py_float : string -> option Q)
    (E : env) (G : GovernanceAdvisor.env) (threshold : Q) (min_risk_score : Z)
    (configured before after : list string) (sub : string)
    (kept : list GovernanceAdvisor.scored) :
  (AnomalyDetector.client_factory E = Ok configured ->
   cost_analysis_fails E sub ->
   _detect_subscription_anomalies E sub threshold = [] /\
   detect_all E (Some (before ++ sub :: after)) threshold =
   Ok (report_of threshold
         (flat_map (fun s => _detect_subscription_anomalies E s threshold)
                   (before ++ after)))) /\
  (GovernanceAdvisor.client_factory G = Ok configured ->
   listing_fails py_float G sub kept ->
   GovernanceAdvisor._get_advisor_recommendations py_float G sub = kept /\
   scored_prefix py_float G sub kept /\
   GovernanceAdvisor.advise_all py_float G (Some (before ++ sub :: after))
     min_risk_score =
   Ok (advice_of min_risk_score
         (flat_map (GovernanceAdvisor._get_advisor_recommendations py_float G) before
          ++ kept ++
          flat_map (GovernanceAdvisor._get_advisor_recommendations py_float G) after))).
Proof.
  split.
  - intros Hfactory Hfails.
    assert (Hnone : _detect_subscription_anomalies E sub threshold = []).
    { unfold _detect_subscription_anomalies.
      destruct Hfails as [[e Hfail]|[e Hfail]]; rewrite Hfail; [done|].
      by destruct (_get_actual_costs E sub 1 0). }
    split; [done|].
    rewrite (detect_all_report E threshold configured) by (done || by destruct before).
    by rewrite !flat_map_app; simpl; rewrite Hnone.
  - intros Hfactory Hfails.
    destruct (failed_listing_contribution py_float G configured sub kept)
      as [Hkept Hprefix]; [done..|].
    split; [done|]. split; [done|].
    rewrite (advise_all_advice py_float G configured) by (done || by destruct before).
    by rewrite flat_map_app; simpl; rewrite Hkept.
Qed.

Lemma subscription_failure_is_contained_witness :
  _detect_subscription_anomalies expired_env "sub-a" 1.5 = [] /\
  detect_all expired_env (Some ["sub-a"; "sub-b"]%string) 1.5 =
  Ok (report_of 1.5
        (flat_map (fun s => _detect_subscription_anomalies expired_env s 1.5)
                  ["sub-b"%string])).
Proof.
  apply (proj1 (subscription_failure_is_contained float_of_decimal expired_env
                  half_broken_env 1.5 5 ["sub-a"; "sub-b"]%string [] ["sub-b"%string]
                  "sub-a" [])).
  - reflexivity.
  - left. exists (ClientAuthenticationError 401). reflexivity.
Defined.

(** ** Compliance overlay *)

Section OverlayFacts.

Import ComplianceOverlay.

Lemma append_if_severities (keywords : list string) (text : string) (f : flag)
    (fs : list flag) :
  bucket_severity f -> Forall bucket_severity fs ->
  Forall bucket_severity (append_if keywords text f fs).
Proof.
  intros Hf Hfs. unfold append_if. destruct (any_in keywords text); [|done].
  apply Forall_app. split; [done|]. by constructor.
Qed.

(** Every flag of the classifier is critical, high or medium. *)
Lemma check_flag_severities (r : recommendation) (iso nia : bool) :
  Forall bucket_severity (_check_compliance_impact r iso nia).
Proof.
  unfold _check_compliance_impact.
  destruct iso, nia;
    repeat (apply append_if_severities;
            [unfold bucket_severity; simpl; tauto|]);
    constructor.
Qed.

(** [max] of a non-empty list is one of its elements and bounds them
    all. *)
Lemma fold_left_max_spec (xs : list Z) (x : Z) :
  fold_left Z.max xs x ∈ x :: xs /\
  forall y, y ∈ x :: xs -> (y <= fold_left Z.max xs x)%Z.
Proof.
  revert x. induction xs as [|z xs IH]; intros x; simpl.
  - split; [left|]. intros y Hy. apply list_elem_of_singleton in Hy. lia.
  - destruct (IH (Z.max x z)) as [Hin Hmax]. split.
    + apply elem_of_cons in Hin as [Heq|Hin]; [|by do 2 right].
      rewrite Heq. destruct (Z.max_spec x z) as [[_ ->]|[_ ->]];
        [right; left|left].
    + intros y Hy. apply elem_of_cons in Hy as [->|Hy].
      * etrans; [|apply Hmax; left]. lia.
      * apply elem_of_cons in Hy as [->|Hy].
        -- etrans; [|apply Hmax; left]. lia.
        -- apply Hmax. by right.
Qed.

(** A non-empty list of flags of the classifier gets a warning of the
    highest severity among them. *)
Lemma generate_warning_max (r : recommendation) (fs : list flag) :
  fs <> [] -> Forall bucket_severity fs ->
  exists w,
    _generate_compliance_warning r fs = Ok w /\
    flags w = fs /\
    recommendation_title w = default "Unknown"%string (title r) /\
    (exists f, f ∈ fs /\ severity f = Some (warning_severity w)) /\
    (forall f, f ∈ fs ->
               (severity_rank f <= rank_of_severity (warning_severity w))%Z).
Proof.
  intros Hne Hsev. unfold _generate_compliance_warning.
  destruct fs as [|f0 fs]; [done|]. simpl map. simpl py_max.
  destruct (fold_left_max_spec (map severity_rank fs) (severity_rank f0))
    as [Hin Hmax].
  change (severity_rank f0 :: map severity_rank fs)
    with (map severity_rank (f0 :: fs)) in Hin, Hmax.
  apply list_elem_of_fmap in Hin as (f & Hrank & Hf).
  assert (Hbound : forall g, g ∈ f0 :: fs ->
              (severity_rank g <= severity_rank f)%Z).
  { intros g Hg. rewrite <- Hrank. apply Hmax. by apply list_elem_of_fmap_2. }
  rewrite Hrank. clear Hrank Hmax.
  rewrite Forall_forall in Hsev.
  destruct (Hsev f Hf) as [Hs|[Hs|Hs]];
    unfold severity_rank at 1 2; rewrite Hs; simpl;
    (eexists; split; [reflexivity|]; simpl;
     split; [done|]; split; [done|]; split; [by exists f|];
     intros g Hg; specialize (Hbound g Hg);
     unfold severity_rank at 2 in Hbound; rewrite Hs in Hbound; exact Hbound).
Qed.

Lemma overlay_step_unfold (iso nia : bool) (fl : list flagged)
    (ws : list compliance_warning) (sf : list safe) (r : recommendation) :
  overlay_step iso nia (Ok (fl, ws, sf)) r =
  match _check_compliance_impact r iso nia with
  | [] =>
      Ok (fl, ws,
          sf ++ [{| safe_rec := r; safe_requires_compliance_review := false |}])
  | f :: fs =>
      w ← _generate_compliance_warning r (f :: fs);
      Ok (fl ++ [{| flagged_rec := r; compliance_flags := f :: fs;
                    flagged_requires_compliance_review := true |}],
          ws ++ [w], sf)
  end.
Proof.
  unfold overlay_step. simpl.
  by destruct (_check_compliance_impact r iso nia).
Qed.

(** The loop of the overlay appends one warning for each flagged
    recommendation and none for the others. *)
Lemma overlay_loop (iso nia : bool) (rs : list recommendation) :
  forall (fl : list flagged) (ws : list compliance_warning) (sf : list safe),
  exists fl' ws' sf',
    fold_left (overlay_step iso nia) rs (Ok (fl, ws, sf)) =
    Ok (fl ++ fl', ws ++ ws', sf ++ sf') /\
    Forall2 (warning_of iso nia) (filter (matches_a_bucket iso nia) rs) ws'.
Proof.
  induction rs as [|r rs IH]; intros fl ws sf.
  - exists [], [], []. rewrite !app_nil_r. split; [done|constructor].
  - cbn [fold_left]. rewrite overlay_step_unfold, filter_cons.
    destruct (decide (matches_a_bucket iso nia r)) as [Hm|Hm];
      unfold matches_a_bucket in Hm;
      destruct (_check_compliance_impact r iso nia) as [|f fs] eqn:Hcheck.
    + by exfalso.
    + destruct (generate_warning_max r (f :: fs)) as (w & -> & Hw); [done| |].
      { rewrite <- Hcheck. apply check_flag_severities. }
      simpl.
      destruct (IH (fl ++ [{| flagged_rec := r; compliance_flags := f :: fs;
                              flagged_requires_compliance_review := true |}])
                   (ws ++ [w]) sf) as (fl' & ws' & sf' & -> & Hws).
      exists ({| flagged_rec := r; compliance_flags := f :: fs;
                 flagged_requires_compliance_review := true |} :: fl'),
             (w :: ws'), sf'.
      rewrite <- !app_assoc. split; [done|].
      constructor; [|done]. unfold warning_of. by rewrite Hcheck.
    + destruct (IH fl ws (sf ++ [{| safe_rec := r;
                                   safe_requires_compliance_review := false |}]))
        as (fl' & ws' & sf' & -> & Hws).
      exists fl', ws', ({| safe_rec := r;
                          safe_requires_compliance_review := false |} :: sf').
      rewrite <- app_assoc. by split.
    + exfalso. apply Hm. discriminate.
Qed.

(** The substring test is the occurrence of the keyword in the text. *)
Lemma prefix_occurs (a b : string) :
  String.prefix a b = true <-> exists c, b = a +:+ c.
Proof.
  revert b. induction a as [|x a IH]; intros b.
  - split; [intros _; by exists b|]. intros _. by destruct b.
  - destruct b as [|y b]; simpl.
    + split; [done|]. by intros [c Hc].
    + destruct (Ascii.ascii_dec x y) as [->|Hne].
      * rewrite IH. split; intros [c Hc]; exists c; [by rewrite Hc|].
        by injection Hc.
      * split; [done|]. intros [c Hc]. injection Hc as Hxy _. by destruct Hne.
Qed.

Lemma contains_unfold (keyword text : string) :
  contains keyword text =
  (String.prefix keyword text ||
   match text with
   | EmptyString => false
   | String _ rest => contains keyword rest
   end)%bool.
Proof.
  by destruct text.
Qed.

Lemma contains_occurs (keyword text : string) :
  contains keyword text = true <-> occurs_in keyword text.
Proof.
  split.
  - induction text as [|c text IH]; rewrite contains_unfold; intros Hcontains;
      apply orb_true_iff in Hcontains as [Hpre|Hrest]; try done.
    + apply prefix_occurs in Hpre as [after ->]. by exists EmptyString, after.
    + apply prefix_occurs in Hpre as [after ->]. by exists EmptyString, after.
    + destruct (IH Hrest) as (before & after & ->).
      by exists (String c before), after.
  - intros (before & after & ->).
    induction before as [|c before IH]; rewrite contains_unfold.
    + apply orb_true_iff. left. apply prefix_occurs. by exists after.
    + apply orb_true_iff. right. exact IH.
Qed.

Lemma any_in_matches (text : string) (b : bucket) :
  any_in (keywords b) text = true <-> bucket_matches text b.
Proof.
  unfold any_in, bucket_matches. rewrite existsb_exists. split.
  - intros (keyword & Hin & Hcontains). exists keyword.
    split; [by apply list_elem_of_In|by apply contains_occurs].
  - intros (keyword & Hin & Hoccurs). exists keyword.
    split; [by apply list_elem_of_In|by apply contains_occurs].
Qed.

(** What a test selects, related element by element, is a selection. *)
Lemma selection_of_filter {A B : Type} (P : A -> Prop) (R : A -> B -> Prop)
    (test : A -> bool) (xs : list A) :
  (forall x, test x = true <-> P x) ->
  forall ys, Forall2 R (List.filter test xs) ys -> selection P R xs ys.
Proof.
  intros Htest. induction xs as [|x xs IH]; intros ys Hys; simpl in Hys.
  - inversion Hys. constructor.
  - destruct (test x) eqn:Hx.
    + inversion Hys as [|? y ? ys' HR Hrest]; subst.
      apply selection_take; [by apply Htest|done|by apply IH].
    + apply selection_skip; [|by apply IH].
      intros HP. apply Htest in HP. congruence.
Qed.

Lemma selection_taken {A B : Type} (P : A -> Prop) (R : A -> B -> Prop)
    (xs : list A) (ys : list B) (x : A) :
  selection P R xs ys -> x ∈ xs -> P x -> exists y, y ∈ ys /\ R x y.
Proof.
  induction 1 as [|x0 xs y ys HP HR Hsel IH|x0 xs ys HP Hsel IH]; intros Hin Hx.
  - by apply elem_of_nil in Hin.
  - apply elem_of_cons in Hin as [->|Hin].
    + exists y. split; [left|done].
    + destruct (IH Hin Hx) as (y' & Hy' & HR'). exists y'. split; [by right|done].
  - apply elem_of_cons in Hin as [->|Hin]; [done|]. by apply IH.
Qed.

Lemma selection_source {A B : Type} (P : A -> Prop) (R : A -> B -> Prop)
    (xs : list A) (ys : list B) (y : B) :
  selection P R xs ys -> y ∈ ys -> exists x, x ∈ xs /\ P x /\ R x y.
Proof.
  induction 1 as [|x0 xs y0 ys HP HR Hsel IH|x0 xs ys HP Hsel IH]; intros Hin.
  - by apply elem_of_nil in Hin.
  - apply elem_of_cons in Hin as [->|Hin].
    + exists x0. split; [left|done].
    + destruct (IH Hin) as (x & Hx & HPx & HRx). exists x. split; [by right|done].
  - destruct (IH Hin) as (x & Hx & HPx & HRx). exists x. split; [by right|done].
Qed.

(** The flags of the classifier are the flags of the buckets whose test
    succeeds, one for each, in the order of the buckets. *)
Lemma check_flags_raised (r : recommendation) (iso nia : bool) :
  Forall2 raised_by
    (List.filter (fun b => any_in (keywords b) (overlay_text r))
                 (checked_buckets iso nia))
    (_check_compliance_impact r iso nia).
Proof.
  unfold _check_compliance_impact, append_if.
  change (lower _) with (overlay_text r).
  destruct iso, nia;
    cbn [checked_buckets iso_27001_buckets nia_qatar_buckets app List.filter
         keywords iso_encryption iso_backup iso_monitoring iso_availability
         nia_data_sovereignty nia_encryption_at_rest nia_high_availability
         nia_audit_logging];
    repeat match goal with
           | |- context [any_in ?ks (overlay_text r)] =>
               destruct (any_in ks (overlay_text r))
           end;
    cbn [app]; repeat (constructor; [by split|]); constructor.
Qed.

Lemma check_flags_selection (r : recommendation) (iso nia : bool) :
  selection (bucket_matches (overlay_text r)) raised_by
            (checked_buckets iso nia) (_check_compliance_impact r iso nia).
Proof.
  apply (selection_of_filter _ _
           (fun b => any_in (keywords b) (overlay_text r))).
  - intros b. apply any_in_matches.
  - apply check_flags_raised.
Qed.

(** The classifier flags a recommendation exactly when it matches a
    bucket. *)
Lemma flagged_iff_matches (r : recommendation) (iso nia : bool) :
  matches_a_bucket iso nia r <-> matches_some_bucket iso nia r.
Proof.
  unfold matches_a_bucket, matches_some_bucket.
  pose proof (check_flags_selection r iso nia) as Hsel. split.
  - intros Hne.
    destruct (_check_compliance_impact r iso nia) as [|f fs]; [done|].
    destruct (selection_source _ _ _ _ f Hsel) as (b & Hb & Hmatch & _); [left|].
    by exists b.
  - intros (b & Hb & Hmatch) Hnil.
    destruct (selection_taken _ _ _ _ b Hsel Hb Hmatch) as (f & Hf & _).
    rewrite Hnil in Hf. by apply elem_of_nil in Hf.
Qed.

(** The three severities that buckets raise rank in the source as they do in
    the order critical > high > medium > low. *)
Lemma bucket_severity_levels (f g : flag) (s s' : string) :
  bucket_severity f -> severity f = Some s' ->
  bucket_severity g -> severity g = Some s ->
  (severity_rank f <= rank_of_severity s)%Z ->
  (severity_level s' <= severity_level s)%nat.
Proof.
  intros Hf Hs' Hg Hs. unfold severity_rank, rank_of_severity.
  unfold bucket_severity in Hf, Hg. rewrite Hs' in Hf |- *. rewrite Hs in Hg.
  destruct Hf as [[= ->]|[[= ->]|[= ->]]], Hg as [[= ->]|[[= ->]|[= ->]]];
    vm_compute; intros H; solve [lia|exfalso; by apply H].
Qed.

Lemma warning_of_summarises (r : recommendation) (iso nia : bool)
    (w : compliance_warning) :
  warning_of iso nia r w -> summarises iso nia r w.
Proof.
  intros (Hflags & _ & (g & Hg & Hsev) & Hmax). unfold summarises.
  rewrite Hflags. split; [apply check_flags_selection|].
  pose proof (check_flag_severities r iso nia) as Hall.
  rewrite Forall_forall in Hall.
  split; [by exists g|].
  intros f s' Hf Hs'.
  apply (bucket_severity_levels f g); auto.
Qed.

(** The warnings of the loop are a selection of the recommendations. *)
Lemma warnings_selection (iso nia : bool) (rs : list recommendation)
    (ws : list compliance_warning) :
  Forall2 (warning_of iso nia) (filter (matches_a_bucket iso nia) rs) ws ->
  selection (matches_some_bucket iso nia) (summarises iso nia) rs ws.
Proof.
  revert ws. induction rs as [|r rs IH]; intros ws Hws.
  - inversion Hws. constructor.
  - rewrite filter_cons in Hws.
    destruct (decide (matches_a_bucket iso nia r)) as [Hm|Hm].
    + inversion Hws as [|? w ? ws' Hw Hrest]; subst.
      apply selection_take;
        [by apply flagged_iff_matches|by apply warning_of_summarises|by apply IH].
    + apply selection_skip; [|by apply IH].
      intros Hmatch. by apply Hm, flagged_iff_matches.
Qed.

(** Only a critical severity ranks as high as critical. *)
Lemma critical_level (s : string) :
  (severity_level "critical" <= severity_level s)%nat -> s = "critical"%string.
Proof.
  unfold severity_level at 2.
  repeat case_decide; try done; vm_compute; lia.
Qed.

End OverlayFacts.

(** C7.  The classifier returns for every list of recommendations, and its
    warnings are, in order, exactly one warning for each recommendation
    whose text matches at least one keyword bucket of a framework that is
    checked, and none for the others.  The flags of that warning are the
    flags of the buckets the recommendation matches, one for each, and its
    severity is the maximum severity among them in the order critical >
    high > medium > low: it is the severity of one of the flags, and no flag
    has a higher one.  In particular, a recommendation that matches a
    medium bucket and a critical one gets one warning, of severity
    critical. *)
Theorem one_warning_of_highest_severity
    (rs : list ComplianceOverlay.recommendation) (check_iso27001 check_nia_qatar : bool) :
  (exists o,
     ComplianceOverlay.apply_compliance_overlay rs check_iso27001 check_nia_qatar
       = Ok o /\
     selection (matches_some_bucket check_iso27001 check_nia_qatar)
               (summarises check_iso27001 check_nia_qatar)
               rs (ComplianceOverlay.compliance_warnings o)) /\
  (forall (r : ComplianceOverlay.recommendation) (medium critical : bucket),
     medium ∈ checked_buckets check_iso27001 check_nia_qatar ->
     critical ∈ checked_buckets check_iso27001 check_nia_qatar ->
     raises medium = "medium"%string -> raises critical = "critical"%string ->
     bucket_matches (overlay_text r) medium ->
     bucket_matches (overlay_text r) critical ->
     exists o w,
       ComplianceOverlay.apply_compliance_overlay [r] check_iso27001 check_nia_qatar
         = Ok o /\
       ComplianceOverlay.compliance_warnings o = [w] /\
       ComplianceOverlay.warning_severity w = "critical"%string).
Proof.
  assert (Hall : forall l, exists o,
     ComplianceOverlay.apply_compliance_overlay l check_iso27001 check_nia_qatar
       = Ok o /\
     selection (matches_some_bucket check_iso27001 check_nia_qatar)
               (summarises check_iso27001 check_nia_qatar)
               l (ComplianceOverlay.compliance_warnings o)).
  { intros l. unfold ComplianceOverlay.apply_compliance_overlay.
    destruct (overlay_loop check_iso27001 check_nia_qatar l [] [] [])
      as (fl & ws & sf & -> & Hws).
    simpl. eexists. split; [reflexivity|]. simpl.
    by apply warnings_selection. }
  split; [apply Hall|].
  intros r medium critical _ Hcritical _ Hraises _ Hmatch.
  destruct (Hall [r]) as (o & Ho & Hsel). exists o.
  inversion Hsel as [|? ? w ws _ Hsum Hrest|? ? ? Hno _]; subst.
  - inversion Hrest; subst. exists w. split; [done|]. split; [by symmetry|].
    destruct Hsum as [Hflags [(g & Hg & Hsev) Hmax]].
    destruct (selection_taken _ _ _ _ critical Hflags Hcritical Hmatch)
      as (f & Hf & _ & Hfsev).
    apply critical_level. rewrite <- Hraises. by apply (Hmax f).
  - exfalso. apply Hno. by exists critical.
Qed.

Lemma one_warning_of_highest_severity_witness :
  exists o w,
    ComplianceOverlay.apply_compliance_overlay [log_region_rec] true true = Ok o /\
    ComplianceOverlay.compliance_warnings o = [w] /\
    ComplianceOverlay.warning_severity w = "critical"%string.
Proof.
  apply (proj2 (one_warning_of_highest_severity [log_region_rec] true true)
           log_region_rec iso_monitoring nia_data_sovereignty).
  - apply list_elem_of_In. simpl. tauto.
  - apply list_elem_of_In. simpl. tauto.
  - reflexivity.
  - reflexivity.
  - exists "log"%string. split; [apply list_elem_of_In; simpl; tauto|].
    by exists "reduce "%string, " volume move the workspace to a cheaper region "%string.
  - exists "region"%string. split; [apply list_elem_of_In; simpl; tauto|].
    by exists "reduce log volume move the workspace to a cheaper "%string, " "%string.
Defined.

(** A recommendation that matches a medium and a critical bucket gets one
    warning, of severity critical. *)
Example medium_and_critical_is_critical :
  (fun o => (map ComplianceOverlay.warning_severity
               (ComplianceOverlay.compliance_warnings o),
             map (fun f => map ComplianceOverlay.severity
                               (ComplianceOverlay.compliance_flags f))
                 (ComplianceOverlay.flagged_recommendations o)))
    <$> ComplianceOverlay.apply_compliance_overlay [log_region_rec] true true
  = Ok (["critical"%string],
        [[Some "medium"%string; Some "critical"%string; Some "medium"%string]]).
Proof. by vm_compute. Qed.

(** * Further properties *)

(** ** The retry wrapper *)

Section RetryRuns.

Context (py_float : string -> option Q).
Context {T W : Type}.
Context (func : W -> result T * W).
Context (p : policy).

Lemma stop_within_budget (o : result T) (n : nat) (slept : list Q) (w : W) (k : nat) :
  within_budget_after p n slept k
    {| outcome := o; calls := S n; sleeps := slept; world := w |}.
Proof.
  exists []. simpl. rewrite app_nil_r. repeat split; [lia|lia|constructor].
Qed.

Lemma retry_within_budget (n : nat) (slept : list Q) (k : nat) (wait_time : Q)
    (r : run T W) :
  wait_time <= max_delay p ->
  within_budget_after p (S n) (slept ++ [wait_time]) k r ->
  within_budget_after p n slept (S k) r.
Proof.
  intros Hwait (extra & Hs & Hc & Hl & Hall).
  exists (wait_time :: extra). rewrite Hs, Hc, <- app_assoc. simpl.
  repeat split; [lia|lia|by constructor].
Qed.

(** A sleep that returns has slept the number it was given. *)
Lemma time_sleep_ok (x : float_value) (secs : Q) :
  time_sleep x = Ok secs -> x = Number secs.
Proof.
  destruct x as [q| | |]; try done. unfold time_sleep.
  destruct (_ || _)%bool; [done|]. destruct (Qle_bool 0 q); [|done].
  by intros [= <-].
Qed.

Lemma float_min_bound (x : float_value) (cap secs : Q) :
  float_min x cap = Number secs -> secs <= cap.
Proof.
  destruct x; intros [= <-]; [apply Q.le_min_r|apply Qle_refl].
Qed.

(** A non-empty run of attempts sleeps once before every call but the
    first, never longer than [max_delay], and stays within its attempts. *)
Lemma attempts_budget (j : nat) :
  forall (a : Z) (delay : Q) (last : option exn) (w : W) (n : nat)
         (slept : list Q),
    (a + Z.of_nat (S j) = max_retries p + 1)%Z ->
    within_budget_after p n slept j
      (attempts py_float func p (seqZ a (Z.of_nat (S j))) delay last w n slept).
Proof.
  induction j as [|j IH]; intros a delay last w n slept Ha;
    rewrite seqZ_step by lia;
    rewrite Nat2Z.inj_succ, Z.sub_1_r, Z.pred_succ; cbn [attempts];
    destruct (func w) as [res w'].
  - destruct res as [v|[h| | | | | | | | |]]; try apply stop_within_budget.
    + destruct (http_cls h); try apply stop_within_budget;
        (case_decide; [rewrite decide_False by lia; apply stop_within_budget|];
         case_decide; [rewrite decide_False by lia|]; apply stop_within_budget).
    + rewrite decide_False by lia. apply stop_within_budget.
    + rewrite decide_False by lia. apply stop_within_budget.
  - assert (Hretry : forall e wait_time,
        (forall secs, wait_time = Number secs -> secs <= max_delay p) ->
        within_budget_after p n slept (S j)
          match time_sleep wait_time with
          | Ok secs =>
              attempts py_float func p (seqZ (a + 1) (Z.of_nat (S j)))
                (delay * backoff_factor p) (Some e) w' (S n) (slept ++ [secs])
          | Raise sleep_error =>
              {| outcome := Raise sleep_error; calls := S n; sleeps := slept;
                 world := w' |}
          end).
    { intros e wait_time Hwait.
      destruct (time_sleep wait_time) as [secs|sleep_error] eqn:Hsleep;
        [|apply stop_within_budget].
      apply time_sleep_ok in Hsleep.
      apply (retry_within_budget _ _ _ secs); [by apply Hwait|].
      apply IH. lia. }
    assert (Hbackoff : forall secs,
        Number (Qmin delay (max_delay p)) = Number secs -> secs <= max_delay p).
    { intros secs [= <-]. apply Q.le_min_r. }
    destruct res as [v|[h| | | | | | | | |]]; try apply stop_within_budget.
    + destruct (http_cls h); try apply stop_within_budget;
        (case_decide;
         [case_decide; [|apply stop_within_budget];
          destruct (_get_retry_after py_float h) as [s|];
          [destruct (float_truthy s)|]; apply Hretry;
          (exact Hbackoff || (intros secs; apply float_min_bound))
         |case_decide; [|apply stop_within_budget];
          case_decide; [|apply stop_within_budget]; by apply Hretry]).
    + case_decide; [|apply stop_within_budget]. by apply Hretry.
    + case_decide; [|apply stop_within_budget]. by apply Hretry.
Qed.

(** A function that always raises [e], where every attempt but the last
    sleeps [wait delay] and the last one raises [final]: the run makes every
    attempt, and its waits follow the delays.  [good] is what the delays
    keep satisfying as they grow. *)
Lemma attempts_exhaust (good : Q -> Prop) (wait : Q -> Q) (final : exn) (e : exn) :
  (forall delay, good delay -> good (delay * backoff_factor p)) ->
  (forall a rest delay last w n slept,
      good delay -> (a < max_retries p)%Z ->
      attempts py_float func p (a :: rest) delay last w n slept =
      attempts py_float func p rest (delay * backoff_factor p) (Some e)
               (func w).2 (S n) (slept ++ [wait delay])) ->
  (forall a rest delay last w n slept,
      ~ (a < max_retries p)%Z ->
      attempts py_float func p (a :: rest) delay last w n slept =
      {| outcome := Raise final; calls := S n; sleeps := slept;
         world := (func w).2 |}) ->
  forall (j : nat) (a : Z) (delay : Q) (last : option exn) (w : W) (n : nat)
         (slept : list Q),
    good delay -> (a + Z.of_nat j = max_retries p)%Z ->
    let r := attempts py_float func p (seqZ a (Z.of_nat (S j))) delay last w n slept in
    outcome r = Raise final /\ calls r = (n + S j)%nat /\
    sleeps r = slept ++
      map (fun k => wait (Nat.iter k (fun d => d * backoff_factor p) delay)) (seq 0 j).
Proof.
  intros Hgood Hstep Hlast.
  induction j as [|j IH]; intros a delay last w n slept Hdelay Ha r; subst r;
    rewrite seqZ_step by lia;
    rewrite Nat2Z.inj_succ, Z.sub_1_r, Z.pred_succ.
  - rewrite Hlast by lia. simpl. rewrite app_nil_r. repeat split. lia.
  - rewrite Hstep by (done || lia).
    destruct (IH (a + 1)%Z (delay * backoff_factor p) (Some e) (func w).2 (S n)
                 (slept ++ [wait delay])) as (Ho & Hc & Hs); [by apply Hgood|lia|].
    rewrite Ho, Hc, Hs. repeat split; [lia|].
    rewrite <- app_assoc. f_equal. simpl. f_equal.
    rewrite <- seq_shift, map_map. apply map_ext. intros k.
    by rewrite Nat.iter_succ_r.
Qed.

End RetryRuns.

(** X1.  Whatever the wrapped function does, the wrapper calls it at least
    once and at most [max_retries + 1] times, sleeps exactly once between
    two consecutive calls, and never sleeps longer than [max_delay]. *)
Theorem retry_stays_within_budget (py_float : string -> option Q) {T W : Type}
    (func : W -> result T * W) (m : nat) (delay factor cap : Q) (w : W) :
  let p := {| max_retries := Z.of_nat m; initial_delay := delay;
              backoff_factor := factor; max_delay := cap |} in
  let r := retry_with_backoff py_float func p w in
  calls r = S (length (sleeps r)) /\ (calls r <= S m)%nat /\
  Forall (fun s => s <= cap) (sleeps r).
Proof.
  intros p r. subst r. unfold retry_with_backoff.
  replace (max_retries p + 1)%Z with (Z.of_nat (S m)) by (simpl; lia).
  destruct (attempts_budget py_float func p m 0%Z (initial_delay p) None w 0%nat [])
    as (extra & Hs & Hc & Hl & Hall); [simpl; lia|].
  rewrite Hs, Hc. simpl. repeat split; [lia|done].
Qed.

(** X2.  An error that is neither an authentication failure, nor a
    rate-limit or 5xx response, nor a network error is not retried: the
    wrapper calls the function once, does not sleep and raises the very
    error it got. *)
Theorem fatal_error_not_retried (py_float : string -> option Q) {T W : Type}
    (func : W -> result T * W) (m : nat) (delay factor cap : Q) (w : W) (e : exn) :
  (func w).1 = Raise e -> fatal_error e ->
  retry_with_backoff py_float func
    {| max_retries := Z.of_nat m; initial_delay := delay;
       backoff_factor := factor; max_delay := cap |} w =
  {| outcome := Raise e; calls := 1; sleeps := []; world := (func w).2 |}.
Proof.
  intros Hcall Hfatal. unfold retry_with_backoff.
  rewrite seqZ_step by (simpl; lia). simpl attempts.
  destruct (func w) as [res w']. simpl in *. subst res.
  destruct e as [h| | | | | | | | |]; try done.
  destruct Hfatal as (Hcls & H429 & H5xx).
  destruct (http_cls h); try done;
    (rewrite decide_False by done; by rewrite decide_False by done).
Qed.

Lemma fatal_error_not_retried_witness :
  retry_with_backoff float_of_decimal
    (fun w : nat => (Raise forbidden : result Z, S w)) default_policy 0%nat =
  {| outcome := Raise forbidden; calls := 1; sleeps := []; world := 1%nat |}.
Proof.
  apply (fatal_error_not_retried float_of_decimal
           (fun w : nat => (Raise forbidden : result Z, S w)) 3 1 2 60 0%nat forbidden).
  - reflexivity.
  - simpl. repeat split; [discriminate|discriminate|lia].
Defined.

(** X3.  Under a delay policy whose waits can be slept (no negative
    number in it, a cap that [time.sleep] takes): when the function always
    fails with the same 5xx response or network error, the wrapper makes
    all [max_retries + 1] calls and then raises that error itself; the wait
    before retry [k] is the initial delay multiplied [k] times by the
    backoff factor, capped at [max_delay]. *)
Theorem transient_errors_exhaust (py_float : string -> option Q) {T W : Type}
    (func : W -> result T * W) (m : nat) (delay factor cap : Q) (w : W) (e : exn) :
  let p := {| max_retries := Z.of_nat m; initial_delay := delay;
              backoff_factor := factor; max_delay := cap |} in
  let r := retry_with_backoff py_float func p w in
  sleepable_policy p ->
  always_raises func e -> server_error e \/ network_error e ->
  outcome r = Raise e /\ calls r = S m /\
  sleeps r = map (fun k => Qmin (delay_after p k) cap) (seq 0 m).
Proof.
  intros p r (Hdelay & Hfactor & Hcap & Hlimit) Hall Hkind. subst r.
  unfold retry_with_backoff, delay_after.
  replace (max_retries p + 1)%Z with (Z.of_nat (S m)) by (simpl; lia).
  simpl in Hdelay, Hfactor, Hcap, Hlimit.
  apply (attempts_exhaust py_float func p (fun d => 0 <= d) (fun d => Qmin d cap) e e);
    [| | |done|simpl; lia].
  - intros d Hd. by apply Qmult_le_0_compat.
  - intros a rest d last w0 n slept Hd Ha. cbn [attempts].
    pose proof (Hall w0) as Hcall. destruct (func w0) as [res w']. simpl in Hcall.
    subst res. cbn [snd max_delay max_retries p] in *.
    assert (Hsleep : time_sleep (Number (Qmin d cap)) = Ok (Qmin d cap)).
    { apply (sleep_returns _ cap); [by apply Q.min_glb|apply Q.le_min_r|done]. }
    destruct Hkind as [Hserver|[->| ->]].
    + destruct e as [h| | | | | | | | |]; try done. destruct Hserver as [Hcls Hst].
      destruct (http_cls h); try done;
        (rewrite decide_False by lia; rewrite decide_True by done;
         rewrite decide_True by done; by rewrite Hsleep).
    + rewrite decide_True by done. by rewrite Hsleep.
    + rewrite decide_True by done. by rewrite Hsleep.
  - intros a rest d last w0 n slept Ha. cbn [attempts].
    pose proof (Hall w0) as Hcall. destruct (func w0) as [res w']. simpl in Hcall.
    subst res. cbn [snd].
    destruct Hkind as [Hserver|[->| ->]].
    + destruct e as [h| | | | | | | | |]; try done. destruct Hserver as [Hcls Hst].
      destruct (http_cls h); try done;
        (rewrite decide_False by lia; rewrite decide_True by done;
         by rewrite decide_False by done).
    + by rewrite decide_False by done.
    + by rewrite decide_False by done.
Qed.

Lemma transient_errors_exhaust_witness :
  let r := retry_with_backoff float_of_decimal
             (fun w : nat => (Raise service_unavailable : result Z, S w))
             default_policy 0%nat in
  outcome r = Raise service_unavailable /\ calls r = 4%nat /\
  sleeps r = map (fun k => Qmin (delay_after default_policy k) 60) (seq 0 3).
Proof.
  apply (transient_errors_exhaust float_of_decimal
           (fun w : nat => (Raise service_unavailable : result Z, S w))
           3 1 2 60 0%nat service_unavailable).
  - repeat split; by vm_compute.
  - intros w. reflexivity.
  - left. simpl. split; [discriminate|lia].
Defined.

(** X4.  When the function is always rate limited with a [Retry-After]
    header that reads as a positive number of seconds, or that does not
    read as a float at all (a date, taken as 60 seconds), and [max_delay]
    is not negative and a length that [time.sleep] takes, every wait is the
    number of seconds of the header capped at [max_delay]; the growing
    delay is not used.  After [max_retries] such waits the wrapper raises
    [RateLimitExceeded]. *)
Theorem retry_after_is_honoured (py_float : string -> option Q) {T W : Type}
    (func : W -> result T * W) (m : nat) (delay factor cap : Q) (w : W)
    (h : http_error) (text : string) :
  let p := {| max_retries := Z.of_nat m; initial_delay := delay;
              backoff_factor := factor; max_delay := cap |} in
  let r := retry_with_backoff py_float func p w in
  let seconds := default 60 (py_float text) in
  always_raises func (HttpResponseError h) ->
  rate_limited (HttpResponseError h) ->
  retry_after_header h = Some text -> text <> EmptyString ->
  nonfinite_float text = None -> 0 < seconds ->
  0 <= cap -> cap < sleep_limit ->
  outcome r = Raise RateLimitExceeded /\ calls r = S m /\
  sleeps r = replicate m (Qmin seconds cap).
Proof.
  intros p r seconds Hall [Hcls Hst] Hheader Htext Hfinite Hpos Hcap Hlimit. subst r.
  unfold retry_with_backoff.
  replace (max_retries p + 1)%Z with (Z.of_nat (S m)) by (simpl; lia).
  assert (Hafter : _get_retry_after py_float h = Some (Number seconds)).
  { unfold _get_retry_after, float_of_text, seconds. rewrite Hheader.
    rewrite decide_False by done. rewrite Hfinite. by destruct (py_float text). }
  assert (Hzero : Qeq_bool seconds 0 = false).
  { destruct (Qeq_bool seconds 0) eqn:Hq; [|done].
    apply Qeq_bool_iff in Hq. lra. }
  assert (Hsleep : time_sleep (Number (Qmin seconds cap)) = Ok (Qmin seconds cap)).
  { apply (sleep_returns _ cap); [|apply Q.le_min_r|done].
    apply Q.min_glb; [by apply Qlt_le_weak|done]. }
  destruct (attempts_exhaust py_float func p (fun _ => True)
              (fun _ => Qmin seconds cap)
              RateLimitExceeded (HttpResponseError h)) with
    (j := m) (a := 0%Z) (delay := initial_delay p) (last := @None exn)
    (w := w) (n := 0%nat) (slept := @nil Q) as (Ho & Hc & Hs).
  - done.
  - intros a rest d last w0 n slept _ Ha. cbn [attempts].
    pose proof (Hall w0) as Hcall. destruct (func w0) as [res w']. simpl in Hcall.
    subst res. cbn [snd max_delay p]. rewrite Hafter. cbn [float_truthy float_min].
    rewrite Hzero. cbn [negb]. 
    destruct (http_cls h); try done;
      (rewrite decide_True by done; rewrite decide_True by done;
       by rewrite Hsleep).
  - intros a rest d last w0 n slept Ha. cbn [attempts].
    pose proof (Hall w0) as Hcall. destruct (func w0) as [res w']. simpl in Hcall.
    subst res. cbn [snd].
    destruct (http_cls h); try done;
      (rewrite decide_True by done; by rewrite decide_False by done).
  - done.
  - simpl. lia.
  - rewrite Ho, Hc, Hs. repeat split. simpl.
    generalize 0%nat. clear.
    induction m as [|k IH]; intros a; simpl; [done|]. by rewrite IH.
Qed.

Lemma retry_after_is_honoured_witness :
  let r := retry_with_backoff float_of_decimal
             (fun w : nat => (Raise (throttled_for "90") : result Z, S w))
             default_policy 0%nat in
  outcome r = Raise RateLimitExceeded /\ calls r = 4%nat /\
  sleeps r = replicate 3 (Qmin (default 60 (float_of_decimal "90")) 60).
Proof.
  apply (retry_after_is_honoured float_of_decimal
           (fun w : nat => (Raise (throttled_for "90") : result Z, S w))
           3 1 2 60 0%nat
           {| http_cls := PlainHttpError; status_code := 429; message := None;
              retry_after_header := Some "90"%string |} "90").
  - intros w. reflexivity.
  - simpl. split; [discriminate|reflexivity].
  - reflexivity.
  - discriminate.
  - reflexivity.
  - by vm_compute.
  - by vm_compute.
  - by vm_compute.
Defined.

(** ** Cost anomalies *)

Section SortingFacts.

Context {A : Type} (key : A -> Q).

Lemma insert_desc_sorted (x : A) (l : list A) :
  StronglySorted (fun a b => key b <= key a) l ->
  StronglySorted (fun a b => key b <= key a) (insert_desc key x l).
Proof.
  induction 1 as [|y rest Hsorted IH Hall]; simpl.
  - repeat constructor.
  - destruct (Qle_bool (key y) (key x)) eqn:Hle.
    + apply Qle_bool_iff in Hle. constructor; [by constructor|].
      constructor; [done|].
      eapply Forall_impl; [exact Hall|]. intros z Hz. simpl in Hz.
      by apply Qle_trans with (key y).
    + apply Qle_bool_false in Hle. constructor; [done|].
      rewrite insert_desc_perm. constructor; [by apply Qlt_le_weak|done].
Qed.

(** The sort puts the keys in descending order. *)
Lemma sort_desc_sorted (l : list A) :
  StronglySorted (fun a b => key b <= key a) (sort_desc key l).
Proof.
  induction l as [|x l IH]; [constructor|].
  by apply insert_desc_sorted.
Qed.

Lemma insert_desc_stable (k : Q) (x : A) (l : list A) :
  List.filter (fun a => Qeq_bool (key a) k) (insert_desc key x l) =
  List.filter (fun a => Qeq_bool (key a) k) (x :: l).
Proof.
  induction l as [|y rest IH]; [done|]. simpl insert_desc.
  destruct (Qle_bool (key y) (key x)) eqn:Hle; [done|].
  apply Qle_bool_false in Hle.
  cbn [List.filter]. rewrite IH. cbn [List.filter].
  destruct (Qeq_bool (key x) k) eqn:Hx, (Qeq_bool (key y) k) eqn:Hy; try done.
  apply Qeq_bool_iff in Hx, Hy. exfalso.
  rewrite Hx, Hy in Hle. by apply Qlt_irrefl in Hle.
Qed.

(** The sort is stable: the elements of one key keep their order. *)
Lemma sort_desc_stable (k : Q) (l : list A) :
  List.filter (fun a => Qeq_bool (key a) k) (sort_desc key l) =
  List.filter (fun a => Qeq_bool (key a) k) l.
Proof.
  induction l as [|x l IH]; [done|].
  change (sort_desc key (x :: l)) with (insert_desc key x (sort_desc key l)).
  rewrite insert_desc_stable. simpl. by rewrite IH.
Qed.

Lemma StronglySorted_weaken (R R' : A -> A -> Prop) (l : list A) :
  (forall x y, R x y -> R' x y) -> StronglySorted R l -> StronglySorted R' l.
Proof.
  intros Himpl. induction 1 as [|x l' _ IH Hall]; constructor; [done|].
  eapply Forall_impl; [exact Hall|]. intros y. apply Himpl.
Qed.

End SortingFacts.

(** X5.  The anomalies of a report are those of all analysed subscriptions,
    none lost and none added, in descending order of [variance_percent];
    records of equal variance keep the order in which they were found, and
    [total_anomalies] counts them. *)
Theorem report_is_sorted_and_complete (E : env) (subs : option (list string))
    (threshold : Q) (configured : list string) (rep : report) :
  AnomalyDetector.client_factory E = Ok configured ->
  detect_all E subs threshold = Ok rep ->
  let found := anomalies_of E threshold (default configured subs) in
  StronglySorted variance_desc (anomalies rep) /\
  anomalies rep ≡ₚ found /\
  (forall v, with_variance v (anomalies rep) = with_variance v found) /\
  total_anomalies rep = length found.
Proof.
  intros Hfactory Hrep found. subst found. unfold detect_all in Hrep.
  rewrite Hfactory in Hrep. simpl in Hrep.
  destruct (default configured subs) as [|s ids]; [done|].
  rewrite analyse_all in Hrep. injection Hrep as <-.
  cbn [anomalies total_anomalies app]. unfold anomalies_of.
  split; [apply sort_desc_sorted|]. split; [apply sort_desc_perm|].
  split; [intros v; apply sort_desc_stable|].
  by rewrite sort_desc_perm.
Qed.

Lemma report_is_sorted_and_complete_witness :
  exists rep,
    detect_all two_spikes_env None 1.5 = Ok rep /\
    StronglySorted variance_desc (anomalies rep) /\
    anomalies rep ≡ₚ anomalies_of two_spikes_env 1.5 ["sub-1"; "sub-2"]%string.
Proof.
  eexists. split; [reflexivity|].
  pose proof (report_is_sorted_and_complete two_spikes_env None 1.5 _ _
                eq_refl eq_refl) as (Hsorted & Hperm & _).
  split; [exact Hsorted|exact Hperm].
Defined.

Example two_spikes_order :
  (fun rep => map (fun a => (a_subscription_id a, variance_percent a)) (anomalies rep))
    <$> detect_all two_spikes_env None 1.5
  = Ok [("sub-2"%string, 300.00); ("sub-1"%string, 60.00)].
Proof. by vm_compute. Qed.

Section RoundingFacts.

Lemma round_half_even_floor (x : Q) :
  (Qfloor x <= round_half_even x <= Qfloor x + 1)%Z.
Proof.
  unfold round_half_even.
  destruct (Qcompare _ _); [destruct (Z.even _)| |]; lia.
Qed.

(** Rounding to the nearest integer keeps the order. *)
Lemma round_half_even_mono (x y : Q) :
  x <= y -> (round_half_even x <= round_half_even y)%Z.
Proof.
  intros Hxy.
  pose proof (Qfloor_resp_le x y Hxy) as Hfloor.
  pose proof (round_half_even_floor x) as Hx.
  pose proof (round_half_even_floor y) as Hy.
  destruct (Z.eq_dec (Qfloor x) (Qfloor y)) as [Heq|Hne]; [|lia].
  clear Hx Hy Hfloor. unfold round_half_even. rewrite <- Heq.
  destruct (Qcompare_spec (x - inject_Z (Qfloor x)) (1 # 2)) as [Hx|Hx|Hx];
    destruct (Qcompare_spec (y - inject_Z (Qfloor x)) (1 # 2)) as [Hy|Hy|Hy];
    try (destruct (Z.even (Qfloor x))); try lia; exfalso; lra.
Qed.

Lemma round2_mono (x y : Q) : x <= y -> round2 x <= round2 y.
Proof.
  intros Hxy. unfold round2.
  assert (Hz : (round_half_even (x * 100) <= round_half_even (y * 100))%Z).
  { apply round_half_even_mono. lra. }
  rewrite Zle_Qle in Hz.
  unfold Qdiv. apply Qmult_le_compat_r; [done|]. by vm_compute.
Qed.

Lemma round2_zero : round2 0 == 0.
Proof. by vm_compute. Qed.

End RoundingFacts.

Section ExcessFacts.

(** With a threshold of at least 1, the record of a flagged entry has an
    actual cost not below its average and a variance that is not
    negative. *)
Lemma flagged_record_signs (sub : string) (threshold : Q)
    (hist : list cost_entry) (e : cost_entry) :
  1 <= threshold -> flagged threshold hist e ->
  average_cost (anomaly_record sub hist e) <= actual_cost (anomaly_record sub hist e) /\
  0 <= variance_percent (anomaly_record sub hist e).
Proof.
  intros Hthr [Hpos Hover]. simpl.
  set (avg := baseline_average hist (entry_key e)) in *.
  assert (Hle : avg <= cost e).
  { assert (Hmul : avg * 1 <= avg * threshold) by (by apply Qmult_le_l).
    set (prod := avg * threshold) in *. lra. }
  split; [by apply round2_mono|].
  rewrite <- round2_zero. apply round2_mono. unfold variance_of.
  apply Qmult_le_0_compat; [|by vm_compute].
  unfold Qdiv. apply Qmult_le_0_compat; [lra|].
  apply Qlt_le_weak. by apply Qinv_lt_0_compat.
Qed.

Lemma excess_total_nonneg (found : list anomaly) :
  Forall (fun a => 0 <= excess a) found ->
  forall total, 0 <= total ->
    0 <= fold_left (fun total a => total + excess a) found total.
Proof.
  induction 1 as [|a found Ha _ IH]; intros total Htotal; [done|].
  simpl. apply IH. lra.
Qed.

End ExcessFacts.

(** X6.  With a threshold of at least 1, every reported anomaly has an
    [actual_cost] that is not below its [average_cost] and a
    [variance_percent] that is not negative, and [total_excess_spend] is not
    negative. *)
Theorem excess_spend_not_negative (E : env) (subs : option (list string))
    (threshold : Q) (rep : report) :
  1 <= threshold ->
  detect_all E subs threshold = Ok rep ->
  0 <= total_excess_spend rep /\
  forall a, a ∈ anomalies rep ->
            average_cost a <= actual_cost a /\ 0 <= variance_percent a.
Proof.
  intros Hthr. unfold detect_all.
  destruct (AnomalyDetector.client_factory E) as [configured|]; [|done]. simpl.
  destruct (default configured subs) as [|s ids]; [done|].
  rewrite analyse_all. intros [= <-]. cbn [total_excess_spend anomalies app].
  change (_detect_subscription_anomalies E s threshold ++
          flat_map (fun s => _detect_subscription_anomalies E s threshold) ids)
    with (flat_map (fun s => _detect_subscription_anomalies E s threshold) (s :: ids)).
  assert (Hsigns : forall a,
             a ∈ flat_map (fun s => _detect_subscription_anomalies E s threshold)
                          (s :: ids) ->
             average_cost a <= actual_cost a /\ 0 <= variance_percent a).
  { intros a Ha. apply list_elem_of_In, in_flat_map in Ha as (sub & _ & Ha).
    apply list_elem_of_In, detected_records in Ha as (hist & e & Hflag & ->).
    by apply (flagged_record_signs sub threshold). }
  split.
  - apply Qle_trans with (round2 0); [by vm_compute|]. apply round2_mono.
    apply excess_total_nonneg; [|done].
    apply Forall_forall. intros a Ha. destruct (Hsigns a Ha) as [Hle _].
    unfold excess. lra.
  - intros a Ha. apply Hsigns. by rewrite sort_desc_perm in Ha.
Qed.

Lemma excess_spend_not_negative_witness :
  exists rep,
    detect_all two_spikes_env None 1.5 = Ok rep /\ 0 <= total_excess_spend rep.
Proof.
  eexists. split; [reflexivity|].
  refine (proj1 (excess_spend_not_negative two_spikes_env None 1.5 _ _ eq_refl)).
  by vm_compute.
Defined.

(** X7.  The averages are kept per key [(resource_group, service_name)]:
    a key has an average exactly when some historical entry has that key,
    and the average is the mean of the costs of those entries, taken in the
    order they were fetched. *)
Theorem averages_by_key (historical_costs : list cost_entry)
    (key : string * string) :
  _calculate_averages historical_costs !! key =
  match baseline_costs historical_costs key with
  | [] => None
  | costs => Some (mean costs)
  end.
Proof.
  unfold _calculate_averages.
  rewrite lookup_fmap, grouped_costs_lookup, lookup_empty.
  by destruct (baseline_costs historical_costs key).
Qed.

Example average_of_two_days :
  _calculate_averages
    [parse_row "d" (plain_row 90 "RG1" "Svc1");
     parse_row "d" (plain_row 40 "RG2" "Svc1");
     parse_row "d" (plain_row 110 "RG1" "Svc1")] !! ("RG1"%string, "Svc1"%string)
  = Some ((0 + 90 + 110) / 2).
Proof. by vm_compute. Qed.



(** ** Governance recommendations *)

Section AdviceFacts.

Import GovernanceAdvisor.

Context (py_float : string -> option Q).

Lemma scored_recommendation_range (sub : string) (r : recommendation) (x : scored) :
  score_recommendation py_float sub r = Ok x -> (0 <= risk_score x <= 10)%Z.
Proof.
  unfold score_recommendation, _calculate_risk_score.
  destruct (raw_risk_score py_float r) as [[raw f]|] eqn:Hraw; [|done]. simpl.
  intros [= <-]. simpl. apply raw_risk_score_range in Hraw. lia.
Qed.

(** Every recommendation gathered for a subscription has a risk score
    between 0 and 10. *)
Lemma gathered_score_range (G : GovernanceAdvisor.env) (sub : string) (x : scored) :
  x ∈ _get_advisor_recommendations py_float G sub -> (0 <= risk_score x <= 10)%Z.
Proof.
  unfold _get_advisor_recommendations.
  destruct (GovernanceAdvisor.client_factory G); simpl; [|by inversion 1].
  destruct (advisor_list G sub) as [[listing ending]|]; [|by inversion 1].
  destruct (score_listing py_float sub listing ending []) as [out stop] eqn:Hloop.
  apply score_listing_keeps_prefix in Hloop as (n & news & -> & Hnews).
  simpl. intros Hx.
  apply list_elem_of_lookup in Hx as [i Hi].
  destruct (Forall2_lookup_r _ _ _ _ _ Hnews Hi) as (r & _ & Hscore).
  by apply scored_recommendation_range in Hscore.
Qed.

(** The three risk tiers split any list of recommendations. *)
Lemma risk_tiers_partition (l : list scored) :
  (length (filter (fun r => 7 <= risk_score r)%Z l) +
   length (filter (fun r => 4 <= risk_score r < 7)%Z l) +
   length (filter (fun r => risk_score r < 4)%Z l))%nat = length l.
Proof.
  induction l as [|x l IH]; [done|].
  rewrite !filter_cons. repeat case_decide; simpl; lia.
Qed.

End AdviceFacts.

(** X9.  The recommendations of an advice are in descending order of risk
    score, each has a score between [min_risk_score] and 10, and the three
    counts of the summary (high: 7 and more, medium: 4 to 6, low: below 4)
    add up to the number of recommendations returned. *)
Theorem advice_is_filtered_and_sorted (py_float : string -> option Q)
    (G : GovernanceAdvisor.env) (subs : option (list string)) (min_risk_score : Z)
    (a : GovernanceAdvisor.advice) :
  GovernanceAdvisor.advise_all py_float G subs min_risk_score = Ok a ->
  StronglySorted risk_desc (GovernanceAdvisor.recommendations a) /\
  Forall (fun r => (min_risk_score <= GovernanceAdvisor.risk_score r)%Z /\
                   (0 <= GovernanceAdvisor.risk_score r <= 10)%Z)
         (GovernanceAdvisor.recommendations a) /\
  (GovernanceAdvisor.high_risk_count (GovernanceAdvisor.summary a) +
   GovernanceAdvisor.medium_risk_count (GovernanceAdvisor.summary a) +
   GovernanceAdvisor.low_risk_count (GovernanceAdvisor.summary a))%nat =
  GovernanceAdvisor.total_recommendations (GovernanceAdvisor.summary a) /\
  GovernanceAdvisor.total_recommendations (GovernanceAdvisor.summary a) =
  length (GovernanceAdvisor.recommendations a).
Proof.
  unfold GovernanceAdvisor.advise_all.
  destruct (GovernanceAdvisor.client_factory G) as [configured|]; [|done]. simpl.
  destruct (default configured subs) as [|s ids]; [done|].
  rewrite gather_all. intros [= <-]. cbn [GovernanceAdvisor.recommendations
    GovernanceAdvisor.summary app]. split; [|split; [|split]].
  - eapply StronglySorted_weaken; [|apply sort_desc_sorted].
    intros x y Hxy. unfold risk_desc. simpl in Hxy. by rewrite Zle_Qle.
  - apply Forall_forall. intros x Hx. rewrite sort_desc_perm in Hx.
    apply list_elem_of_filter in Hx as [Hmin Hx]. split; [done|].
    change (x ∈ flat_map (GovernanceAdvisor._get_advisor_recommendations py_float G)
                         (s :: ids)) in Hx.
    apply list_elem_of_In, in_flat_map in Hx as (sub & _ & Hx).
    by apply list_elem_of_In, gathered_score_range in Hx.
  - apply risk_tiers_partition.
  - done.
Qed.

Lemma advice_is_filtered_and_sorted_witness :
  exists a,
    GovernanceAdvisor.advise_all float_of_decimal three_advisories_env None 2 = Ok a /\
    StronglySorted risk_desc (GovernanceAdvisor.recommendations a).
Proof.
  eexists. split; [reflexivity|].
  exact (proj1 (advice_is_filtered_and_sorted float_of_decimal three_advisories_env
                  None 2 _ eq_refl)).
Defined.

Example three_advisories_scores :
  (fun a => (map GovernanceAdvisor.risk_score (GovernanceAdvisor.recommendations a),
             GovernanceAdvisor.high_risk_count (GovernanceAdvisor.summary a)))
    <$> GovernanceAdvisor.advise_all float_of_decimal three_advisories_env None 2
  = Ok ([10; 5]%Z, 1%nat).
Proof. by vm_compute. Qed.

(** X10.  A [min_risk_score] above 10 leaves no recommendation, since no
    score exceeds 10; a [min_risk_score] of 0 or less keeps every
    recommendation gathered from the subscriptions. *)
Theorem minimum_score_edges (py_float : string -> option Q)
    (G : GovernanceAdvisor.env) (subs : option (list string)) (min_risk_score : Z)
    (configured : list string) (a : GovernanceAdvisor.advice) :
  GovernanceAdvisor.client_factory G = Ok configured ->
  GovernanceAdvisor.advise_all py_float G subs min_risk_score = Ok a ->
  ((10 < min_risk_score)%Z -> GovernanceAdvisor.recommendations a = []) /\
  ((min_risk_score <= 0)%Z ->
   GovernanceAdvisor.recommendations a ≡ₚ gathered py_float G (default configured subs)).
Proof.
  intros Hfactory. unfold GovernanceAdvisor.advise_all. rewrite Hfactory. simpl.
  destruct (default configured subs) as [|s ids]; [done|].
  rewrite gather_all. intros [= <-]. cbn [GovernanceAdvisor.recommendations app].
  change (GovernanceAdvisor._get_advisor_recommendations py_float G s ++
          flat_map (GovernanceAdvisor._get_advisor_recommendations py_float G) ids)
    with (gathered py_float G (s :: ids)).
  assert (Hrange : forall x, x ∈ gathered py_float G (s :: ids) ->
                             (0 <= GovernanceAdvisor.risk_score x <= 10)%Z).
  { intros x Hx. apply list_elem_of_In, in_flat_map in Hx as (sub & _ & Hx).
    by apply list_elem_of_In, gathered_score_range in Hx. }
  split; intros Hmin.
  - apply Permutation_nil_r. rewrite sort_desc_perm.
    induction (gathered py_float G (s :: ids)) as [|x l IH]; [done|].
    rewrite filter_cons. rewrite decide_False.
    + apply IH. intros y Hy. apply Hrange. by right.
    + specialize (Hrange x (list_elem_of_here _ _)). lia.
  - rewrite sort_desc_perm.
    induction (gathered py_float G (s :: ids)) as [|x l IH]; [done|].
    rewrite filter_cons. rewrite decide_True.
    + f_equiv. apply IH. intros y Hy. apply Hrange. by right.
    + specialize (Hrange x (list_elem_of_here _ _)). lia.
Qed.

Lemma minimum_score_edges_witness :
  exists a,
    GovernanceAdvisor.advise_all float_of_decimal three_advisories_env None 11 = Ok a /\
    GovernanceAdvisor.recommendations a = [].
Proof.
  eexists. split; [reflexivity|].
  refine (proj1 (minimum_score_edges float_of_decimal three_advisories_env None 11
                   _ _ eq_refl eq_refl) _).
  lia.
Defined.

(** X11.  Scoring attaches ISO 27001 controls, NIA Qatar requirements and a
    security impact only to Security recommendations, and a cost impact only
    to Cost recommendations.  A Security recommendation gets controls
    exactly when its problem text mentions encryption, access or
    authentication. *)
Theorem risk_factors_follow_category (py_float : string -> option Q)
    (r : GovernanceAdvisor.recommendation) (score : Z)
    (f : GovernanceAdvisor.risk_factors_t) :
  GovernanceAdvisor._calculate_risk_score py_float r = Ok (score, f) ->
  (GovernanceAdvisor.category r <> "Security"%string ->
   GovernanceAdvisor.iso_27001_controls f = [] /\
   GovernanceAdvisor.nia_qatar_requirements f = [] /\
   GovernanceAdvisor.security_impact f = "Unknown"%string) /\
  (GovernanceAdvisor.category r <> "Cost"%string ->
   GovernanceAdvisor.cost_impact f = "Unknown"%string) /\
  (GovernanceAdvisor.category r = "Security"%string ->
   forall text, problem_text r = Some text ->
     (GovernanceAdvisor.iso_27001_controls f = [] <->
      mentions_encryption text = false /\ mentions_access text = false)).
Proof.
  unfold GovernanceAdvisor._calculate_risk_score, GovernanceAdvisor.raw_risk_score,
    problem_text, mentions_encryption, mentions_access.
  destruct (GovernanceAdvisor.short_description r) as [d|];
    [destruct (GovernanceAdvisor.problem d) as [t|]|]; simpl; try done.
  - repeat match goal with
           | |- context [decide ?P] => destruct (decide P); simpl
           | |- context [if ?b then _ else _] => destruct b eqn:?; simpl
           end;
      intros [= <- <-]; simpl;
      (split; [|split]; [done..|]);
      intros Hsec text [= <-]; try congruence; split;
      try done; try (intros [? ?]; congruence);
      try (intros _; split; congruence).
  - repeat match goal with
           | |- context [decide ?P] => destruct (decide P); simpl
           | |- context [if ?b then _ else _] => destruct b; simpl
           end;
      intros [= <- <-]; simpl;
      (split; [|split]; [done..|]);
      intros Hsec text [= <-]; try congruence; split;
      try done; try (intros [? ?]; congruence);
      try (intros _; split; congruence).
Qed.

Lemma risk_factors_follow_category_witness :
  GovernanceAdvisor.iso_27001_controls
    {| GovernanceAdvisor.iso_27001_controls := [];
       GovernanceAdvisor.nia_qatar_requirements := [];
       GovernanceAdvisor.cost_impact := "Unknown";
       GovernanceAdvisor.security_impact := "Unknown" |} = [].
Proof.
  exact (proj1 (proj1 (risk_factors_follow_category float_of_decimal
                         (advisory "Performance" (Some "High"%string)
                                   "Scale up the prod cache")
                         5 _ eq_refl)
                  ltac:(discriminate))).
Defined.

(** ** Compliance overlay *)

Section OverlayLists.

Import ComplianceOverlay.

Lemma generate_warning_fields (r : recommendation) (fs : list flag)
    (w : compliance_warning) :
  _generate_compliance_warning r fs = Ok w ->
  action_required w = _get_action_required (warning_severity w) /\
  recommendation_id w = default "unknown"%string (rec_id r) /\
  frameworks_impacted w = distinct (map framework fs).
Proof.
  unfold _generate_compliance_warning.
  destruct (py_max (map severity_rank fs)) as [m|]; [|done]. simpl.
  destruct (map fst (filter _ severity_order)) as [|s rest]; [done|].
  by intros [= <-].
Qed.

(** The loop of the overlay files every recommendation under flagged or
    safe, in order, and issues one warning per flagged recommendation. *)
Lemma overlay_loop_lists (iso nia : bool) (rs : list recommendation) :
  forall (fl : list flagged) (ws : list compliance_warning) (sf : list safe),
  exists ws',
    fold_left (overlay_step iso nia) rs (Ok (fl, ws, sf)) =
    Ok (fl ++ map (flagged_entry iso nia) (filter (matches_a_bucket iso nia) rs),
        ws ++ ws',
        sf ++ map safe_entry (filter (fun r => ~ matches_a_bucket iso nia r) rs)) /\
    Forall2 (fun r w => _generate_compliance_warning r
                          (_check_compliance_impact r iso nia) = Ok w)
            (filter (matches_a_bucket iso nia) rs) ws'.
Proof.
  induction rs as [|r rs IH]; intros fl ws sf.
  - exists []. rewrite !app_nil_r. split; [done|constructor].
  - cbn [fold_left]. rewrite overlay_step_unfold, !filter_cons.
    destruct (decide (matches_a_bucket iso nia r)) as [Hm|Hm].
    + rewrite decide_False by tauto.
      unfold matches_a_bucket in Hm.
      destruct (generate_warning_max r (_check_compliance_impact r iso nia))
        as (w & Hw & _); [done|apply check_flag_severities|].
      cbn [map]. unfold flagged_entry at 1.
      destruct (_check_compliance_impact r iso nia) as [|f fs] eqn:Hcheck; [done|].
      rewrite Hw. simpl.
      destruct (IH (fl ++ [{| flagged_rec := r; compliance_flags := f :: fs;
                              flagged_requires_compliance_review := true |}])
                   (ws ++ [w]) sf) as (ws' & -> & Hws).
      exists (w :: ws'). rewrite <- !app_assoc. split; [done|].
      constructor; [by rewrite Hcheck|done].
    + rewrite decide_True by done.
      unfold matches_a_bucket in Hm.
      destruct (_check_compliance_impact r iso nia) as [|f fs] eqn:Hcheck;
        [|exfalso; apply Hm; discriminate].
      cbn [map].
      change {| safe_rec := r; safe_requires_compliance_review := false |}
        with (safe_entry r).
      destruct (IH fl ws (sf ++ [safe_entry r])) as (ws' & -> & Hws).
      exists ws'. rewrite <- !app_assoc. by split.
Qed.

End OverlayLists.

Section OverlayResults.

Import ComplianceOverlay.

Lemma filter_split_length {A} (P : A -> Prop) `{forall x, Decision (P x)}
    (l : list A) :
  (length (filter P l) + length (filter (fun x => ~ P x) l))%nat = length l.
Proof.
  induction l as [|x l IH]; [done|].
  rewrite !filter_cons. destruct (decide (P x)).
  - rewrite decide_False by tauto. simpl. lia.
  - rewrite decide_True by done. simpl. lia.
Qed.

Lemma lower_ascii_idemp (c : Ascii.ascii) : lower_ascii (lower_ascii c) = lower_ascii c.
Proof.
  destruct c as [[] [] [] [] [] [] [] []]; reflexivity.
Qed.

Lemma lower_app (a b : string) : lower (a +:+ b) = lower a +:+ lower b.
Proof.
  induction a as [|c a IH]; [done|]. simpl. by rewrite IH.
Qed.

Lemma check_depends_on_text (r1 r2 : recommendation) (iso nia : bool) :
  overlay_text r1 = overlay_text r2 ->
  _check_compliance_impact r1 iso nia = _check_compliance_impact r2 iso nia.
Proof.
  unfold overlay_text, _check_compliance_impact. by intros ->.
Qed.

Lemma append_if_keeps (keywords : list string) (text : string) (f g : flag)
    (fs : list flag) :
  g ∈ fs -> g ∈ append_if keywords text f fs.
Proof.
  intros Hg. unfold append_if. destruct (any_in keywords text); [|done].
  apply elem_of_app. by left.
Qed.

Lemma append_if_adds (keywords : list string) (text : string) (f : flag)
    (fs : list flag) :
  any_in keywords text = true -> f ∈ append_if keywords text f fs.
Proof.
  intros Hany. unfold append_if. rewrite Hany.
  apply elem_of_app. right. left.
Qed.

End OverlayResults.

(** X12.  The overlay files every recommendation exactly once, in order:
    under flagged, with its flags and marked for compliance review, when it
    matches a bucket, and under safe otherwise.  There is one warning per
    flagged recommendation, and the flagged and safe counts of the summary
    add up to the number of recommendations. *)
Theorem overlay_partitions (rs : list ComplianceOverlay.recommendation)
    (check_iso27001 check_nia_qatar : bool) :
  exists o,
    ComplianceOverlay.apply_compliance_overlay rs check_iso27001 check_nia_qatar
      = Ok o /\
    ComplianceOverlay.flagged_recommendations o =
      map (flagged_entry check_iso27001 check_nia_qatar)
          (filter (matches_a_bucket check_iso27001 check_nia_qatar) rs) /\
    ComplianceOverlay.safe_recommendations o =
      map safe_entry
          (filter (fun r => ~ matches_a_bucket check_iso27001 check_nia_qatar r) rs) /\
    length (ComplianceOverlay.compliance_warnings o) =
      ComplianceOverlay.flagged_count (ComplianceOverlay.summary o) /\
    (ComplianceOverlay.flagged_count (ComplianceOverlay.summary o) +
     ComplianceOverlay.safe_count (ComplianceOverlay.summary o))%nat =
      ComplianceOverlay.total_recommendations (ComplianceOverlay.summary o) /\
    ComplianceOverlay.total_recommendations (ComplianceOverlay.summary o) = length rs.
Proof.
  unfold ComplianceOverlay.apply_compliance_overlay.
  destruct (overlay_loop_lists check_iso27001 check_nia_qatar rs [] [] [])
    as (ws & -> & Hws).
  simpl. eexists. split; [reflexivity|]. simpl.
  repeat split.
  - apply Forall2_length in Hws. by rewrite length_map.
  - rewrite !length_map. apply filter_split_length.
Qed.

(** X13.  With both framework checks switched off nothing is flagged: every
    recommendation is filed under safe, in order, and there is no
    warning. *)
Theorem unchecked_overlay_is_all_safe (rs : list ComplianceOverlay.recommendation) :
  ComplianceOverlay.apply_compliance_overlay rs false false =
  Ok {| ComplianceOverlay.flagged_recommendations := [];
        ComplianceOverlay.safe_recommendations := map safe_entry rs;
        ComplianceOverlay.compliance_warnings := [];
        ComplianceOverlay.summary :=
          {| ComplianceOverlay.total_recommendations := length rs;
             ComplianceOverlay.flagged_count := 0;
             ComplianceOverlay.safe_count := length rs |} |}.
Proof.
  unfold ComplianceOverlay.apply_compliance_overlay.
  destruct (overlay_loop_lists false false rs [] [] []) as (ws & -> & Hws).
  assert (Hnone : filter (matches_a_bucket false false) rs = []).
  { clear. induction rs as [|r rs IH]; [done|].
    rewrite filter_cons. by rewrite decide_False by (by intros H; apply H). }
  assert (Hall : filter (fun r => ~ matches_a_bucket false false r) rs = rs).
  { clear. induction rs as [|r rs IH]; [done|].
    rewrite filter_cons. rewrite decide_True by (by intros H; apply H).
    by rewrite IH. }
  rewrite Hnone in Hws. apply Forall2_nil_inv_l in Hws. subst ws.
  rewrite Hnone, Hall. simpl. by rewrite length_map.
Qed.

(** X14.  The severity of a warning is critical, high or medium, never low,
    and the action it requires is the one of that severity: STOP for
    critical, REVIEW for high, ASSESS for medium. *)
Theorem warnings_are_never_low (rs : list ComplianceOverlay.recommendation)
    (check_iso27001 check_nia_qatar : bool) (o : ComplianceOverlay.overlay)
    (w : ComplianceOverlay.compliance_warning) :
  ComplianceOverlay.apply_compliance_overlay rs check_iso27001 check_nia_qatar
    = Ok o ->
  w ∈ ComplianceOverlay.compliance_warnings o ->
  (ComplianceOverlay.warning_severity w = "critical"%string /\
   ComplianceOverlay.action_required w = stop_action) \/
  (ComplianceOverlay.warning_severity w = "high"%string /\
   ComplianceOverlay.action_required w = review_action) \/
  (ComplianceOverlay.warning_severity w = "medium"%string /\
   ComplianceOverlay.action_required w = assess_action).
Proof.
  unfold ComplianceOverlay.apply_compliance_overlay.
  destruct (overlay_loop_lists check_iso27001 check_nia_qatar rs [] [] [])
    as (ws & -> & Hws).
  simpl. intros [= <-] Hw. simpl in Hw.
  apply list_elem_of_lookup in Hw as [i Hi].
  destruct (Forall2_lookup_r _ _ _ _ _ Hws Hi) as (r & Hr & Hgen).
  apply list_elem_of_lookup_2, list_elem_of_filter in Hr as [Hm _].
  destruct (generate_warning_max r _ Hm (check_flag_severities r _ _))
    as (w' & Hgen' & _ & _ & (f & Hf & Hsev) & _).
  rewrite Hgen in Hgen'. injection Hgen' as <-.
  destruct (generate_warning_fields r _ w Hgen) as (Hact & _).
  pose proof (check_flag_severities r check_iso27001 check_nia_qatar) as Hall.
  rewrite Forall_forall in Hall. specialize (Hall f Hf).
  rewrite Hact.
  destruct Hall as [Hs|[Hs|Hs]]; rewrite Hs in Hsev; injection Hsev as <-; auto.
Qed.

Lemma warnings_are_never_low_witness :
  let w :=
    {| ComplianceOverlay.recommendation_id := "rec-7";
       ComplianceOverlay.recommendation_title := "Reduce log volume";
       ComplianceOverlay.warning_severity := "critical";
       ComplianceOverlay.frameworks_impacted := ["ISO 27001"; "NIA Qatar"]%string;
       ComplianceOverlay.flags :=
         ComplianceOverlay._check_compliance_impact log_region_rec true true;
       ComplianceOverlay.action_required := stop_action |} in
  (ComplianceOverlay.warning_severity w = "critical"%string /\
   ComplianceOverlay.action_required w = stop_action) \/
  (ComplianceOverlay.warning_severity w = "high"%string /\
   ComplianceOverlay.action_required w = review_action) \/
  (ComplianceOverlay.warning_severity w = "medium"%string /\
   ComplianceOverlay.action_required w = assess_action).
Proof.
  intros w.
  exact (warnings_are_never_low [log_region_rec] true true _ w eq_refl
           (list_elem_of_here _ _)).
Defined.

(** X15.  The classification does not depend on letter case: two
    recommendations whose title, description and resource type agree up to
    the case of their letters get the same flags. *)
Theorem classification_ignores_case (r1 r2 : ComplianceOverlay.recommendation)
    (check_iso27001 check_nia_qatar : bool) :
  lower (default EmptyString (ComplianceOverlay.title r1)) =
    lower (default EmptyString (ComplianceOverlay.title r2)) ->
  lower (default EmptyString (ComplianceOverlay.rec_description r1)) =
    lower (default EmptyString (ComplianceOverlay.rec_description r2)) ->
  lower (default EmptyString (ComplianceOverlay.resource_type r1)) =
    lower (default EmptyString (ComplianceOverlay.resource_type r2)) ->
  ComplianceOverlay._check_compliance_impact r1 check_iso27001 check_nia_qatar =
  ComplianceOverlay._check_compliance_impact r2 check_iso27001 check_nia_qatar.
Proof.
  intros Htitle Hdesc Htype. apply check_depends_on_text.
  unfold overlay_text. rewrite !lower_app. by rewrite Htitle, Hdesc, Htype.
Qed.

Lemma classification_ignores_case_witness :
  ComplianceOverlay._check_compliance_impact disk_rec true true =
  ComplianceOverlay._check_compliance_impact disk_rec_capitals true true.
Proof.
  exact (classification_ignores_case disk_rec disk_rec_capitals true true
           eq_refl eq_refl eq_refl).
Defined.

(** X16.  When the NIA Qatar check is on, a recommendation whose text
    mentions a region, location or geo, or encryption, storage or a disk,
    gets a warning of severity critical, whose action is STOP, whatever else
    it matches. *)
Theorem sovereignty_and_storage_are_critical (r : ComplianceOverlay.recommendation)
    (check_iso27001 : bool) :
  any_in ["region"; "location"; "geo"]%string (overlay_text r) = true \/
  any_in ["encrypt"; "storage"; "disk"]%string (overlay_text r) = true ->
  exists w,
    ComplianceOverlay._generate_compliance_warning r
      (ComplianceOverlay._check_compliance_impact r check_iso27001 true) = Ok w /\
    ComplianceOverlay.warning_severity w = "critical"%string /\
    ComplianceOverlay.action_required w = stop_action.
Proof.
  intros Hmatch.
  assert (Hcritical : exists g,
             g ∈ ComplianceOverlay._check_compliance_impact r check_iso27001 true /\
             ComplianceOverlay.severity g = Some "critical"%string).
  { unfold ComplianceOverlay._check_compliance_impact.
    change (lower _) with (overlay_text r).
    destruct Hmatch as [Hsov|Hsto].
    - exists (ComplianceOverlay.nia_flag "data_sovereignty" "critical").
      split; [|done]. do 3 apply append_if_keeps. by apply append_if_adds.
    - exists (ComplianceOverlay.nia_flag "encryption_at_rest" "critical").
      split; [|done]. do 2 apply append_if_keeps. by apply append_if_adds. }
  destruct Hcritical as (g & Hg & Hgsev).
  destruct (generate_warning_max r
              (ComplianceOverlay._check_compliance_impact r check_iso27001 true))
    as (w & Hgen & _ & _ & (f & Hf & Hsev) & Hmax).
  { intros Hnil. rewrite Hnil in Hg. inversion Hg. }
  { apply check_flag_severities. }
  exists w. split; [done|].
  destruct (generate_warning_fields r _ w Hgen) as (Hact & _).
  specialize (Hmax g Hg). unfold ComplianceOverlay.severity_rank in Hmax.
  rewrite Hgsev in Hmax.
  pose proof (check_flag_severities r check_iso27001 true) as Hall.
  rewrite Forall_forall in Hall. specialize (Hall f Hf).
  rewrite Hact.
  destruct Hall as [Hs|[Hs|Hs]]; rewrite Hs in Hsev; injection Hsev as Hsev;
    rewrite <- Hsev in *; [done|vm_compute in Hmax; congruence..].
Qed.

Lemma sovereignty_and_storage_are_critical_witness :
  exists w,
    ComplianceOverlay._generate_compliance_warning disk_rec
      (ComplianceOverlay._check_compliance_impact disk_rec true true) = Ok w /\
    ComplianceOverlay.warning_severity w = "critical"%string /\
    ComplianceOverlay.action_required w = stop_action.
Proof.
  apply (sovereignty_and_storage_are_critical disk_rec true).
  right. reflexivity.
Defined.

(** ** Pricing *)

Section PricingRuns.

(** For a SKU of the disk table, the cost is the price of the tier the size
    loop selects, the largest tier when it selects none. *)
Lemma disk_cost_selected (sku : string) (tiers : gmap string Q) (size_gb : Q) :
  disk_prices !! sku = Some tiers ->
  get_disk_monthly_cost sku size_gb =
  Ok (tiers !! pretty (match first_size_at_least size_gb tier_sizes with
                       | Some s => s
                       | None => 1024%Z
                       end)).
Proof.
  intros Htiers.
  destruct (available_sizes_of_known sku tiers Htiers) as (Hne & Hsizes & _).
  unfold get_disk_monthly_cost.
  change (tiered_table "Microsoft.Compute/disks") with disk_prices.
  rewrite Htiers. simpl. destruct (decide (tiers = ∅)) as [|_]; [done|].
  destruct (ints_of_strs (map fst (map_to_list tiers))) as [parsed|]; [|done].
  simpl in *. by injection Hsizes as ->.
Qed.

(** On a size that is a number, the disk estimate never raises. *)
Lemma disk_cost_returns (sku : string) (size_gb : Q) :
  exists v, get_disk_monthly_cost sku size_gb = Ok v.
Proof.
  destruct (disk_prices !! sku) as [tiers|] eqn:Htiers.
  - eexists. by apply disk_cost_selected.
  - exists None. unfold get_disk_monthly_cost.
    change (tiered_table "Microsoft.Compute/disks") with disk_prices.
    rewrite Htiers. simpl. by rewrite decide_True.
Qed.

(** On a string and a number, the functions on values are the annotated
    ones. *)
Lemma disk_cost_any_typed (sku : string) (size_gb : Q) :
  get_disk_monthly_cost_any (VStr sku) (VNumber size_gb) =
  get_disk_monthly_cost sku size_gb.
Proof.
  unfold get_disk_monthly_cost_any, get_disk_monthly_cost. simpl.
  case_decide; [done|].
  by destruct (ints_of_strs _).
Qed.

Lemma estimate_any_typed (resource_type sku : string) (size_gb : Q)
    (region : option string) :
  estimate_resource_cost_any (VStr resource_type) (VStr sku) (VNumber size_gb) =
  estimate_resource_cost resource_type sku
    {| kw_size_gb := Some size_gb; kw_region := region |}.
Proof.
  unfold estimate_resource_cost_any, estimate_resource_cost.
  repeat case_decide; try done; try apply disk_cost_any_typed.
  unfold get_storage_account_monthly_cost_any, get_storage_account_monthly_cost.
  simpl. destruct (flat_table _ !! sku) as [price|]; [|done].
  by destruct (Qeq_bool price 0).
Qed.

(** No storage account of the table is free. *)
Lemma storage_price_not_zero (sku : string) (price : Q) :
  storage_prices !! sku = Some price -> Qeq_bool price 0 = false.
Proof.
  intros Hprice. apply elem_of_list_to_map_2 in Hprice.
  repeat (apply elem_of_cons in Hprice as [Hprice|Hprice];
          [injection Hprice as _ ->; by vm_compute|]).
  inversion Hprice.
Qed.

(** The estimate on values raises [TypeError] in the cases listed, and
    returns in all others. *)
Lemma estimate_any_outcome (resource_type sku size_gb : value) :
  if cannot_be_estimated resource_type sku size_gb
  then estimate_resource_cost_any resource_type sku size_gb = Raise TypeError
  else exists v, estimate_resource_cost_any resource_type sku size_gb = Ok v.
Proof.
  destruct resource_type as [|q|kind|items|entries]; simpl; eauto.
  destruct (decide (kind = "Microsoft.Compute/virtualMachines")) as [->|Hvm].
  { destruct sku; simpl; eauto. }
  destruct (decide (kind = "Microsoft.Compute/disks")) as [->|Hdisk].
  { destruct sku as [|q|s|items|entries]; simpl; eauto.
    unfold get_disk_monthly_cost_any. simpl.
    change (tiered_table "Microsoft.Compute/disks") with disk_prices.
    destruct (disk_prices !! s) as [tiers|] eqn:Htiers; simpl.
    - destruct (available_sizes_of_known s tiers Htiers) as (Hne & Hsizes & _).
      rewrite decide_False by done.
      destruct (ints_of_strs (map fst (map_to_list tiers))) as [parsed|]; [|done].
      destruct size_gb; simpl; eauto.
    - rewrite decide_True by done. eauto. }
  destruct (decide (kind = "Microsoft.Network/publicIPAddresses")) as [->|Hip].
  { destruct sku; simpl; eauto. }
  destruct (decide (kind = "Microsoft.Storage/storageAccounts")) as [->|Hstorage].
  { destruct sku as [|q|s|items|entries]; simpl; eauto.
    unfold get_storage_account_monthly_cost_any. simpl.
    change (flat_table "Microsoft.Storage/storageAccounts") with storage_prices.
    destruct (storage_prices !! s) as [price|] eqn:Hprice; simpl.
    - rewrite (storage_price_not_zero s price Hprice).
      destruct size_gb; simpl; eauto.
    - eauto. }
  rewrite (bool_decide_eq_false_2 (kind ∈ priced_types)).
  - rewrite !bool_decide_eq_false_2 by done. simpl. eauto.
  - unfold priced_types. intros Hin.
    repeat (apply elem_of_cons in Hin as [->|Hin]; [done|]).
    by apply elem_of_nil in Hin.
Qed.

(** One turn of the savings loop. *)
Lemma add_resource_cost_outcome (acc : Q) (r : wasteful_resource) :
  if cannot_be_priced r
  then add_resource_cost (Ok acc) r = Raise TypeError
  else exists acc',
         add_resource_cost (Ok acc) r = Ok acc' /\ acc' == acc + resource_cost r.
Proof.
  unfold cannot_be_priced, add_resource_cost, resource_cost. simpl.
  pose proof (estimate_any_outcome
                (default (VStr EmptyString) (res_type r))
                (default (VStr EmptyString) (res_sku r))
                (default (VNumber 128) (res_size_gb r))) as Hcost.
  destruct (cannot_be_estimated _ _ _).
  - by rewrite Hcost.
  - destruct Hcost as [v ->]. simpl. destruct v as [c|].
    + destruct (Qeq_bool c 0) eqn:Hc.
      * apply Qeq_bool_iff in Hc. exists acc. split; [done|]. rewrite Hc. ring.
      * eexists. split; [done|]. ring.
    + exists acc. split; [done|]. ring.
Qed.

Lemma savings_loop_raised (resources : list wasteful_resource) (e : exn) :
  fold_left add_resource_cost resources (Raise e) = Raise e.
Proof.
  by induction resources.
Qed.

(** The loop of the savings adds up the costs of the resources, and raises
    [TypeError] when one of them cannot be priced. *)
Lemma savings_loop (resources : list wasteful_resource) :
  forall acc : Q,
    (Forall (fun r => cannot_be_priced r = false) resources ->
     exists total,
       fold_left add_resource_cost resources (Ok acc) = Ok total /\
       total == acc + foldr Qplus 0 (map resource_cost resources)) /\
    (Exists (fun r => cannot_be_priced r = true) resources ->
     fold_left add_resource_cost resources (Ok acc) = Raise TypeError).
Proof.
  induction resources as [|r rs IH]; intros acc; cbn [fold_left map foldr].
  - split; [|by intros H; inversion H].
    intros _. exists acc. split; [done|ring].
  - pose proof (add_resource_cost_outcome acc r) as Hstep.
    destruct (cannot_be_priced r) eqn:Hr.
    + rewrite Hstep, savings_loop_raised. split; [|done].
      intros Hall. inversion Hall; congruence.
    + destruct Hstep as (acc' & -> & Hacc'). destruct (IH acc') as [Hok Hraise].
      split.
      * intros Hall. inversion Hall as [|? ? _ Hrs]; subst.
        destruct (Hok Hrs) as (total & -> & Htotal).
        exists total. split; [done|]. rewrite Htotal, Hacc'. ring.
      * intros Hex. inversion Hex as [? ? Hr'|? ? Hrs]; subst; [congruence|].
        by apply Hraise.
Qed.

End PricingRuns.

(** X17.  The savings of a list of resources fail exactly when one of the
    resources cannot be priced: its type has a table of prices and its SKU
    is a list or a dictionary, or it is a disk or a storage account with a
    SKU of the table and a size that is present and not a number (e.g.
    [None]); the call then raises [TypeError].  Otherwise it returns:
    resources without a price are skipped, the monthly figure is the sum of
    the estimated costs of the others, rounded to two decimals, and the
    annual figure is twelve times that sum, rounded to two decimals.  For a
    resource whose type and SKU are strings and whose size is a number, the
    cost is the estimate of [estimate_resource_cost]. *)
Theorem savings_potential_is_the_sum (resources : list wasteful_resource) :
  (Forall (fun r => cannot_be_priced r = false) resources ->
   exists s,
     calculate_savings_potential resources = Ok s /\
     monthly_savings s = round2 (sum (map resource_cost resources)) /\
     annual_savings s = round2 (sum (map resource_cost resources) * 12)) /\
  (Exists (fun r => cannot_be_priced r = true) resources ->
   calculate_savings_potential resources = Raise TypeError) /\
  (forall (resource_type sku : string) (size_gb : Q),
     cannot_be_priced (typed_entry resource_type sku size_gb) = false /\
     resource_cost (typed_entry resource_type sku size_gb) =
     match estimate_resource_cost resource_type sku
             {| kw_size_gb := Some size_gb; kw_region := None |} with
     | Ok (Some c) => c
     | _ => 0
     end).
Proof.
  unfold calculate_savings_potential.
  destruct (savings_loop resources 0) as [Hok Hraise].
  split; [|split].
  - intros Hall. destruct (Hok Hall) as (total & -> & Htotal).
    simpl. eexists. split; [reflexivity|]. simpl.
    assert (Hsum : total == sum (map resource_cost resources)).
    { unfold sum. rewrite fold_left_plus. exact Htotal. }
    split; apply round2_proper; [done|]. by rewrite Hsum.
  - intros Hex. by rewrite (Hraise Hex).
  - intros resource_type sku size_gb. split.
    + unfold cannot_be_priced, cannot_be_estimated. simpl.
      by rewrite !andb_false_r.
    + change (resource_cost (typed_entry resource_type sku size_gb))
        with (match estimate_resource_cost_any
                      (VStr resource_type) (VStr sku) (VNumber size_gb) with
              | Ok (Some c) => c
              | _ => 0
              end).
      by rewrite (estimate_any_typed resource_type sku size_gb None).
Qed.

Lemma savings_potential_is_the_sum_witness :
  (exists s,
     calculate_savings_potential
       [idle_disk "Premium_LRS" 200; unknown_resource; idle_disk "Standard_LRS" 10]
       = Ok s /\
     monthly_savings s =
       round2 (sum (map resource_cost
                        [idle_disk "Premium_LRS" 200; unknown_resource;
                         idle_disk "Standard_LRS" 10])) /\
     annual_savings s =
       round2 (sum (map resource_cost
                        [idle_disk "Premium_LRS" 200; unknown_resource;
                         idle_disk "Standard_LRS" 10]) * 12)) /\
  calculate_savings_potential [idle_disk "Premium_LRS" 200; unsized_disk]
    = Raise TypeError.
Proof.
  split.
  - apply (proj1 (savings_potential_is_the_sum
                    [idle_disk "Premium_LRS" 200; unknown_resource;
                     idle_disk "Standard_LRS" 10])).
    repeat constructor.
  - apply (proj1 (proj2 (savings_potential_is_the_sum
                           [idle_disk "Premium_LRS" 200; unsized_disk]))).
    right. left. reflexivity.
Defined.

Example savings_skip_unknown :
  calculate_savings_potential
    [idle_disk "Premium_LRS" 200; unknown_resource; idle_disk "Standard_LRS" 10]
  = Ok {| monthly_savings := 40.96; annual_savings := 491.52 |}.
Proof. by vm_compute. Qed.

Section DiskMonotone.

Ltac order_facts :=
  repeat match goal with
         | H : Qle_bool _ _ = true |- _ => apply Qle_bool_iff in H
         | H : Qle_bool _ _ = false |- _ => apply Qle_bool_false in H
         end.

(** On the tiers of the table, a larger request never selects a cheaper
    tier. *)
Lemma tier_prices_ascend (tiers : gmap string Q) (sku : string) (s1 s2 : Q) :
  disk_prices !! sku = Some tiers -> s1 <= s2 ->
  exists p1 p2,
    tiers !! pretty (match first_size_at_least s1 tier_sizes with
                     | Some s => s | None => 1024%Z end) = Some p1 /\
    tiers !! pretty (match first_size_at_least s2 tier_sizes with
                     | Some s => s | None => 1024%Z end) = Some p2 /\
    p1 <= p2.
Proof.
  intros Htiers Hle. apply elem_of_list_to_map_2 in Htiers.
  unfold tier_sizes.
  apply elem_of_cons in Htiers as [Htiers|Htiers];
    [|apply elem_of_cons in Htiers as [Htiers|Htiers]; [|inversion Htiers]];
    injection Htiers as _ ->; cbn [first_size_at_least];
    repeat match goal with
           | |- context [match (if Qle_bool ?a ?b then _ else _) with _ => _ end] =>
               destruct (Qle_bool a b) eqn:?
           end;
    order_facts; unfold inject_Z in *;
    first [ exfalso; lra
          | eexists; eexists; split; [by vm_compute|]; split; [by vm_compute|];
            by vm_compute ].
Qed.

End DiskMonotone.

(** X18.  For a disk SKU of the table the estimate grows with the requested
    size: a larger disk is never estimated cheaper than a smaller one. *)
Theorem disk_cost_is_monotone (sku : string) (s1 s2 : Q) :
  known_disk_sku sku -> s1 <= s2 ->
  exists p1 p2,
    get_disk_monthly_cost sku s1 = Ok (Some p1) /\
    get_disk_monthly_cost sku s2 = Ok (Some p2) /\
    p1 <= p2.
Proof.
  intros [tiers Htiers] Hle.
  change (tiered_table "Microsoft.Compute/disks") with disk_prices in Htiers.
  destruct (tier_prices_ascend tiers sku s1 s2 Htiers Hle) as (p1 & p2 & H1 & H2 & Hp).
  exists p1, p2.
  rewrite !(disk_cost_selected sku tiers) by done.
  by rewrite H1, H2.
Qed.

Lemma disk_cost_is_monotone_witness :
  exists p1 p2,
    get_disk_monthly_cost "Standard_LRS" 100 = Ok (Some p1) /\
    get_disk_monthly_cost "Standard_LRS" 300 = Ok (Some p2) /\
    p1 <= p2.
Proof.
  apply (disk_cost_is_monotone "Standard_LRS" 100 300).
  - vm_compute. eauto.
  - by vm_compute.
Defined.

(** ** Budget validation *)

Section BudgetFacts.

Import BudgetValidator.

Context (region : string).

(** Runs the binds of the error monad whose first computation is known. *)
Ltac binds := cbv [mbind result_bind bind].

(** One turn of the pricing loop: the resource adds its cost to the total,
    at most one entry to the breakdown and at most one warning, about a
    premium SKU; or it raises. *)
Lemma price_resource_step (cb : list breakdown_entry) (total : Q)
    (ws : list budget_warning) (r : value) :
  match arm_outcome r with
  | Ok c =>
      exists cb' total' ws',
        price_resource region (Ok (cb, total, ws)) r =
          Ok (cb ++ cb', total', ws ++ ws') /\
        total' == total + c /\
        (length cb' <= 1)%nat /\ Forall is_premium_warning ws'
  | Raise e => price_resource region (Ok (cb, total, ws)) r = Raise e
  end.
Proof.
  unfold price_resource, arm_outcome. binds.
  destruct (value_get r "type" (VStr EmptyString)) as [resource_type|]; [|done].
  destruct (value_get r "name" (VStr "Unknown")) as [resource_name|]; [|done].
  destruct (_extract_sku_info r) as [[info|]|]; [| |done].
  - destruct (estimate_resource_cost_any resource_type (sku info)
                (default (VNumber 128) (size_gb info))) as [[c|]|]; [| |done].
    + destruct (Qeq_bool c 0) eqn:Hc.
      * exists [], total, []. rewrite !app_nil_r.
        split; [done|split; [ring|split; [simpl; lia|constructor]]].
      * destruct (str_in_value "Premium" (sku info)) as [premium|]; [|done].
        destruct (premium && negb (Qle_bool c 50))%bool.
        -- eexists [_], _, [_].
           split; [reflexivity|split; [ring|split; [simpl; lia|]]].
           by repeat constructor.
        -- eexists [_], _, []. rewrite app_nil_r.
           split; [reflexivity|split; [ring|split; [simpl; lia|constructor]]].
    + exists [], total, []. rewrite !app_nil_r.
      split; [done|split; [ring|split; [simpl; lia|constructor]]].
  - exists [], total, []. rewrite !app_nil_r.
    split; [done|split; [ring|split; [simpl; lia|constructor]]].
Qed.

Lemma pricing_loop_raised (rs : list value) (e : exn) :
  fold_left (price_resource region) rs (Raise e) = Raise e.
Proof.
  by induction rs.
Qed.

Lemma pricing_loop (rs : list value) :
  forall (cb : list breakdown_entry) (total : Q) (ws : list budget_warning),
    Forall (fun r => exists c, arm_outcome r = Ok c) rs ->
    exists cb' total' ws',
      fold_left (price_resource region) rs (Ok (cb, total, ws)) =
      Ok (cb ++ cb', total', ws ++ ws') /\
      total' == total + foldr Qplus 0 (map (arm_cost region) rs) /\
      (length cb' <= length rs)%nat /\ Forall is_premium_warning ws'.
Proof.
  induction rs as [|r rs IH]; intros cb total ws Hall; cbn [fold_left map foldr].
  - exists [], total, []. rewrite !app_nil_r.
    split; [done|split; [ring|split; [simpl; lia|constructor]]].
  - inversion Hall as [|? ? [c Hr] Hrs]; subst.
    pose proof (price_resource_step cb total ws r) as Hstep.
    assert (Hcost : arm_cost region r = c) by (unfold arm_cost; by rewrite Hr).
    rewrite Hr in Hstep. rewrite Hcost.
    destruct Hstep as (cb1 & total1 & ws1 & -> & Ht1 & Hl1 & Hw1).
    destruct (IH (cb ++ cb1) total1 (ws ++ ws1) Hrs)
      as (cb2 & total2 & ws2 & -> & Ht2 & Hl2 & Hw2).
    exists (cb1 ++ cb2), total2, (ws1 ++ ws2). rewrite !app_assoc.
    split; [done|split; [|split]].
    + rewrite Ht2, Ht1. ring.
    + rewrite length_app. simpl. lia.
    + by apply Forall_app.
Qed.

Lemma pricing_loop_fails (rs : list value) (e : exn) :
  forall (cb : list breakdown_entry) (total : Q) (ws : list budget_warning),
    first_failure rs e ->
    fold_left (price_resource region) rs (Ok (cb, total, ws)) = Raise e.
Proof.
  intros cb total ws (before & r & after & -> & Hbefore & Hr).
  rewrite fold_left_app.
  destruct (pricing_loop before cb total ws Hbefore) as (cb' & total' & ws' & -> & _).
  cbn [fold_left].
  pose proof (price_resource_step (cb ++ cb') total' (ws ++ ws') r) as Hstep.
  rewrite Hr in Hstep. rewrite Hstep. apply pricing_loop_raised.
Qed.

(** Either every resource can be priced, or there is a first one that
    raises. *)
Lemma outcomes_cases (rs : list value) :
  Forall (fun r => exists c, arm_outcome r = Ok c) rs \/
  exists e, first_failure rs e.
Proof.
  induction rs as [|r rs IH]; [by left|].
  destruct (arm_outcome r) as [c|e] eqn:Hr.
  - destruct IH as [Hall|(e & before & r' & after & -> & Hbefore & Hr')].
    + left. constructor; eauto.
    + right. exists e, (r :: before), r', after.
      split; [done|]. split; [constructor; eauto|done].
  - right. exists e, [], r, rs. by repeat split.
Qed.

(** What the [try] block does, by the shape of the template. *)
Lemma validate_shape (t : value) (limit : option Q) :
  match template_error t with
  | Some e => validate t limit region = Raise e
  | None =>
      (without_resources t /\
       validate t limit region =
       Ok (NoResources {| nr_error := "No resources found in template";
                          nr_estimated_monthly_cost := 0;
                          nr_estimated_annual_cost := 0 |})) \/
      (~ without_resources t /\ listed_resources t <> [] /\
       validate t limit region =
       validate (VDict [("resources"%string, VList (listed_resources t))])
                limit region)
  end.
Proof.
  unfold validate, without_resources, listed_resources.
  destruct t as [|q|s|items|entries]; try done.
  cbn [template_error value_get at_key is_dict]. binds.
  destruct (entry_of entries "resources") as [resources|] eqn:Hres;
    cbn [default from_option id falsy]; [|left; by repeat split].
  destruct resources as [|q|s|items|rentries]; cbn [value_truthy negb value_iter].
  - left. by repeat split.
  - destruct (Qeq_bool q 0); cbn [negb]; [left; by repeat split|done].
  - destruct (decide (s = EmptyString)) as [->|Hs]; cbn [negb];
      [left; by repeat split|].
    right. split; [by intros [_ ?]|].
    destruct s as [|c s]; [done|]. split; [done|].
    cbn [entry_of]. rewrite decide_True by done.
    cbn [default from_option id value_truthy negb value_iter]. binds.
    rewrite ?decide_False by done.
    by cbn [String.list_ascii_of_string map negb].
  - destruct items as [|r rs]; cbn [negb]; [left; by repeat split|].
    right. split; [by intros [_ ?]|]. split; [done|].
    cbn [entry_of]. rewrite decide_True by done. done.
  - destruct rentries as [|kv rest]; cbn [negb]; [left; by repeat split|].
    right. split; [by intros [_ ?]|]. split; [done|].
    cbn [entry_of]. rewrite decide_True by done. done.
Qed.

(** The validation of a list of resources that can all be priced. *)
Lemma validate_listed (r : value) (rs : list value) (limit : option Q) :
  Forall (fun r => exists c, arm_outcome r = Ok c) (r :: rs) ->
  exists cb total ws,
    total == sum (map (arm_cost region) (r :: rs)) /\
    (length cb <= length (r :: rs))%nat /\ Forall is_premium_warning ws /\
    validate (VDict [("resources"%string, VList (r :: rs))]) limit region =
    Ok (Validated
          {| estimated_monthly_cost := round2 total;
             estimated_annual_cost := round2 (total * 12);
             budget_limit := limit;
             within_budget :=
               match limit with
               | Some l => Qle_bool total l
               | None => true
               end;
             cost_breakdown := cb;
             warnings :=
               match limit with
               | Some l =>
                   if Qle_bool total l then ws else BudgetExceeded total l :: ws
               | None => ws
               end;
             BudgetValidator.region := region;
             resources_analyzed := length (r :: rs);
             resources_priced := length cb |}).
Proof.
  intros Hall.
  destruct (pricing_loop (r :: rs) [] 0 [] Hall)
    as (cb & total & ws & Hfold & Htotal & Hlen & Hws).
  exists cb, total, ws.
  split; [unfold sum; rewrite fold_left_plus; exact Htotal|].
  split; [done|]. split; [done|].
  unfold validate.
  cbn [value_get entry_of]. rewrite decide_True by done. binds.
  cbn [default from_option id value_truthy negb value_iter].
  cbn [app] in Hfold. rewrite Hfold.
  destruct limit as [l|]; [|done].
  by destruct (Qle_bool total l).
Qed.

End BudgetFacts.

(** X19.  Validating a template always gives one of three answers.  A
    template that is not a dictionary, or whose resources are a number,
    gets the error answer of the exception ([AttributeError],
    [TypeError]).  A template whose resources are absent or false gets the
    "no resources" answer, which has the key "error" as well and two zero
    costs.  Otherwise the resources are gone through in order: when pricing
    one of them raises, the answer is the error answer of the first
    exception; when none raises, the monthly estimate is the sum of the
    estimates of the resources that have a price, rounded to two decimals,
    and the annual estimate twelve times that sum, rounded; resources
    without a price only count as analysed; the deployment is within budget
    exactly when no limit is given or the unrounded sum does not exceed the
    limit. *)
Theorem budget_validation_verdict (t : value) (limit : option Q) (region : string) :
  match BudgetValidator.validate_deployment_budget_body t limit region with
  | BudgetValidator.NoResources answer =>
      template_error t = None /\ without_resources t /\
      answer =
        {| BudgetValidator.nr_error := "No resources found in template";
           BudgetValidator.nr_estimated_monthly_cost := 0;
           BudgetValidator.nr_estimated_annual_cost := 0 |}
  | BudgetValidator.Failed info =>
      exists e,
        info = handle_azure_error e /\
        (template_error t = Some e \/
         (template_error t = None /\ ~ without_resources t /\
          first_failure (listed_resources t) e))
  | BudgetValidator.Validated v =>
      template_error t = None /\ ~ without_resources t /\
      listed_resources t <> [] /\
      Forall (fun r => exists c, arm_outcome r = Ok c) (listed_resources t) /\
      BudgetValidator.estimated_monthly_cost v = round2 (template_cost region t) /\
      BudgetValidator.estimated_annual_cost v = round2 (template_cost region t * 12) /\
      (BudgetValidator.within_budget v = true <->
       forall l, limit = Some l -> template_cost region t <= l) /\
      BudgetValidator.resources_analyzed v = length (listed_resources t) /\
      BudgetValidator.resources_priced v =
        length (BudgetValidator.cost_breakdown v) /\
      (BudgetValidator.resources_priced v <= BudgetValidator.resources_analyzed v)%nat
  end.
Proof.
  unfold BudgetValidator.validate_deployment_budget_body, template_cost.
  pose proof (validate_shape region t limit) as Hshape.
  destruct (template_error t) as [e|].
  { rewrite Hshape. exists e. split; [done|by left]. }
  destruct Hshape as [[Hnone ->]|(Hsome & Hne & ->)]; [done|].
  destruct (listed_resources t) as [|r rs] eqn:Hrs; [done|].
  destruct (outcomes_cases (r :: rs)) as [Hall|[e Hfail]].
  - destruct (validate_listed region r rs limit Hall)
      as (cb & total & ws & Hsum & Hlen & Hws & ->).
    cbn [BudgetValidator.estimated_monthly_cost BudgetValidator.estimated_annual_cost
         BudgetValidator.within_budget BudgetValidator.resources_analyzed
         BudgetValidator.resources_priced BudgetValidator.cost_breakdown].
    split; [done|]. split; [done|]. split; [done|]. split; [done|].
    split; [by apply round2_proper|].
    split; [apply round2_proper; by rewrite Hsum|].
    split; [|split; [done|split; [done|exact Hlen]]].
    destruct limit as [l|]; [|by split].
    destruct (Qle_bool total l) eqn:Hle.
    + apply Qle_bool_iff in Hle. split; [|done].
      intros _ l' [= <-]. by rewrite <- Hsum.
    + apply Qle_bool_false in Hle. split; [done|].
      intros Hlim. specialize (Hlim l eq_refl). rewrite <- Hsum in Hlim.
      exfalso. exact (Qlt_irrefl _ (Qlt_le_trans _ _ _ Hle Hlim)).
  - unfold BudgetValidator.validate.
    cbn [value_get entry_of]. rewrite decide_True by done.
    cbv [mbind result_bind bind].
    cbn [default from_option id value_truthy negb value_iter].
    rewrite (pricing_loop_fails region (r :: rs) e [] 0 [] Hfail).
    exists e. split; [done|]. right. by repeat split.
Qed.

Example small_template_validation :
  match BudgetValidator.validate_deployment_budget_body small_template (Some 150)
          "eastus" with
  | BudgetValidator.Validated v =>
      (BudgetValidator.estimated_monthly_cost v,
       BudgetValidator.within_budget v,
       BudgetValidator.resources_analyzed v,
       BudgetValidator.resources_priced v,
       BudgetValidator.warnings v) =
      (175.21, false, 3%nat, 2%nat,
       [BudgetValidator.BudgetExceeded (0 + 96.36 + 78.85) 150;
        BudgetValidator.PremiumSku (VStr "data") 78.85])
  | _ => False
  end.
Proof. by vm_compute. Qed.

(** A disk that takes its size from a parameter of the template makes the
    validation end in the error answer of a [TypeError]; a template without
    resources gets an answer that has the key "error" too. *)
Example parameterised_size_fails :
  BudgetValidator.validate_deployment_budget_body parameterised_template None "eastus"
    = BudgetValidator.Failed (handle_azure_error TypeError) /\
  BudgetValidator.validate_deployment_budget_body (VDict []) None "eastus"
    = BudgetValidator.NoResources
        {| BudgetValidator.nr_error := "No resources found in template";
           BudgetValidator.nr_estimated_monthly_cost := 0;
           BudgetValidator.nr_estimated_annual_cost := 0 |}.
Proof. split; by vm_compute. Qed.

(** X20.  When the estimate exceeds the limit, the first warning is the
    "budget exceeded" warning with the unrounded total and the limit, and
    the rounded estimate is not below the rounded limit.  When the
    deployment is within budget there is no such warning, and the rounded
    estimate is not above the rounded limit.  All other warnings are about
    premium SKUs. *)
Theorem budget_warnings (t : value) (limit : option Q)
    (region : string) (v : BudgetValidator.validation) :
  BudgetValidator.validate_deployment_budget_body t limit region
    = BudgetValidator.Validated v ->
  (BudgetValidator.within_budget v = true ->
   Forall is_premium_warning (BudgetValidator.warnings v) /\
   forall l, limit = Some l ->
             BudgetValidator.estimated_monthly_cost v <= round2 l) /\
  (BudgetValidator.within_budget v = false ->
   exists total l rest,
     limit = Some l /\ l < total /\ total == template_cost region t /\
     BudgetValidator.warnings v = BudgetValidator.BudgetExceeded total l :: rest /\
     Forall is_premium_warning rest /\
     round2 l <= BudgetValidator.estimated_monthly_cost v).
Proof.
  unfold BudgetValidator.validate_deployment_budget_body, template_cost.
  pose proof (validate_shape region t limit) as Hshape.
  destruct (template_error t) as [e|]; [by rewrite Hshape|].
  destruct Hshape as [[Hnone ->]|(Hsome & Hne & ->)]; [done|].
  destruct (listed_resources t) as [|r rs] eqn:Hrs; [done|].
  destruct (outcomes_cases (r :: rs)) as [Hall|[e Hfail]].
  - destruct (validate_listed region r rs limit Hall)
      as (cb & total & ws & Hsum & Hlen & Hws & ->).
    intros [= <-].
    cbn [BudgetValidator.estimated_monthly_cost BudgetValidator.within_budget
         BudgetValidator.warnings].
    destruct limit as [l|].
    + destruct (Qle_bool total l) eqn:Hle.
      * split; [|discriminate].
        intros _. apply Qle_bool_iff in Hle. split; [done|].
        intros l' [= <-]. by apply round2_mono.
      * split; [discriminate|].
        intros _. apply Qle_bool_false in Hle. exists total, l, ws.
        split; [done|]. split; [done|]. split; [done|]. split; [done|].
        split; [done|]. apply round2_mono. by apply Qlt_le_weak.
    + split; [|discriminate]. intros _. split; [done|]. discriminate.
  - unfold BudgetValidator.validate.
    cbn [value_get entry_of]. rewrite decide_True by done.
    cbv [mbind result_bind bind].
    cbn [default from_option id value_truthy negb value_iter].
    by rewrite (pricing_loop_fails region (r :: rs) e [] 0 [] Hfail).
Qed.

Lemma budget_warnings_witness :
  exists total l rest,
    Some 150 = Some l /\ l < total /\ total == template_cost "eastus" small_template /\
    [BudgetValidator.BudgetExceeded (0 + 96.36 + 78.85) 150;
     BudgetValidator.PremiumSku (VStr "data") 78.85]
      = BudgetValidator.BudgetExceeded total l :: rest /\
    Forall is_premium_warning rest /\
    round2 l <= 175.21.
Proof.
  exact (proj2 (budget_warnings small_template (Some 150) "eastus" _ eq_refl) eq_refl).
Defined.

Section SkuFacts.

Import BudgetValidator.

Lemma result_bind_ok {A B : Type} (x : A) (k : A -> result B) :
  (Ok x ≫= k) = k x.
Proof.
  done.
Qed.

Lemma public_ip_price (s : string) :
  default 3.65 (public_ip_prices !! s) = 3.65.
Proof.
  destruct (public_ip_prices !! s) as [c|] eqn:Hc; [|done]. simpl.
  apply elem_of_list_to_map_2 in Hc.
  repeat (apply elem_of_cons in Hc as [Hc|Hc]; [by injection Hc as _ ->|]).
  inversion Hc.
Qed.

Lemma estimate_public_ip (name size : value) :
  estimate_resource_cost_any (VStr "Microsoft.Network/publicIPAddresses") name size =
  if unhashable name then Raise TypeError else Ok (Some 3.65).
Proof.
  unfold estimate_resource_cost_any.
  rewrite decide_False by done. rewrite decide_False by done.
  rewrite decide_True by done.
  unfold get_public_ip_monthly_cost_any.
  change (flat_table "Microsoft.Network/publicIPAddresses") with public_ip_prices.
  destruct name as [|q|s|items|entries]; try done.
  simpl. by rewrite public_ip_price.
Qed.

(** Reading a resource that is a dictionary. *)
Ltac read_entries :=
  unfold _extract_sku_info, arm_outcome, vm_size_of, disk_size_of, sku_name_of,
    hardware_profile_of in *;
  cbn [at_key value_get] in *;
  rewrite ?result_bind_ok.

Ltac open_entry entries key :=
  let v := fresh "v" in
  destruct (entry_of entries key) as [v|];
  [destruct v as [| | | |?]|];
  cbn [default from_option id mbind option_bind at_key value_get dict_if_present
       is_dict falsy value_truthy negb] in *;
  rewrite ?result_bind_ok;
  try done.

(** The outcome of a resource, from what the reader gets out of it. *)
Lemma arm_outcome_read (r kind : value) (info : option sku_info) :
  is_dict r = true ->
  default (VStr EmptyString) (at_key r "type") = kind ->
  _extract_sku_info r = Ok info ->
  arm_outcome r =
  match info with
  | Some info =>
      estimated_cost ←
        estimate_resource_cost_any kind (sku info)
          (default (VNumber 128) (size_gb info));
      match estimated_cost with
      | Some c =>
          if Qeq_bool c 0 then Ok 0
          else premium ← str_in_value "Premium" (sku info); Ok c
      | None => Ok 0
      end
  | None => Ok 0
  end.
Proof.
  intros Hdict Hkind Hext. destruct r as [| | | |entries]; try done.
  unfold arm_outcome. rewrite Hext. cbn [value_get at_key] in *.
  rewrite !result_bind_ok. by rewrite Hkind.
Qed.

Lemma arm_outcome_raised (r : value) (e : exn) :
  is_dict r = true -> _extract_sku_info r = Raise e -> arm_outcome r = Raise e.
Proof.
  intros Hdict Hext. destruct r as [| | | |entries]; try done.
  unfold arm_outcome. rewrite Hext. cbn [value_get]. by rewrite !result_bind_ok.
Qed.

Lemma read_public_ip (r : value) :
  is_dict r = true ->
  default (VStr EmptyString) (at_key r "type") =
    VStr "Microsoft.Network/publicIPAddresses" ->
  dict_if_present (at_key r "sku") = true ->
  _extract_sku_info r =
    Ok (Some {| sku := default (VStr "Standard") (sku_name_of r);
                size_gb := None |}).
Proof.
  intros Hdict Hkind Hsku. destruct r as [| | | |entries]; try done.
  read_entries. rewrite Hkind.
  rewrite decide_False by done. rewrite decide_False by done.
  rewrite decide_True by done.
  by open_entry entries "sku".
Qed.

Lemma public_ip_outcome (r : value) :
  is_dict r = true ->
  default (VStr EmptyString) (at_key r "type") =
    VStr "Microsoft.Network/publicIPAddresses" ->
  dict_if_present (at_key r "sku") = true ->
  arm_outcome r =
    if is_string (default (VStr "Standard") (sku_name_of r))
    then Ok 3.65 else Raise TypeError.
Proof.
  intros Hdict Hkind Hsku.
  rewrite (arm_outcome_read r _ _ Hdict Hkind (read_public_ip r Hdict Hkind Hsku)).
  cbn [sku size_gb]. rewrite estimate_public_ip.
  by destruct (default (VStr "Standard") (sku_name_of r)).
Qed.

Lemma read_other (r : value) :
  is_dict r = true ->
  (forall k, default (VStr EmptyString) (at_key r "type") = VStr k ->
             k ∉ priced_types) ->
  _extract_sku_info r = Ok None.
Proof.
  intros Hdict Hkind. destruct r as [| | | |entries]; try done.
  read_entries.
  destruct (default (VStr EmptyString) (entry_of entries "type"))
    as [| |k| |]; try done.
  specialize (Hkind k eq_refl). unfold priced_types in Hkind.
  rewrite !decide_False; [done|..]; intros ->; apply Hkind;
    apply list_elem_of_In; simpl; tauto.
Qed.

Lemma read_vm (r : value) :
  is_dict r = true ->
  default (VStr EmptyString) (at_key r "type") =
    VStr "Microsoft.Compute/virtualMachines" ->
  dict_if_present (at_key r "properties") = true ->
  dict_if_present (hardware_profile_of r) = true ->
  _extract_sku_info r =
    Ok (if falsy (vm_size_of r) then None
        else Some {| sku := default VNone (vm_size_of r); size_gb := None |}).
Proof.
  intros Hdict Hkind Hproperties Hprofile. destruct r as [| | | |entries]; try done.
  read_entries. rewrite Hkind. rewrite decide_True by done.
  open_entry entries "properties";
    repeat match goal with
           | |- context [entry_of ?properties "hardwareProfile"] =>
               open_entry properties "hardwareProfile"
           end;
    repeat match goal with
           | |- context [entry_of ?profile "vmSize"] =>
               destruct (entry_of profile "vmSize") as [vm_size|];
               cbn [default from_option id falsy value_truthy negb]
           end;
    try done; by destruct (value_truthy vm_size).
Qed.

Lemma read_disk (r : value) :
  is_dict r = true ->
  default (VStr EmptyString) (at_key r "type") = VStr "Microsoft.Compute/disks" ->
  dict_if_present (at_key r "sku") = true ->
  dict_if_present (at_key r "properties") = true ->
  _extract_sku_info r =
    Ok (if falsy (sku_name_of r) then None
        else Some {| sku := default VNone (sku_name_of r);
                     size_gb := Some (default (VNumber 128) (disk_size_of r)) |}).
Proof.
  intros Hdict Hkind Hsku Hproperties. destruct r as [| | | |entries]; try done.
  read_entries. rewrite Hkind.
  rewrite decide_False by done. rewrite decide_True by done.
  open_entry entries "sku"; open_entry entries "properties";
    repeat match goal with
           | |- context [entry_of ?e "name"] =>
               destruct (entry_of e "name") as [name|];
               cbn [default from_option id falsy value_truthy negb]
           end;
    try done; by destruct (value_truthy name).
Qed.

Lemma read_storage (r : value) :
  is_dict r = true ->
  default (VStr EmptyString) (at_key r "type") =
    VStr "Microsoft.Storage/storageAccounts" ->
  dict_if_present (at_key r "sku") = true ->
  _extract_sku_info r =
    Ok (if falsy (sku_name_of r) then None
        else Some {| sku := default VNone (sku_name_of r);
                     size_gb := Some (VNumber 100) |}).
Proof.
  intros Hdict Hkind Hsku. destruct r as [| | | |entries]; try done.
  read_entries. rewrite Hkind.
  rewrite decide_False by done. rewrite decide_False by done.
  rewrite decide_False by done. rewrite decide_True by done.
  open_entry entries "sku";
    repeat match goal with
           | |- context [entry_of ?e "name"] =>
               destruct (entry_of e "name") as [name|];
               cbn [default from_option id falsy value_truthy negb]
           end;
    try done; by destruct (value_truthy name).
Qed.

(** A [sku] that is there and is not a dictionary cannot be read. *)
Lemma read_sku_fails (r : value) (kind : string) :
  is_dict r = true ->
  default (VStr EmptyString) (at_key r "type") = VStr kind ->
  kind = "Microsoft.Compute/disks"%string \/
  kind = "Microsoft.Network/publicIPAddresses"%string \/
  kind = "Microsoft.Storage/storageAccounts"%string ->
  dict_if_present (at_key r "sku") = false ->
  _extract_sku_info r = Raise AttributeError.
Proof.
  intros Hdict Hkind Hkinds Hsku. destruct r as [| | | |entries]; try done.
  read_entries. rewrite Hkind.
  destruct Hkinds as [->|[->| ->]];
    rewrite ?decide_False by done; rewrite decide_True by done;
    by open_entry entries "sku".
Qed.

(** A disk with a SKU of the table and a size that is not a number cannot
    be priced. *)
Lemma disk_size_fails (r : value) (s : string) (size : value) :
  is_dict r = true ->
  default (VStr EmptyString) (at_key r "type") = VStr "Microsoft.Compute/disks" ->
  sku_name_of r = Some (VStr s) -> known_disk_sku s ->
  disk_size_of r = Some size -> is_number size = false ->
  arm_outcome r = Raise TypeError.
Proof.
  intros Hdict Hkind Hname Hknown Hsize Hnumber.
  assert (Hsku : dict_if_present (at_key r "sku") = true).
  { unfold sku_name_of in Hname. destruct (at_key r "sku") as [[| | | |?]|]; done. }
  assert (Hproperties : dict_if_present (at_key r "properties") = true).
  { unfold disk_size_of in Hsize.
    destruct (at_key r "properties") as [[| | | |?]|]; done. }
  rewrite (arm_outcome_read r _ _ Hdict Hkind (read_disk r Hdict Hkind Hsku Hproperties)).
  rewrite Hname, Hsize. cbn [falsy value_truthy negb default from_option id sku size_gb].
  destruct (decide (s = EmptyString)) as [->|Hs].
  { by destruct Hknown. }
  cbn [negb sku size_gb default from_option id].
  pose proof (estimate_any_outcome (VStr "Microsoft.Compute/disks") (VStr s) size)
    as Hout.
  assert (Hcannot : cannot_be_estimated (VStr "Microsoft.Compute/disks") (VStr s) size
                    = true).
  { unfold cannot_be_estimated, sku_in_table. rewrite Hnumber.
    rewrite (bool_decide_eq_true_2 ("Microsoft.Compute/disks"%string = _)) by done.
    rewrite (bool_decide_eq_true_2 (is_Some _)) by done.
    by rewrite orb_true_r. }
  rewrite Hcannot in Hout. by rewrite Hout.
Qed.

End SkuFacts.

(** X21.  What the validator reads from a resource of a template, by its
    type.  A resource that is not a dictionary raises [AttributeError].
    For a dictionary:
    - a public IP address always has a SKU, the name of its [sku] or
      "Standard" when there is none, and costs 3.65 when that name is a
      string; a name that is not a string raises [TypeError];
    - a resource of a type without a table of prices has no SKU and costs
      nothing;
    - a virtual machine has a SKU only if [properties.hardwareProfile.vmSize]
      is there and true, and that is its SKU;
    - a disk has a SKU only if [sku.name] is there and true; its size is
      [properties.diskSizeGB], 128 when absent;
    - a storage account has a SKU only if [sku.name] is there and true; its
      size is 100;
    - for a disk, a public IP address or a storage account, a [sku] that is
      there and is not a dictionary raises [AttributeError];
    - a disk with a SKU of the table and a size that is there and is not a
      number raises [TypeError]. *)
Theorem sku_is_read_by_type (r : value) (region : string) :
  let kind := default (VStr EmptyString) (at_key r "type") in
  (is_dict r = false -> arm_outcome r = Raise AttributeError) /\
  (is_dict r = true ->
   kind = VStr "Microsoft.Network/publicIPAddresses" ->
   dict_if_present (at_key r "sku") = true ->
   BudgetValidator._extract_sku_info r =
     Ok (Some {| BudgetValidator.sku := default (VStr "Standard") (sku_name_of r);
                 BudgetValidator.size_gb := None |}) /\
   (is_string (default (VStr "Standard") (sku_name_of r)) = true ->
    arm_outcome r = Ok 3.65 /\ arm_cost region r = 3.65) /\
   (is_string (default (VStr "Standard") (sku_name_of r)) = false ->
    arm_outcome r = Raise TypeError)) /\
  (is_dict r = true ->
   (forall k, kind = VStr k -> k ∉ priced_types) ->
   BudgetValidator._extract_sku_info r = Ok None /\
   arm_outcome r = Ok 0 /\ arm_cost region r = 0) /\
  (is_dict r = true ->
   kind = VStr "Microsoft.Compute/virtualMachines" ->
   dict_if_present (at_key r "properties") = true ->
   dict_if_present (hardware_profile_of r) = true ->
   (falsy (vm_size_of r) = true -> BudgetValidator._extract_sku_info r = Ok None) /\
   (forall vm_size, vm_size_of r = Some vm_size -> value_truthy vm_size = true ->
      BudgetValidator._extract_sku_info r =
      Ok (Some {| BudgetValidator.sku := vm_size;
                  BudgetValidator.size_gb := None |}))) /\
  (is_dict r = true ->
   kind = VStr "Microsoft.Compute/disks" ->
   dict_if_present (at_key r "sku") = true ->
   dict_if_present (at_key r "properties") = true ->
   (falsy (sku_name_of r) = true -> BudgetValidator._extract_sku_info r = Ok None) /\
   (forall name, sku_name_of r = Some name -> value_truthy name = true ->
      BudgetValidator._extract_sku_info r =
      Ok (Some {| BudgetValidator.sku := name;
                  BudgetValidator.size_gb :=
                    Some (default (VNumber 128) (disk_size_of r)) |}))) /\
  (is_dict r = true ->
   kind = VStr "Microsoft.Storage/storageAccounts" ->
   dict_if_present (at_key r "sku") = true ->
   (falsy (sku_name_of r) = true -> BudgetValidator._extract_sku_info r = Ok None) /\
   (forall name, sku_name_of r = Some name -> value_truthy name = true ->
      BudgetValidator._extract_sku_info r =
      Ok (Some {| BudgetValidator.sku := name;
                  BudgetValidator.size_gb := Some (VNumber 100) |}))) /\
  (is_dict r = true ->
   kind = VStr "Microsoft.Compute/disks" \/
   kind = VStr "Microsoft.Network/publicIPAddresses" \/
   kind = VStr "Microsoft.Storage/storageAccounts" ->
   dict_if_present (at_key r "sku") = false ->
   BudgetValidator._extract_sku_info r = Raise AttributeError /\
   arm_outcome r = Raise AttributeError) /\
  (is_dict r = true ->
   kind = VStr "Microsoft.Compute/disks" ->
   forall (s : string) (size : value),
     sku_name_of r = Some (VStr s) -> known_disk_sku s ->
     disk_size_of r = Some size -> is_number size = false ->
     arm_outcome r = Raise TypeError).
Proof.
  intros kind. subst kind.
  split; [by destruct r|].
  split.
  { intros Hdict Hkind Hsku. split; [by apply read_public_ip|].
    pose proof (public_ip_outcome r Hdict Hkind Hsku) as Hout.
    split; intros Hname; rewrite Hname in Hout; [|done].
    split; [done|]. unfold arm_cost. by rewrite Hout. }
  split.
  { intros Hdict Hkind. pose proof (read_other r Hdict Hkind) as Hext.
    split; [done|].
    pose proof (arm_outcome_read r _ None Hdict eq_refl Hext) as Hout.
    split; [done|]. unfold arm_cost. by rewrite Hout. }
  split.
  { intros Hdict Hkind Hproperties Hprofile.
    pose proof (read_vm r Hdict Hkind Hproperties Hprofile) as Hext.
    split.
    - intros Hfalsy. by rewrite Hfalsy in Hext.
    - intros vm_size Hsize Htruthy. rewrite Hsize in Hext.
      cbn [falsy default from_option id] in Hext. by rewrite Htruthy in Hext. }
  split.
  { intros Hdict Hkind Hsku Hproperties.
    pose proof (read_disk r Hdict Hkind Hsku Hproperties) as Hext.
    split.
    - intros Hfalsy. by rewrite Hfalsy in Hext.
    - intros name Hname Htruthy. rewrite Hname in Hext.
      cbn [falsy default from_option id] in Hext. by rewrite Htruthy in Hext. }
  split.
  { intros Hdict Hkind Hsku.
    pose proof (read_storage r Hdict Hkind Hsku) as Hext.
    split.
    - intros Hfalsy. by rewrite Hfalsy in Hext.
    - intros name Hname Htruthy. rewrite Hname in Hext.
      cbn [falsy default from_option id] in Hext. by rewrite Htruthy in Hext. }
  split.
  { intros Hdict Hkinds Hsku.
    assert (Hext : BudgetValidator._extract_sku_info r = Raise AttributeError).
    { destruct Hkinds as [Hkind|[Hkind|Hkind]];
        apply (read_sku_fails r _ Hdict Hkind); auto. }
    split; [done|]. by apply arm_outcome_raised. }
  intros Hdict Hkind s size Hname Hknown Hsize Hnumber.
  by apply (disk_size_fails r s size).
Qed.

Lemma sku_is_read_by_type_witness :
  (BudgetValidator._extract_sku_info (public_ip_resource "ip-1") =
     Ok (Some {| BudgetValidator.sku := VStr "Standard";
                 BudgetValidator.size_gb := None |}) /\
   arm_outcome (public_ip_resource "ip-1") = Ok 3.65) /\
  arm_outcome (disk_resource "data" "Premium_LRS" (VStr "[parameters('size')]"))
    = Raise TypeError.
Proof.
  split.
  - destruct (proj1 (proj2 (sku_is_read_by_type (public_ip_resource "ip-1") "eastus"))
                eq_refl eq_refl eq_refl) as (Hread & Hcost & _).
    split; [exact Hread|]. exact (proj1 (Hcost eq_refl)).
  - apply (proj2 (proj2 (proj2 (proj2 (proj2 (proj2 (proj2
             (sku_is_read_by_type
                (disk_resource "data" "Premium_LRS" (VStr "[parameters('size')]"))
                "eastus")))))))
             eq_refl eq_refl "Premium_LRS" (VStr "[parameters('size')]")).
    + reflexivity.
    + vm_compute. eauto.
    + reflexivity.
    + reflexivity.
Defined.
